(** * Storefront OAuth gateway: signature verification, OAuth handshake,
      credential issuance, proxy and webhooks

    A shallow embedding of [lib/hmac.js], [lib/validation.js],
    [lib/utils.js], [lib/shopify.js] and [lib/handlers.js].

    Conventions of the embedding:
    - a JavaScript string is a [string]; its characters are the code units
      [charCodeAt] returns (the model covers code units below 256; the
      constant-time comparison is modelled on lists of 16-bit code units);
    - numbers that go through [|] and [^] are [Z] with the 32-bit wrap of
      ToInt32 written out;
    - the three KV namespaces are [gmap]s from key to an entry with an
      optional expiration time;
    - handlers are computations in a state-and-exception monad over the
      world (the namespaces, the clock, the log of KV accesses and of
      upstream calls);
    - Web Crypto's HMAC-SHA256, [TextEncoder], [btoa] and the regular
      expression test are modelled from their specifications and checked
      against published test vectors;
    - what else the platform provides and the repository only calls
      ([localeCompare], [JSON.parse], ToString of a non-string,
      [crypto.randomUUID], the clock, [fetch]) is a field of the record
      [Runtime]. *)

From Stdlib Require Import ZArith QArith String Ascii List Bool Lia Sorting.Sorted Permutation.
From stdpp Require Import base option list strings gmap.

Set Warnings "-register-all".

Local Open Scope string_scope.
Local Open Scope Z_scope.

(** ** JavaScript numbers used as 32-bit integers *)

Module Int32.

(** ToInt32 of an integral number. *)
Definition ToInt32 (x : Z) : Z :=
  let m := x mod 2 ^ 32 in
  if 2 ^ 31 <=? m then m - 2 ^ 32 else m.

(** [NaN] is [None]; ToInt32(NaN) is 0. *)
Definition ofNumber (x : option Z) : Z :=
  match x with
  | Some v => ToInt32 v
  | None => 0
  end.

(** [x ^ y] *)
Definition xor (x y : option Z) : Z :=
  ToInt32 (Z.lxor (ofNumber x) (ofNumber y)).

(** [x | y] *)
Definition or (x y : Z) : Z :=
  ToInt32 (Z.lor (ToInt32 x) (ToInt32 y)).

End Int32.

(** ** Strings *)

(** The code units of a string, as [charCodeAt] returns them. *)
Definition code_units (s : string) : list Z :=
  map (fun c => Z.of_N (N_of_ascii c)) (list_ascii_of_string s).

(** A UTF-16 code unit. *)
Definition is_code_unit (c : Z) : Prop := 0 <= c < 65536.

(** [s.charCodeAt(i)] on the code units of [s]: NaN ([None]) out of
    range. *)
Definition charCodeAt (s : list Z) (i : nat) : option Z := nth_error s i.

(** [String.fromCharCode(...bytes)] *)
Definition fromCharCodes (l : list Z) : string :=
  string_of_list_ascii (map (fun x => ascii_of_N (Z.to_N x)) l).

(** [parts.join(sep)] *)
Fixpoint join (sep : string) (parts : list string) : string :=
  match parts with
  | [] => ""
  | [p] => p
  | p :: rest => p ++ sep ++ join sep rest
  end.

(** [s.startsWith(p)] *)
Definition startsWith (s p : string) : bool := String.prefix p s.

(** [s.substring(n)] *)
Definition substring_from (n : nat) (s : string) : string :=
  String.substring n (String.length s - n) s.

(** ** lib/hmac.js: timingSafeEqual

    The two strings are given by their code units, so that the comparison
    is modelled for every JavaScript string. *)

(** The [for] loop of [timingSafeEqual]; [steps] is [a.length - i], the
    number of iterations left.  The loop state is [(i, result)]. *)
Fixpoint timingSafeEqual_loop (a b : list Z) (steps i : nat) (result : Z) : nat * Z :=
  match steps with
  | O => (i, result)
  | S steps' =>
      timingSafeEqual_loop a b steps' (S i)
        (Int32.or result (Int32.xor (charCodeAt a i) (charCodeAt b i)))
  end.

Definition timingSafeEqual (a b : list Z) : bool :=
  if negb (length a =? length b)%nat then false
  else
    let '(_, result) := timingSafeEqual_loop a b (length a) 0 0 in
    result =? 0.

(** One step of the accumulation, on a pair of code units. *)
Definition xor_accumulate (result : Z) (pair : Z * Z) : Z :=
  Int32.or result (Int32.xor (Some (fst pair)) (Some (snd pair))).

(** ** Encodings used by the signature verifier *)

(** [new TextEncoder().encode(s)]: UTF-8; a code unit below 128 is one
    byte, one from 128 to 255 is two. *)
Definition utf8_of_code (c : Z) : list Z :=
  if c <? 128 then [c]
  else [Z.lor 192 (Z.shiftr c 6); Z.lor 128 (Z.land c 63)].

Definition TextEncoder_encode (s : string) : list Z :=
  flat_map utf8_of_code (code_units s).

Definition hex_digit (d : Z) : ascii :=
  if d <? 10 then ascii_of_N (Z.to_N (48 + d))
  else ascii_of_N (Z.to_N (87 + d)).

(** [byte.toString(16).padStart(2, '0')] *)
Definition hex_of_byte (b : Z) : string :=
  String (hex_digit (b / 16)) (String (hex_digit (b mod 16)) "").

(** [hashArray.map(byte => byte.toString(16).padStart(2, '0')).join('')] *)
Definition hex_of_bytes (l : list Z) : string :=
  join "" (map hex_of_byte l).

Definition base64_alphabet : string :=
  "ABCDEFGHIJKLMNOPQRSTUVWXYZabcdefghijklmnopqrstuvwxyz0123456789+/".

Definition base64_char (i : Z) : ascii :=
  match String.get (Z.to_nat i) base64_alphabet with
  | Some c => c
  | None => "="%char
  end.

(** Base64 of a sequence of bytes. *)
Fixpoint btoa_bytes (l : list Z) : string :=
  match l with
  | [] => ""
  | [a] =>
      String (base64_char (a / 4))
        (String (base64_char ((a mod 4) * 16)) "==")
  | [a; b] =>
      String (base64_char (a / 4))
        (String (base64_char ((a mod 4) * 16 + b / 16))
           (String (base64_char ((b mod 16) * 4)) "="))
  | a :: b :: c :: rest =>
      String (base64_char (a / 4))
        (String (base64_char ((a mod 4) * 16 + b / 16))
           (String (base64_char ((b mod 16) * 4 + c / 64))
              (String (base64_char (c mod 64)) (btoa_bytes rest))))
  end.

(** [btoa(s)] for a binary string [s]. *)
Definition btoa (s : string) : string := btoa_bytes (code_units s).

(** ** SHA-256 and HMAC (FIPS 180-4, RFC 2104)

    What [crypto.subtle.sign('HMAC', key, data)] computes for a key
    imported with [{ name: 'HMAC', hash: 'SHA-256' }].  Words are [Z]
    reduced modulo [2 ^ 32]; bytes are [Z] below 256. *)

Module Sha256.

Definition w32 (x : Z) : Z := x mod 2 ^ 32.
Definition add32 (x y : Z) : Z := w32 (x + y).
Definition rotr (n x : Z) : Z := w32 (Z.lor (Z.shiftr x n) (Z.shiftl x (32 - n))).
Definition not32 (x : Z) : Z := Z.lxor x (2 ^ 32 - 1).

Definition Ch (x y z : Z) : Z := Z.lxor (Z.land x y) (Z.land (not32 x) z).
Definition Maj (x y z : Z) : Z :=
  Z.lxor (Z.lxor (Z.land x y) (Z.land x z)) (Z.land y z).
Definition Sigma0 (x : Z) : Z := Z.lxor (Z.lxor (rotr 2 x) (rotr 13 x)) (rotr 22 x).
Definition Sigma1 (x : Z) : Z := Z.lxor (Z.lxor (rotr 6 x) (rotr 11 x)) (rotr 25 x).
Definition sigma0 (x : Z) : Z := Z.lxor (Z.lxor (rotr 7 x) (rotr 18 x)) (Z.shiftr x 3).
Definition sigma1 (x : Z) : Z := Z.lxor (Z.lxor (rotr 17 x) (rotr 19 x)) (Z.shiftr x 10).

(** The constants are the first 32 bits of the fractional parts of the
    cube roots ([K], 64 primes) and of the square roots ([H0], 8 primes)
    of the first primes. *)
Definition is_prime (n : Z) : bool :=
  forallb (fun d => negb (n mod d =? 0)) (map Z.of_nat (seq 2 (Z.to_nat n - 2))).

Definition primes (count : nat) : list Z :=
  firstn count (List.filter is_prime (map Z.of_nat (seq 2 310))).

(** The integer cube root, one bit at a time from the top. *)
Fixpoint cube_root_bits (bits : nat) (n r : Z) : Z :=
  match bits with
  | O => r
  | S bits' =>
      let r' := r + 2 ^ Z.of_nat bits' in
      cube_root_bits bits' n (if r' * r' * r' <=? n then r' else r)
  end.

Definition frac_cube_root (p : Z) : Z := w32 (cube_root_bits 40 (p * 2 ^ 96) 0).
Definition frac_square_root (p : Z) : Z := w32 (Z.sqrt (p * 2 ^ 64)).

Definition K : list Z := Eval vm_compute in map frac_cube_root (primes 64).
Definition H0 : list Z := Eval vm_compute in map frac_square_root (primes 8).

(** Big-endian bytes of a number, [n] of them. *)
Fixpoint be_bytes (n : nat) (x : Z) : list Z :=
  match n with
  | O => []
  | S n' => be_bytes n' (x / 256) ++ [x mod 256]
  end.

Definition be_word (bs : list Z) : Z :=
  fold_left (fun acc b => acc * 256 + b) bs 0.

(** The message, a one bit, zero bytes up to 56 modulo 64, and the bit
    length on eight bytes. *)
Definition pad (msg : list Z) : list Z :=
  let len := Z.of_nat (length msg) in
  let zeros := Z.to_nat ((55 - len) mod 64) in
  msg ++ [128] ++ repeat 0 zeros ++ be_bytes 8 (8 * len).

Fixpoint chunks (steps : nat) (size : nat) (l : list Z) : list (list Z) :=
  match steps with
  | O => []
  | S steps' =>
      match l with
      | [] => []
      | _ => firstn size l :: chunks steps' size (skipn size l)
      end
  end.

Definition words_of_block (block : list Z) : list Z :=
  map be_word (chunks 16 4 block).

(** The message schedule, most recent word first: [rev_w] holds
    [W (t-1)], [W (t-2)], ... *)
Fixpoint schedule (steps : nat) (rev_w : list Z) : list Z :=
  match steps with
  | O => rev_w
  | S steps' =>
      let w := add32 (add32 (sigma1 (nth 1 rev_w 0)) (nth 6 rev_w 0))
                     (add32 (sigma0 (nth 14 rev_w 0)) (nth 15 rev_w 0)) in
      schedule steps' (w :: rev_w)
  end.

Definition message_schedule (block : list Z) : list Z :=
  rev (schedule 48 (rev (words_of_block block))).

Record regs := Regs { ra : Z; rb : Z; rc : Z; rd : Z; re : Z; rf : Z; rg : Z; rh : Z }.

Definition round (s : regs) (kw : Z * Z) : regs :=
  let '(k, w) := kw in
  let t1 := add32 (add32 (add32 (rh s) (Sigma1 (re s))) (Ch (re s) (rf s) (rg s)))
                  (add32 k w) in
  let t2 := add32 (Sigma0 (ra s)) (Maj (ra s) (rb s) (rc s)) in
  Regs (add32 t1 t2) (ra s) (rb s) (rc s) (add32 (rd s) t1) (re s) (rf s) (rg s).

Definition regs_of_list (h : list Z) : regs :=
  Regs (nth 0 h 0) (nth 1 h 0) (nth 2 h 0) (nth 3 h 0)
       (nth 4 h 0) (nth 5 h 0) (nth 6 h 0) (nth 7 h 0).

Definition list_of_regs (s : regs) : list Z :=
  [ra s; rb s; rc s; rd s; re s; rf s; rg s; rh s].

Definition compress (h : list Z) (block : list Z) : list Z :=
  let s := fold_left round (combine K (message_schedule block)) (regs_of_list h) in
  map (fun p => add32 (fst p) (snd p)) (combine h (list_of_regs s)).

Definition sha256 (msg : list Z) : list Z :=
  let padded := pad msg in
  let blocks := chunks (length padded) 64 padded in
  flat_map (be_bytes 4) (fold_left compress blocks H0).

Definition block_size : nat := 64.

Definition hmac_key (key : list Z) : list Z :=
  let k := if (block_size <? length key)%nat then sha256 key else key in
  k ++ repeat 0 (block_size - length k).

Definition hmac (key msg : list Z) : list Z :=
  let k := hmac_key key in
  let ikey := map (Z.lxor 0x36) k in
  let okey := map (Z.lxor 0x5c) k in
  sha256 (okey ++ sha256 (ikey ++ msg)).

End Sha256.

(** [crypto.subtle.importKey('raw', keyData, HMAC/SHA-256, ...)] followed by
    [crypto.subtle.sign('HMAC', key, data)].  Importing an empty key is
    rejected with a DataError ([None]). *)
Definition subtle_sign_hmac_sha256 (keyData messageData : list Z) : option (list Z) :=
  match keyData with
  | [] => None
  | _ => Some (Sha256.hmac keyData messageData)
  end.

(** ** Regular expressions, as far as lib/validation.js needs them *)

Inductive regex : Type :=
| ReNone
| ReEps
| ReClass (p : ascii -> bool)
| ReSeq (r1 r2 : regex)
| ReAlt (r1 r2 : regex)
| ReStar (r : regex).

Fixpoint nullable (r : regex) : bool :=
  match r with
  | ReNone => false
  | ReEps => true
  | ReClass _ => false
  | ReSeq r1 r2 => nullable r1 && nullable r2
  | ReAlt r1 r2 => nullable r1 || nullable r2
  | ReStar _ => true
  end.

Fixpoint deriv (c : ascii) (r : regex) : regex :=
  match r with
  | ReNone => ReNone
  | ReEps => ReNone
  | ReClass p => if p c then ReEps else ReNone
  | ReSeq r1 r2 =>
      if nullable r1 then ReAlt (ReSeq (deriv c r1) r2) (deriv c r2)
      else ReSeq (deriv c r1) r2
  | ReAlt r1 r2 => ReAlt (deriv c r1) (deriv c r2)
  | ReStar r1 => ReSeq (deriv c r1) (ReStar r1)
  end.

(** [/^r$/.test(s)] *)
Fixpoint regex_test (r : regex) (s : string) : bool :=
  match s with
  | EmptyString => nullable r
  | String c s' => regex_test (deriv c r) s'
  end.

Fixpoint ReLit (s : string) : regex :=
  match s with
  | EmptyString => ReEps
  | String c s' => ReSeq (ReClass (Ascii.eqb c)) (ReLit s')
  end.

Definition in_range (lo hi c : ascii) : bool :=
  ((N_of_ascii lo <=? N_of_ascii c) && (N_of_ascii c <=? N_of_ascii hi))%N.

(** [[a-zA-Z0-9]] *)
Definition is_alnum (c : ascii) : bool :=
  in_range "a" "z" c || in_range "A" "Z" c || in_range "0" "9" c.

(** [[a-zA-Z0-9-]] *)
Definition is_alnum_dash (c : ascii) : bool :=
  is_alnum c || Ascii.eqb c "-".

(** The strings a regular expression matches in full. *)
Inductive matches : regex -> string -> Prop :=
| MEps : matches ReEps ""
| MClass p c : p c = true -> matches (ReClass p) (String c "")
| MSeq r1 r2 s1 s2 :
    matches r1 s1 -> matches r2 s2 -> matches (ReSeq r1 r2) (s1 ++ s2)
| MAltL r1 r2 s : matches r1 s -> matches (ReAlt r1 r2) s
| MAltR r1 r2 s : matches r2 s -> matches (ReAlt r1 r2) s
| MStarNil r : matches (ReStar r) ""
| MStarCons r s1 s2 :
    matches r s1 -> matches (ReStar r) s2 -> matches (ReStar r) (s1 ++ s2).

(** Every character of the string is in the class. *)
Fixpoint all_in (p : ascii -> bool) (s : string) : bool :=
  match s with
  | EmptyString => true
  | String c s' => p c && all_in p s'
  end.

(** [/^[a-zA-Z0-9][a-zA-Z0-9-]*\.myshopify\.com$/] *)
Definition shop_domain_regex : regex :=
  ReSeq (ReClass is_alnum)
    (ReSeq (ReStar (ReClass is_alnum_dash)) (ReLit ".myshopify.com")).

(** ** JSON values and JavaScript values *)

Inductive json : Type :=
| JNull
| JBool (b : bool)
| JNum (x : Q)
| JStr (s : string)
| JArr (items : list json)
| JObj (members : list (string * json)).

(** A JavaScript value that came out of JSON: [None] is [undefined]. *)
Definition jsval : Type := option json.

Definition truthy (v : jsval) : bool :=
  match v with
  | None => false
  | Some JNull => false
  | Some (JBool b) => b
  | Some (JNum x) => negb (Qeq_bool x 0)
  | Some (JStr s) => negb (String.eqb s "")
  | Some (JArr _) => true
  | Some (JObj _) => true
  end.

(** Truthiness of a string that may be [null] or [undefined]. *)
Definition truthy_str (v : option string) : bool :=
  match v with
  | None => false
  | Some s => negb (String.eqb s "")
  end.

Fixpoint assoc (key : string) (l : list (string * json)) : jsval :=
  match l with
  | [] => None
  | (k, v) :: rest => if String.eqb k key then Some v else assoc key rest
  end.

(** [o.key] for [o] that is neither [null] nor [undefined]; the handlers
    read only members that primitives and arrays do not have. *)
Definition member (o : json) (key : string) : jsval :=
  match o with
  | JObj members => assoc key members
  | _ => None
  end.

(** A member of an object literal given to [JSON.stringify]: an
    [undefined] value is left out. *)
Definition field (key : string) (v : jsval) : list (string * json) :=
  match v with
  | Some j => [(key, j)]
  | None => []
  end.

(** ** What the platform provides *)

Record FetchRequest : Type := {
  fr_url : string;
  fr_method : jsval;
  fr_headers : list (string * jsval);
  fr_body : jsval;
}.

Inductive JsError : Type :=
| AuthenticationError (message : string) (statusCode : Z)
| ValidationError (message : string) (statusCode : Z)
| ConfigurationError (message : string) (statusCode : Z)
| PlatformError (name message : string).

Definition error_message (e : JsError) : string :=
  match e with
  | AuthenticationError m _ => m
  | ValidationError m _ => m
  | ConfigurationError m _ => m
  | PlatformError _ m => m
  end.

Inductive Outcome (A : Type) : Type :=
| Returned (a : A)
| Threw (e : JsError).
Arguments Returned {A} a.
Arguments Threw {A} e.

Record UpstreamResponse : Type := {
  resp_status : Z;
  resp_json : Outcome json;     (* [response.json()] *)
}.

(** [response.ok] *)
Definition resp_ok (r : UpstreamResponse) : bool :=
  (200 <=? resp_status r) && (resp_status r <=? 299).

(** What the platform refuses with an exception; the text of the message
    is the engine's own. *)
Inductive PlatformFailure : Type :=
| InvalidJSON (text : string)                          (* [JSON.parse(text)] *)
| InvalidStatus (status : Z)                           (* [new Response(body, { status })] *)
| NullBodyStatus (status : Z)                          (* the same, with a body *)
| InvalidURL (input : string) (base : option string).  (* [new URL(input, base)] *)

Record Runtime : Type := {
  (** [a.localeCompare(b)]: negative, zero or positive *)
  localeCompare : string -> string -> Z;
  (** [JSON.parse(text)]; [None] is a SyntaxError *)
  JSON_parse : string -> option json;
  (** ToString of a JSON value that is not a string, [null] or a boolean *)
  ToString : json -> string;
  (** [crypto.randomUUID()], by the number of events so far *)
  randomUUID : nat -> string;
  (** [new Date(t).toISOString()] *)
  toISOString : Z -> string;
  (** [fetch(url, options)], by the number of events so far; a rejected
      promise is [Threw] *)
  fetch : nat -> FetchRequest -> Outcome UpstreamResponse;
  (** [URL.canParse(input, base)]: whether [new URL(input, base)] succeeds *)
  URL_canParse : string -> string -> bool;
  (** the message of the exception the platform throws *)
  failure_message : PlatformFailure -> string;
}.

(** ** lib/constants.js *)

Definition STATE_TTL_SECONDS : Z := 600.
Definition API_KEY_TTL_DAYS : Z := 90.

Module ERROR_MESSAGES.
Definition INVALID_SHOP : string := "Invalid shop domain".
Definition INVALID_HMAC : string := "Invalid HMAC signature".
Definition INVALID_STATE : string := "Invalid state parameter".
Definition INVALID_WEBHOOK : string := "Invalid webhook signature".
Definition APP_NOT_INSTALLED : string := "App not installed".
Definition MISSING_AUTH : string := "Missing or invalid authorization".
Definition INVALID_API_KEY : string := "Invalid API key".
Definition MISSING_ENDPOINT : string := "Missing endpoint parameter".
Definition MISSING_OAUTH_PARAMS : string := "Missing required OAuth parameters".
Definition FAILED_TOKEN_EXCHANGE : string := "Failed to exchange code for token".
Definition FAILED_PROXY : string := "Failed to proxy request".
Definition FAILED_AUTH_INIT : string := "Failed to initialize authentication".
Definition MISSING_ENV : string := "Missing required environment variables".
End ERROR_MESSAGES.

(** ** The KV namespaces and the world *)

Record KVEntry (V : Type) : Type := {
  kv_value : V;
  kv_expiration : option Z;      (* absolute time, in seconds *)
}.
Arguments kv_value {V} _.
Arguments kv_expiration {V} _.

Definition kv_live {V} (now : Z) (e : KVEntry V) : bool :=
  match kv_expiration e with
  | Some t => now <? t
  | None => true
  end.

(** [ns.get(key)]: an expired entry reads as [null], like a missing one. *)
Definition kv_get {V} (now : Z) (ns : gmap string (KVEntry V)) (key : string) : option V :=
  match ns !! key with
  | Some e => if kv_live now e then Some (kv_value e) else None
  | None => None
  end.

(** [ns.put(key, value, { expirationTtl })] *)
Definition kv_put {V} (now : Z) (ns : gmap string (KVEntry V)) (key : string)
    (value : V) (expirationTtl : option Z) : gmap string (KVEntry V) :=
  <[key := {| kv_value := value;
              kv_expiration := (fun ttl => now + ttl) <$> expirationTtl |}]> ns.

(** [ns.delete(key)] *)
Definition kv_delete {V} (ns : gmap string (KVEntry V)) (key : string)
    : gmap string (KVEntry V) :=
  delete key ns.

Inductive Namespace : Type := NsSHOPS | NsAUTH_STATES | NsAPI_KEYS.

Inductive Event : Type :=
| EvGet (ns : Namespace) (key : string)
| EvPut (ns : Namespace) (key : string)
| EvDelete (ns : Namespace) (key : string)
| EvRandomUUID
| EvFetch (request : FetchRequest).

(** The KV bindings of [env], the clock and the log of what a handler did
    (oldest event first).  [SHOPS] and [API_KEYS] hold the JSON text
    [JSON.stringify] produced, kept as the value it denotes; [AUTH_STATES]
    holds plain text. *)
Record World : Type := {
  SHOPS : gmap string (KVEntry json);
  AUTH_STATES : gmap string (KVEntry string);
  API_KEYS : gmap string (KVEntry json);
  now : Z;
  log : list Event;
}.

(** The variables of [env]. *)
Record Env : Type := {
  SHOPIFY_API_KEY : string;
  SHOPIFY_API_SECRET : string;
  APP_URL : option string;
  OAUTH_SCOPES : string;
  SHOPIFY_APP_HANDLE : string;
  SHOPIFY_API_VERSION : string;
}.

Definition set_SHOPS (m : gmap string (KVEntry json)) (w : World) : World :=
  {| SHOPS := m; AUTH_STATES := AUTH_STATES w; API_KEYS := API_KEYS w;
     now := now w; log := log w |}.

Definition set_AUTH_STATES (m : gmap string (KVEntry string)) (w : World) : World :=
  {| SHOPS := SHOPS w; AUTH_STATES := m; API_KEYS := API_KEYS w;
     now := now w; log := log w |}.

Definition set_API_KEYS (m : gmap string (KVEntry json)) (w : World) : World :=
  {| SHOPS := SHOPS w; AUTH_STATES := AUTH_STATES w; API_KEYS := m;
     now := now w; log := log w |}.

Definition set_now (t : Z) (w : World) : World :=
  {| SHOPS := SHOPS w; AUTH_STATES := AUTH_STATES w; API_KEYS := API_KEYS w;
     now := t; log := log w |}.

Definition record (e : Event) (w : World) : World :=
  {| SHOPS := SHOPS w; AUTH_STATES := AUTH_STATES w; API_KEYS := API_KEYS w;
     now := now w; log := log w ++ [e] |}.

Definition is_store_access (e : Event) : bool :=
  match e with
  | EvGet _ _ | EvPut _ _ | EvDelete _ _ => true
  | _ => false
  end.

Definition is_upstream_call (e : Event) : bool :=
  match e with
  | EvFetch _ => true
  | _ => false
  end.

Definition store_accesses (w : World) : list Event := List.filter is_store_access (log w).
Definition upstream_calls (w : World) : list Event := List.filter is_upstream_call (log w).

(** ** Handlers as computations: state and exceptions *)

Definition M (A : Type) : Type := World -> Outcome A * World.

Definition ret {A} (a : A) : M A := fun w => (Returned a, w).
Definition throw {A} (e : JsError) : M A := fun w => (Threw e, w).

Definition bind {A B} (c : M A) (k : A -> M B) : M B :=
  fun w =>
    match c w with
    | (Returned a, w') => k a w'
    | (Threw e, w') => (Threw e, w')
    end.

(** [try { c } catch (error) { h(error) }] *)
Definition try_catch {A} (c : M A) (h : JsError -> M A) : M A :=
  fun w =>
    match c w with
    | (Returned a, w') => (Returned a, w')
    | (Threw e, w') => h e w'
    end.

Notation "'let*' x ':=' c 'in' k" := (bind c (fun x => k))
  (at level 10, x name, c at level 100, k at level 200).
Notation "'run' c 'in' k" := (bind c (fun _ => k))
  (at level 10, c at level 100, k at level 200).

(** Awaiting something the platform settled. *)
Definition settle {A} (o : Outcome A) : M A := fun w => (o, w).

Definition SHOPS_get (key : string) : M jsval :=
  fun w => (Returned (kv_get (now w) (SHOPS w) key), record (EvGet NsSHOPS key) w).

Definition SHOPS_put (key : string) (value : json) : M unit :=
  fun w => (Returned tt,
            record (EvPut NsSHOPS key)
              (set_SHOPS (kv_put (now w) (SHOPS w) key value None) w)).

Definition SHOPS_delete (key : string) : M unit :=
  fun w => (Returned tt,
            record (EvDelete NsSHOPS key) (set_SHOPS (kv_delete (SHOPS w) key) w)).

Definition AUTH_STATES_get (key : string) : M (option string) :=
  fun w => (Returned (kv_get (now w) (AUTH_STATES w) key),
            record (EvGet NsAUTH_STATES key) w).

Definition AUTH_STATES_put (key value : string) (expirationTtl : Z) : M unit :=
  fun w => (Returned tt,
            record (EvPut NsAUTH_STATES key)
              (set_AUTH_STATES
                 (kv_put (now w) (AUTH_STATES w) key value (Some expirationTtl)) w)).

Definition AUTH_STATES_delete (key : string) : M unit :=
  fun w => (Returned tt,
            record (EvDelete NsAUTH_STATES key)
              (set_AUTH_STATES (kv_delete (AUTH_STATES w) key) w)).

Definition API_KEYS_get (key : string) : M jsval :=
  fun w => (Returned (kv_get (now w) (API_KEYS w) key),
            record (EvGet NsAPI_KEYS key) w).

Definition API_KEYS_put (key : string) (value : json) (expirationTtl : Z) : M unit :=
  fun w => (Returned tt,
            record (EvPut NsAPI_KEYS key)
              (set_API_KEYS
                 (kv_put (now w) (API_KEYS w) key value (Some expirationTtl)) w)).

(** ** Requests and responses *)

(** [URLSearchParams]: the list of its entries, in order. *)
Definition URLSearchParams : Type := list (string * string).

(** [params.get(name)]: the first value of that name, or [null]. *)
Fixpoint params_get (params : URLSearchParams) (name : string) : option string :=
  match params with
  | [] => None
  | (k, v) :: rest => if String.eqb k name then Some v else params_get rest name
  end.

(** [params.delete(name)]: every entry of that name goes. *)
Definition params_delete (params : URLSearchParams) (name : string) : URLSearchParams :=
  List.filter (fun p => negb (String.eqb (fst p) name)) params.

(** [Object.fromEntries(params)[name]]: a later entry overwrites an
    earlier one. *)
Definition fromEntries_get (params : URLSearchParams) (name : string) : option string :=
  params_get (rev params) name.

Record URL : Type := {
  origin : string;
  pathname : string;
  searchParams : URLSearchParams;
}.

Record Request : Type := {
  req_method : string;
  req_url : URL;
  req_Authorization : option string;            (* [headers.get('Authorization')] *)
  req_X_Shopify_Hmac_Sha256 : option string;    (* [headers.get('X-Shopify-Hmac-Sha256')] *)
  req_body : string;                            (* [request.text()] *)
}.

(** The responses the handlers build.  [HtmlErrorPage] is the
    page of lib/error-handler.js; the last four are the pages and the
    redirect of lib/templates.js, kept by template and arguments. *)
Inductive Response : Type :=
| JsonResponse (data : json) (status : Z) (headers : list (string * string))
| RedirectResponse (location : string) (status : Z)
| TextResponse (body : string) (status : Z)
| PreflightResponse (headers : list (string * string))
| HtmlErrorPage (status : Z) (message : string)
| LandingPage
| InstallRedirect (shop : string)
| AccessDeniedPage (shop : string)
| EmbeddedApp (shop host : string).

Definition response_status (r : Response) : Z :=
  match r with
  | JsonResponse _ status _ => status
  | RedirectResponse _ status => status
  | TextResponse _ status => status
  | PreflightResponse _ => 200
  | HtmlErrorPage status _ => status
  | LandingPage => 200
  | InstallRedirect _ => 302
  | AccessDeniedPage _ => 403
  | EmbeddedApp _ _ => 200
  end.

(** [new Response(body, { status })] with a body that is not null takes
    a status from 200 to 599 that is not a null-body status. *)
Definition is_null_body_status (status : Z) : bool :=
  (status =? 101) || (status =? 103) || (status =? 204) || (status =? 205)
  || (status =? 304).

Definition Response_status_in_range (status : Z) : bool :=
  (200 <=? status) && (status <=? 599).


(** [application/x-www-form-urlencoded] serialisation, what
    [`${new URLSearchParams(...)}`] gives. *)
Definition HEX_digit (d : Z) : ascii :=
  if d <? 10 then ascii_of_N (Z.to_N (48 + d))
  else ascii_of_N (Z.to_N (55 + d)).

Definition urlencode_byte (b : Z) : string :=
  let c := ascii_of_N (Z.to_N b) in
  if is_alnum c || Ascii.eqb c "*" || Ascii.eqb c "-" || Ascii.eqb c "."
     || Ascii.eqb c "_"
  then String c ""
  else if b =? 32 then "+"
  else String "%" (String (HEX_digit (b / 16)) (String (HEX_digit (b mod 16)) "")).

Definition urlencode (s : string) : string :=
  join "" (map urlencode_byte (TextEncoder_encode s)).

(** [encodeURIComponent(s)] *)
Definition encodeURIComponent_byte (b : Z) : string :=
  let c := ascii_of_N (Z.to_N b) in
  if is_alnum c || Ascii.eqb c "-" || Ascii.eqb c "_" || Ascii.eqb c "."
     || Ascii.eqb c "!" || Ascii.eqb c "~" || Ascii.eqb c "*" || Ascii.eqb c "'"
     || Ascii.eqb c "(" || Ascii.eqb c ")"
  then String c ""
  else String "%" (String (HEX_digit (b / 16)) (String (HEX_digit (b mod 16)) "")).

Definition encodeURIComponent (s : string) : string :=
  join "" (map encodeURIComponent_byte (TextEncoder_encode s)).

Definition URLSearchParams_toString (params : URLSearchParams) : string :=
  join "&" (map (fun p => urlencode (fst p) ++ "=" ++ urlencode (snd p)) params).

(** [array.sort(compare)]: the sort is stable; an element goes before the
    first one it does not compare greater than. *)
Fixpoint sort_insert {A} (compare : A -> A -> Z) (x : A) (sorted : list A) : list A :=
  match sorted with
  | [] => [x]
  | y :: rest =>
      if compare x y <=? 0 then x :: y :: rest
      else y :: sort_insert compare x rest
  end.

Definition Array_sort {A} (compare : A -> A -> Z) (l : list A) : list A :=
  fold_right (sort_insert compare) [] l.

Section Handlers.

Context (rt : Runtime).

(** ToString, as a template literal, a KV key or [RegExp.test] applies it. *)
Definition to_string (v : json) : string :=
  match v with
  | JStr s => s
  | JNull => "null"
  | JBool true => "true"
  | JBool false => "false"
  | _ => ToString rt v
  end.

Definition template (v : jsval) : string :=
  match v with
  | None => "undefined"
  | Some j => to_string j
  end.

Definition of_str (s : option string) : jsval := JStr <$> s.

(** Reading a member: a TypeError on [null]. *)
Definition get_member (o : json) (key : string) : M jsval :=
  match o with
  | JNull =>
      throw (PlatformError "TypeError"
               ("Cannot read properties of null (reading '" ++ key ++ "')"))
  | _ => ret (member o key)
  end.

(** [const { key } = o]: a TypeError on [null]. *)
Definition destructure (o : json) (name key : string) : M jsval :=
  match o with
  | JNull =>
      throw (PlatformError "TypeError"
               ("Cannot destructure property '" ++ key ++ "' of '" ++ name
                ++ "' as it is null."))
  | _ => ret (member o key)
  end.

(** [crypto.randomUUID()] *)
Definition crypto_randomUUID : M string :=
  fun w => (Returned (randomUUID rt (length (log w))), record EvRandomUUID w).

(** [new Date().toISOString()] *)
Definition Date_toISOString : M string :=
  fun w => (Returned (toISOString rt (now w)), w).

(** [await fetch(url, options)] *)
Definition do_fetch (request : FetchRequest) : M UpstreamResponse :=
  fun w => (fetch rt (length (log w)) request, record (EvFetch request) w).

(** *** lib/hmac.js *)

Definition verifyShopifyHmac (params : URLSearchParams) (secret : string) : bool :=
  match params_get params "hmac" with
  | None => false
  | Some providedHmac =>
      if String.eqb providedHmac "" then false
      else
        let paramsCopy := params_delete (params_delete params "hmac") "signature" in
        let sortedParams :=
          join "&"
            (map (fun p => fst p ++ "=" ++ snd p)
               (Array_sort (fun a b => localeCompare rt (fst a) (fst b)) paramsCopy)) in
        match subtle_sign_hmac_sha256 (TextEncoder_encode secret)
                (TextEncoder_encode sortedParams) with
        | None => false
        | Some signature =>
            timingSafeEqual (code_units providedHmac)
              (code_units (hex_of_bytes signature))
        end
  end.

Definition verifyWebhookHmac (body : string) (hmac : option string) (secret : string)
    : bool :=
  match hmac with
  | None => false
  | Some hmac =>
      if String.eqb hmac "" || String.eqb secret "" || String.eqb body "" then false
      else
        match subtle_sign_hmac_sha256 (TextEncoder_encode secret)
                (TextEncoder_encode body) with
        | None => false
        | Some signature =>
            timingSafeEqual (code_units hmac)
              (code_units (btoa (fromCharCodes signature)))
        end
  end.

(** *** lib/validation.js *)

Definition isValidShopDomain (shop : jsval) : bool :=
  if negb (truthy shop) then false
  else regex_test shop_domain_regex (template shop).

(** [!!data] on the text of an entry: the text [JSON.stringify] wrote is
    never empty. *)
Definition checkInstallation (shop : string) : M bool :=
  try_catch
    (let* data := SHOPS_get shop in
     ret (match data with Some _ => true | None => false end))
    (fun _ => ret false).

(** *** lib/utils.js *)

Definition getCorsHeaders : list (string * string) :=
  [ ("Access-Control-Allow-Origin", "*");
    ("Access-Control-Allow-Methods", "GET, POST, OPTIONS");
    ("Access-Control-Allow-Headers", "Content-Type, Authorization, X-API-Key") ].

Definition extractApiKey (request : Request) : option string :=
  match req_Authorization request with
  | None => None
  | Some authHeader =>
      if negb (String.eqb authHeader "") && startsWith authHeader "Bearer "
      then Some (substring_from 7 authHeader)
      else None
  end.

Definition parseJsonBody (request : Request) : json :=
  match JSON_parse rt (req_body request) with
  | Some v => v
  | None => JObj []
  end.

(** The response [createJsonResponse] builds.  With the statuses the
    handlers write themselves (200, 400, 401, 403, 500) [new Response]
    accepts it; where the status is the upstream's the handler goes
    through [new_Response]. *)
Definition createJsonResponse (data : json) (status : Z)
    (headers : list (string * string)) : Response :=
  JsonResponse data status (("Content-Type", "application/json") :: headers).

(** [new Response(body, { status, headers })] with a body: a RangeError
    for a status outside 200..599, a TypeError for a null-body status. *)
Definition new_Response (response : Response) : M Response :=
  let status := response_status response in
  if negb (Response_status_in_range status)
  then throw (PlatformError "RangeError" (failure_message rt (InvalidStatus status)))
  else if is_null_body_status status
  then throw (PlatformError "TypeError" (failure_message rt (NullBodyStatus status)))
  else ret response.

Definition buildShopifyAuthUrl (shop clientId scope redirectUri state : string) : string :=
  "https://" ++ shop ++ "/admin/oauth/authorize?"
  ++ URLSearchParams_toString
       [ ("client_id", clientId); ("scope", scope);
         ("redirect_uri", redirectUri); ("state", state) ].

(** *** lib/shopify.js *)

Definition json_headers : list (string * jsval) :=
  [("Content-Type", Some (JStr "application/json"))].

Definition exchangeCodeForToken (shop code : string) (env : Env) : M json :=
  let* response :=
    do_fetch
      {| fr_url := "https://" ++ shop ++ "/admin/oauth/access_token";
         fr_method := Some (JStr "POST");
         fr_headers := json_headers;
         fr_body :=
           Some (JObj [ ("client_id", JStr (SHOPIFY_API_KEY env));
                        ("client_secret", JStr (SHOPIFY_API_SECRET env));
                        ("code", JStr code) ]) |} in
  if negb (resp_ok response)
  then throw (AuthenticationError ERROR_MESSAGES.FAILED_TOKEN_EXCHANGE 401)
  else settle (resp_json response).

Definition storeShopData (shop : string) (tokenData : json) (env : Env) : M unit :=
  let* access_token := get_member tokenData "access_token" in
  let* scope := get_member tokenData "scope" in
  let* installedAt := Date_toISOString in
  SHOPS_put shop
    (JObj (field "accessToken" access_token ++ field "scope" scope
           ++ [("installedAt", JStr installedAt)])).

Definition app_url (env : Env) : string :=
  match APP_URL env with
  | Some u => u
  | None => "undefined"
  end.

Definition mandatory_webhooks (env : Env) : list (string * string) :=
  [ ("customers/redact", app_url env ++ "/webhooks/customers/redact");
    ("shop/redact", app_url env ++ "/webhooks/shop/redact");
    ("customers/data_request", app_url env ++ "/webhooks/customers/data_request") ].

Fixpoint registerMandatoryWebhooks_loop (shop : string) (accessToken : jsval)
    (env : Env) (webhooks : list (string * string)) : M unit :=
  match webhooks with
  | [] => ret tt
  | (topic, address) :: rest =>
      run try_catch
            (run do_fetch
                   {| fr_url := "https://" ++ shop ++ "/admin/api/"
                                ++ SHOPIFY_API_VERSION env ++ "/webhooks.json";
                      fr_method := Some (JStr "POST");
                      fr_headers := ("X-Shopify-Access-Token", accessToken)
                                    :: json_headers;
                      fr_body :=
                        Some (JObj [("webhook",
                                     JObj [ ("topic", JStr topic);
                                            ("address", JStr address) ])]) |}
             in ret tt)
            (fun _ => ret tt)
      in registerMandatoryWebhooks_loop shop accessToken env rest
  end.

Definition registerMandatoryWebhooks (shop : string) (accessToken : jsval) (env : Env)
    : M unit :=
  registerMandatoryWebhooks_loop shop accessToken env (mandatory_webhooks env).

(** [method !== 'GET'] *)
Definition is_not_GET (method : jsval) : bool :=
  match method with
  | Some (JStr m) => negb (String.eqb m "GET")
  | _ => true
  end.

Definition proxyToShopify (shop endpoint method data accessToken : jsval) (env : Env)
    : M (json * Z) :=
  let url := "https://" ++ template shop ++ "/admin/api/"
             ++ SHOPIFY_API_VERSION env ++ template endpoint in
  let body := if is_not_GET method && truthy data then data else None in
  let* response :=
    do_fetch
      {| fr_url := url;
         fr_method := method;
         fr_headers := ("X-Shopify-Access-Token", accessToken) :: json_headers;
         fr_body := body |} in
  let* responseData := settle (resp_json response) in
  ret (responseData, resp_status response).

(** *** lib/templates.js *)

(** [new URL(installUrl, env.APP_URL)] has no base when [APP_URL] is not
    set, and the path alone is no URL. *)
Definition createInstallRedirect (shop : string) (env : Env) : M Response :=
  let installUrl := "/auth?shop=" ++ encodeURIComponent shop in
  match APP_URL env with
  | None =>
      throw (PlatformError "TypeError" (failure_message rt (InvalidURL installUrl None)))
  | Some base =>
      if URL_canParse rt installUrl base then ret (InstallRedirect shop)
      else throw (PlatformError "TypeError"
                    (failure_message rt (InvalidURL installUrl (Some base))))
  end.

(** *** lib/handlers.js *)

Definition handleRootPath (url : URL) (env : Env) : M Response :=
  let shop := params_get (searchParams url) "shop" in
  let embedded := params_get (searchParams url) "embedded" in
  let host := params_get (searchParams url) "host" in
  match shop with
  | None => ret LandingPage
  | Some shop =>
      if String.eqb shop "" then ret LandingPage
      else if negb (isValidShopDomain (Some (JStr shop)))
      then throw (ValidationError ERROR_MESSAGES.INVALID_SHOP 400)
      else
        let* isInstalled := checkInstallation shop in
        if negb isInstalled then createInstallRedirect shop env
        else
          match embedded with
          | Some "1" =>
              (* [isValidHost] only decides what is written to the console *)
              match host with
              | None => ret (AccessDeniedPage shop)
              | Some host =>
                  if String.eqb host "" then ret (AccessDeniedPage shop)
                  else ret (EmbeddedApp shop host)
              end
          | _ =>
              ret (RedirectResponse
                     ("https://" ++ shop ++ "/admin/apps/" ++ SHOPIFY_APP_HANDLE env)
                     302)
          end
  end.

Definition handleOAuth (request : Request) (env : Env) : M Response :=
  let url := req_url request in
  let shop := params_get (searchParams url) "shop" in
  if negb (isValidShopDomain (of_str shop))
  then throw (ValidationError ERROR_MESSAGES.INVALID_SHOP 400)
  else
    let shop := default "" shop in
    let* state := crypto_randomUUID in
    let redirectUri :=
      (if truthy_str (APP_URL env) then app_url env else origin url)
      ++ "/auth/callback" in
    run try_catch
          (AUTH_STATES_put state shop STATE_TTL_SECONDS)
          (fun _ => throw (ConfigurationError ERROR_MESSAGES.FAILED_AUTH_INIT 500))
    in
    let authUrl :=
      buildShopifyAuthUrl shop (SHOPIFY_API_KEY env) (OAUTH_SCOPES env)
        redirectUri state in
    ret (RedirectResponse authUrl 302).

Definition handleOAuthCallback (request : Request) (env : Env) : M Response :=
  let url := req_url request in
  let code := fromEntries_get (searchParams url) "code" in
  let shop := fromEntries_get (searchParams url) "shop" in
  let state := fromEntries_get (searchParams url) "state" in
  let hmac := fromEntries_get (searchParams url) "hmac" in
  if negb (truthy_str code) || negb (truthy_str shop)
     || negb (truthy_str state) || negb (truthy_str hmac)
  then throw (ValidationError ERROR_MESSAGES.MISSING_OAUTH_PARAMS 400)
  else
    let code := default "" code in
    let shop := default "" shop in
    let state := default "" state in
    let* savedShop := AUTH_STATES_get state in
    if negb (bool_decide (savedShop = Some shop))
    then throw (AuthenticationError ERROR_MESSAGES.INVALID_STATE 403)
    else
      run AUTH_STATES_delete state in
      if negb (verifyShopifyHmac (searchParams url) (SHOPIFY_API_SECRET env))
      then throw (AuthenticationError ERROR_MESSAGES.INVALID_HMAC 403)
      else
        let* tokenData := exchangeCodeForToken shop code env in
        run storeShopData shop tokenData env in
        let* access_token := get_member tokenData "access_token" in
        run registerMandatoryWebhooks shop access_token env in
        ret (RedirectResponse
               ("https://" ++ shop ++ "/admin/apps/" ++ SHOPIFY_APP_HANDLE env)
               302).

Definition handleExtensionAuth (request : Request) (env : Env)
    (corsHeaders : list (string * string)) : M Response :=
  let body := parseJsonBody request in
  let* shop := destructure body "body" "shop" in
  if negb (isValidShopDomain shop)
  then ret (createJsonResponse
              (JObj [("error", JStr ERROR_MESSAGES.INVALID_SHOP)]) 400 corsHeaders)
  else
    let* shopData := SHOPS_get (template shop) in
    if negb (truthy shopData)
    then ret (createJsonResponse
                (JObj [ ("error", JStr ERROR_MESSAGES.APP_NOT_INSTALLED);
                        ("install_url",
                         JStr ("https://apps.shopify.com/" ++ SHOPIFY_APP_HANDLE env)) ])
                403 corsHeaders)
    else
      let* apiKey := crypto_randomUUID in
      let* accessToken := get_member (default JNull shopData) "accessToken" in
      let* createdAt := Date_toISOString in
      run API_KEYS_put ("key:" ++ apiKey)
            (JObj (field "shop" shop ++ field "accessToken" accessToken
                   ++ [("createdAt", JStr createdAt)]))
            (86400 * API_KEY_TTL_DAYS)
      in
      ret (createJsonResponse
             (JObj ([("success", JBool true); ("api_key", JStr apiKey)]
                    ++ field "shop" shop))
             200 corsHeaders).

Definition handleAPIProxy (request : Request) (env : Env)
    (corsHeaders : list (string * string)) : M Response :=
  match extractApiKey request with
  | None =>
      ret (createJsonResponse
             (JObj [("error", JStr ERROR_MESSAGES.MISSING_AUTH)]) 401 corsHeaders)
  | Some apiKey =>
      if String.eqb apiKey ""
      then ret (createJsonResponse
                  (JObj [("error", JStr ERROR_MESSAGES.MISSING_AUTH)]) 401 corsHeaders)
      else
        let* keyData := API_KEYS_get ("key:" ++ apiKey) in
        if negb (truthy keyData)
        then ret (createJsonResponse
                    (JObj [("error", JStr ERROR_MESSAGES.INVALID_API_KEY)])
                    401 corsHeaders)
        else
          let* shop := destructure (default JNull keyData) "keyData" "shop" in
          let* accessToken :=
            destructure (default JNull keyData) "keyData" "accessToken" in
          let body := parseJsonBody request in
          let* endpoint := destructure body "body" "endpoint" in
          let* method := destructure body "body" "method" in
          let method := match method with None => Some (JStr "GET") | _ => method end in
          let* data := destructure body "body" "data" in
          if negb (truthy endpoint)
          then ret (createJsonResponse
                      (JObj [("error", JStr ERROR_MESSAGES.MISSING_ENDPOINT)])
                      400 corsHeaders)
          else
            try_catch
              (let* shopifyResponse :=
                 proxyToShopify shop endpoint method data accessToken env in
               new_Response
                 (createJsonResponse (fst shopifyResponse) (snd shopifyResponse)
                    corsHeaders))
              (fun error =>
                 ret (createJsonResponse
                        (JObj [ ("error", JStr ERROR_MESSAGES.FAILED_PROXY);
                                ("details", JStr (error_message error)) ])
                        500 corsHeaders))
  end.

Definition handleShopRedact (data : json) (env : Env) : M unit :=
  let* shop := get_member data "shop_domain" in
  if truthy shop then SHOPS_delete (template shop) else ret tt.

Definition handleCustomerRedact (data : json) (env : Env) : M unit := ret tt.

Definition handleCustomerDataRequest (data : json) (env : Env) : M unit := ret tt.

Definition handleWebhook (request : Request) (env : Env) (topic : string) : M Response :=
  let hmac := req_X_Shopify_Hmac_Sha256 request in
  let body := req_body request in
  if negb (verifyWebhookHmac body hmac (SHOPIFY_API_SECRET env))
  then throw (AuthenticationError ERROR_MESSAGES.INVALID_WEBHOOK 401)
  else
    let* data :=
      match JSON_parse rt body with
      | Some data => ret data
      | None =>
          throw (PlatformError "SyntaxError" (failure_message rt (InvalidJSON body)))
      end in
    run (if String.eqb topic "shop/redact" then handleShopRedact data env
         else if String.eqb topic "customers/redact" then handleCustomerRedact data env
         else if String.eqb topic "customers/data_request"
         then handleCustomerDataRequest data env
         else ret tt)
    in ret (TextResponse "" 200).

Definition routeRequest (request : Request) (url : URL) (env : Env)
    (corsHeaders : list (string * string)) : M Response :=
  let path := pathname url in
  if String.eqb path "/" then handleRootPath url env
  else if String.eqb path "/auth" then handleOAuth request env
  else if String.eqb path "/auth/callback" then handleOAuthCallback request env
  else if String.eqb path "/webhooks/customers/redact"
  then handleWebhook request env "customers/redact"
  else if String.eqb path "/webhooks/shop/redact"
  then handleWebhook request env "shop/redact"
  else if String.eqb path "/webhooks/customers/data_request"
  then handleWebhook request env "customers/data_request"
  else if String.eqb path "/api/auth" then handleExtensionAuth request env corsHeaders
  else if String.eqb path "/api/proxy" then handleAPIProxy request env corsHeaders
  else ret (TextResponse "Not Found" 404).

(** *** lib/validation.js, lib/error-handler.js and the worker *)

(** The KV bindings are always bound in the model; a variable that is not
    set reads as the empty string. *)
Definition validateEnvironment (env : Env) : M unit :=
  let missing :=
    ((if String.eqb (SHOPIFY_API_KEY env) "" then ["SHOPIFY_API_KEY"] else [])
     ++ (if String.eqb (SHOPIFY_API_SECRET env) "" then ["SHOPIFY_API_SECRET"] else []))%list
  in
  match missing with
  | [] => ret tt
  | _ =>
      throw (ConfigurationError
               (ERROR_MESSAGES.MISSING_ENV ++ ": " ++ join ", " missing) 500)
  end.

Definition handleError (error : JsError) : Response :=
  let statusCode :=
    match error with
    | AuthenticationError _ c | ValidationError _ c | ConfigurationError _ c =>
        if c =? 0 then 500 else c
    | PlatformError _ _ => 500
    end in
  let message :=
    if String.eqb (error_message error) "" then "Internal server error"
    else error_message error in
  match error with
  | ConfigurationError _ _ | ValidationError _ _ => HtmlErrorPage statusCode message
  | _ =>
      JsonResponse (JObj [("error", JStr message)]) statusCode
        [("Content-Type", "application/json")]
  end.

(** The [fetch] entry point of the worker. *)
Definition worker_fetch (request : Request) (env : Env) : M Response :=
  try_catch
    (run validateEnvironment env in
     let url := req_url request in
     let corsHeaders := getCorsHeaders in
     if String.eqb (req_method request) "OPTIONS"
     then ret (PreflightResponse corsHeaders)
     else routeRequest request url env corsHeaders)
    (fun error => ret (handleError error)).

End Handlers.

(** ** The authorization-signature verifier in the words of the specification

    "removes the signature parameter itself (and any alternate signature
    parameter name) from the parameter set, sorts the remaining parameters
    by key using byte-wise lexicographic order, joins as key=value pairs
    with &, computes HMAC-SHA256 over the UTF-8 encoding of that string,
    renders the digest as lowercase hex, and compares against the supplied
    signature using constant-time equality.  Returns false (never throws)
    if the signature parameter is absent or comparison fails." *)

Definition bytewise_compare (a b : string) : Z :=
  match String.compare a b with
  | Lt => -1
  | Eq => 0
  | Gt => 1
  end.

Definition verifyAuthorizationSignature_bytewise (queryParams : URLSearchParams)
    (secret : string) : bool :=
  match params_get queryParams "hmac" with
  | None => false
  | Some supplied =>
      let remaining := params_delete (params_delete queryParams "hmac") "signature" in
      let sorted := Array_sort (fun a b => bytewise_compare (fst a) (fst b)) remaining in
      let message := join "&" (map (fun p => fst p ++ "=" ++ snd p) sorted) in
      let digest := Sha256.hmac (TextEncoder_encode secret) (TextEncoder_encode message) in
      timingSafeEqual (code_units supplied) (code_units (hex_of_bytes digest))
  end.

(** ** A runtime to run the handlers on

    The collation orders letters alphabetically whatever their case and,
    between strings equal up to case, puts lower case first, as the
    collation of the JavaScript engines does; punctuation comes before
    digits and digits before letters.  [JSON.parse] knows the bodies of the
    scenarios; the upstream answers every call with 200. *)

Module Fixture.

Definition is_upper (c : ascii) : bool := in_range "A" "Z" c.
Definition is_lower (c : ascii) : bool := in_range "a" "z" c.
Definition is_digit (c : ascii) : bool := in_range "0" "9" c.

Definition primary_weight (c : ascii) : Z :=
  let n := Z.of_N (N_of_ascii c) in
  if is_upper c then 512 + n + 32
  else if is_lower c then 512 + n
  else if is_digit c then 256 + n
  else n.

Definition tertiary_weight (c : ascii) : Z :=
  if is_upper c then 1 else 0.

(** Primary weights, a separator below every weight, tertiary weights. *)
Definition collation_key (s : string) : list Z :=
  map primary_weight (list_ascii_of_string s) ++ [-1]
  ++ map tertiary_weight (list_ascii_of_string s).

Fixpoint lex_compare (k1 k2 : list Z) : Z :=
  match k1, k2 with
  | [], [] => 0
  | [], _ :: _ => -1
  | _ :: _, [] => 1
  | x :: k1', y :: k2' =>
      if x <? y then -1 else if y <? x then 1 else lex_compare k1' k2'
  end.

Definition collate (a b : string) : Z :=
  lex_compare (collation_key a) (collation_key b).

Definition dquote : string := String (ascii_of_nat 34) EmptyString.

Definition quoted (s : string) : string := dquote ++ s ++ dquote.

(** The text of [{"key":"value"}] *)
Definition object_text (key value : string) : string :=
  "{" ++ quoted key ++ ":" ++ quoted value ++ "}".

(** The text of [{"endpoint":"/orders.json","method":"GET"}] *)
Definition proxy_body_text : string :=
  "{" ++ quoted "endpoint" ++ ":" ++ quoted "/orders.json" ++ ","
  ++ quoted "method" ++ ":" ++ quoted "GET" ++ "}".

Definition parse_known (text : string) : option json :=
  if String.eqb text (object_text "shop_domain" "shop-a.myshopify.com")
  then Some (JObj [("shop_domain", JStr "shop-a.myshopify.com")])
  else if String.eqb text (object_text "shop" "shop-a.myshopify.com")
  then Some (JObj [("shop", JStr "shop-a.myshopify.com")])
  else if String.eqb text (object_text "shop" "evil.example.com")
  then Some (JObj [("shop", JStr "evil.example.com")])
  else if String.eqb text proxy_body_text
  then Some (JObj [("endpoint", JStr "/orders.json"); ("method", JStr "GET")])
  else if String.eqb text "null" then Some JNull
  else None.

Definition show (v : json) : string :=
  match v with
  | JObj _ => "[object Object]"
  | _ => "0"
  end.

Definition uuid (n : nat) : string :=
  "00000000-0000-4000-8000-" ++ hex_of_bytes (Sha256.be_bytes 6 (Z.of_nat n)).

Definition iso (t : Z) : string := "2025-01-01T00:00:00.000Z".

Definition upstream (n : nat) (request : FetchRequest) : Outcome UpstreamResponse :=
  if String.eqb (fr_url request) "https://shop-a.myshopify.com/admin/oauth/access_token"
  then Returned {| resp_status := 200;
                   resp_json := Returned (JObj [ ("access_token", JStr "shpat_1");
                                                 ("scope", JStr "read_orders") ]) |}
  else Returned {| resp_status := 200;
                   resp_json := Returned (JObj [("orders", JArr [])]) |}.

(** The gateway's own address is the one base the scenarios use. *)
Definition can_parse (input base : string) : bool :=
  String.eqb base "https://gateway.example.com".

(** The texts stand for the engine's. *)
Definition message (failure : PlatformFailure) : string :=
  match failure with
  | InvalidJSON _ => "Unexpected token in JSON"
  | InvalidStatus _ => "The status provided is outside the range [200, 599]."
  | NullBodyStatus _ => "Response with null body status cannot have body"
  | InvalidURL _ _ => "Invalid URL"
  end.

Definition runtime : Runtime :=
  {| localeCompare := collate;
     JSON_parse := parse_known;
     ToString := show;
     randomUUID := uuid;
     toISOString := iso;
     fetch := upstream;
     URL_canParse := can_parse;
     failure_message := message |}.

Definition env : Env :=
  {| SHOPIFY_API_KEY := "client-id";
     SHOPIFY_API_SECRET := "s3cr3t";
     APP_URL := Some "https://gateway.example.com";
     OAUTH_SCOPES := "read_orders";
     SHOPIFY_APP_HANDLE := "gateway";
     SHOPIFY_API_VERSION := "2025-07" |}.


Definition empty_world : World :=
  {| SHOPS := ∅; AUTH_STATES := ∅; API_KEYS := ∅; now := 1000; log := [] |}.

Definition get_request (path : string) (params : URLSearchParams) : Request :=
  {| req_method := "GET";
     req_url := {| origin := "https://gateway.example.com";
                   pathname := path;
                   searchParams := params |};
     req_Authorization := None;
     req_X_Shopify_Hmac_Sha256 := None;
     req_body := "" |}.

Definition post_request (path : string) (authorization signature : option string)
    (body : string) : Request :=
  {| req_method := "POST";
     req_url := {| origin := "https://gateway.example.com";
                   pathname := path;
                   searchParams := [] |};
     req_Authorization := authorization;
     req_X_Shopify_Hmac_Sha256 := signature;
     req_body := body |}.

Definition kv_entry {V} (value : V) (expiration : option Z) : KVEntry V :=
  {| kv_value := value; kv_expiration := expiration |}.

(** An authorization flow was started for shop-a at time 1000. *)
Definition world_with_state : World :=
  {| SHOPS := ∅;
     AUTH_STATES := {[ "st-1" := kv_entry "shop-a.myshopify.com" (Some 1600) ]};
     API_KEYS := ∅; now := 1000; log := [] |}.

Definition merchant_record : json :=
  JObj [ ("accessToken", JStr "shpat_1"); ("scope", JStr "read_orders");
         ("installedAt", JStr "2025-01-01T00:00:00.000Z") ].

Definition client_credential : json :=
  JObj [ ("shop", JStr "shop-a.myshopify.com"); ("accessToken", JStr "shpat_1");
         ("createdAt", JStr "2025-01-01T00:00:00.000Z") ].

(** shop-a is installed and holds the client key k-1. *)
Definition world_installed : World :=
  {| SHOPS := {[ "shop-a.myshopify.com" := kv_entry merchant_record None ]};
     AUTH_STATES := ∅;
     API_KEYS := {[ "key:k-1" := kv_entry client_credential (Some 7777000) ]};
     now := 1000; log := [] |}.

Definition callback_params (shop : string) : URLSearchParams :=
  [ ("code", "c0de"); ("shop", shop); ("state", "st-1");
    ("timestamp", "1700000000") ].

(** The signature the provider computes: parameters in byte order. *)
Definition provider_signature (params : URLSearchParams) (secret : string) : string :=
  hex_of_bytes
    (Sha256.hmac (TextEncoder_encode secret)
       (TextEncoder_encode
          (join "&"
             (map (fun p => fst p ++ "=" ++ snd p)
                (Array_sort (fun a b => bytewise_compare (fst a) (fst b)) params))))).

Definition signed (params : URLSearchParams) : URLSearchParams :=
  (params ++ [("hmac", provider_signature params (SHOPIFY_API_SECRET env))])%list.

Definition callback_request (shop : string) : Request :=
  get_request "/auth/callback" (signed (callback_params shop)).

Definition webhook_signature (body : string) : string :=
  btoa
    (fromCharCodes
       (Sha256.hmac (TextEncoder_encode (SHOPIFY_API_SECRET env))
          (TextEncoder_encode body))).

Definition redact_body : string := object_text "shop_domain" "shop-a.myshopify.com".

Definition redact_request : Request :=
  post_request "/webhooks/shop/redact" None (Some (webhook_signature redact_body))
    redact_body.

Definition issue_request (shop : string) : Request :=
  post_request "/api/auth" None None (object_text "shop" shop).

Definition proxy_request (authorization : option string) : Request :=
  post_request "/api/proxy" authorization None proxy_body_text.

End Fixture.

(** ** Vocabulary of the statements *)

(** The callback request carries the four required parameters. *)
Definition carries (request : Request) (code shop state hmac : string) : Prop :=
  let params := searchParams (req_url request) in
  fromEntries_get params "code" = Some code
  /\ fromEntries_get params "shop" = Some shop
  /\ fromEntries_get params "state" = Some state
  /\ fromEntries_get params "hmac" = Some hmac
  /\ code <> "" /\ shop <> "" /\ state <> "" /\ hmac <> "".

(** The steps of [handleOAuthCallback] that follow the deletion of the
    state entry. *)
Definition callback_after_state_check (rt : Runtime) (request : Request) (env : Env)
    (shop code : string) : M Response :=
  if negb (verifyShopifyHmac rt (searchParams (req_url request))
             (SHOPIFY_API_SECRET env))
  then throw (AuthenticationError ERROR_MESSAGES.INVALID_HMAC 403)
  else
    let* tokenData := exchangeCodeForToken rt shop code env in
    run storeShopData rt shop tokenData env in
    let* access_token := get_member tokenData "access_token" in
    run registerMandatoryWebhooks rt shop access_token env in
    ret (RedirectResponse
           ("https://" ++ shop ++ "/admin/apps/" ++ SHOPIFY_APP_HANDLE env)
           302).

(** [localeCompare] is a total preorder. *)
Definition collation_total (rt : Runtime) : Prop :=
  forall a b, localeCompare rt a b <= 0 \/ localeCompare rt b a <= 0.

Definition collation_transitive (rt : Runtime) : Prop :=
  forall a b c,
    localeCompare rt a b <= 0 -> localeCompare rt b c <= 0 -> localeCompare rt a c <= 0.

(** The order [verifyShopifyHmac] sorts the parameters in. *)
Definition key_le (rt : Runtime) (p q : string * string) : Prop :=
  localeCompare rt (fst p) (fst q) <= 0.

Definition is_lower_hex_digit (c : ascii) : bool :=
  in_range "0" "9" c || in_range "a" "f" c.

Fixpoint is_lower_hex (s : string) : bool :=
  match s with
  | EmptyString => true
  | String c s' => is_lower_hex_digit c && is_lower_hex s'
  end.

(** The state store holds well-formed domains only. *)
Definition states_wellformed (rt : Runtime) (w : World) : Prop :=
  forall state e,
    AUTH_STATES w !! state = Some e ->
    isValidShopDomain rt (Some (JStr (kv_value e))) = true.

(** A computation leaves an observation of the world as it found it. *)
Definition preserves {X A : Type} (f : World -> X) (c : M A) : Prop :=
  forall w, f (snd (c w)) = f w.


(** ** Vocabulary of the further statements *)

(** The world once the callback has read and deleted the entry of
    [state]. *)
Definition state_consumed (state : string) (w : World) : World :=
  record (EvDelete NsAUTH_STATES state)
    (set_AUTH_STATES (kv_delete (AUTH_STATES w) state)
       (record (EvGet NsAUTH_STATES state) w)).

(** The upstream request of the token exchange. *)
Definition token_exchange_request (shop code : string) (env : Env) : FetchRequest :=
  {| fr_url := "https://" ++ shop ++ "/admin/oauth/access_token";
     fr_method := Some (JStr "POST");
     fr_headers := json_headers;
     fr_body :=
       Some (JObj [ ("client_id", JStr (SHOPIFY_API_KEY env));
                    ("client_secret", JStr (SHOPIFY_API_SECRET env));
                    ("code", JStr code) ]) |}.

(** The upstream request that subscribes the gateway's own route of
    [topic]. *)
Definition webhook_registration (shop : string) (accessToken : jsval) (env : Env)
    (topic : string) : FetchRequest :=
  {| fr_url := "https://" ++ shop ++ "/admin/api/"
               ++ SHOPIFY_API_VERSION env ++ "/webhooks.json";
     fr_method := Some (JStr "POST");
     fr_headers := ("X-Shopify-Access-Token", accessToken) :: json_headers;
     fr_body :=
       Some (JObj [("webhook",
                    JObj [ ("topic", JStr topic);
                           ("address", JStr (app_url env ++ "/webhooks/" ++ topic)) ])]) |}.

(** The merchant record written for the answer of the token exchange. *)
Definition merchant_record_of (tokenData : json) (installedAt : string) : json :=
  JObj (field "accessToken" (member tokenData "access_token")
        ++ field "scope" (member tokenData "scope")
        ++ [("installedAt", JStr installedAt)]).

(** The client credential issued for a merchant record. *)
Definition client_credential_of (shop : string) (shopData : json) (createdAt : string)
    : json :=
  JObj ([("shop", JStr shop)]
        ++ field "accessToken" (member shopData "accessToken")
        ++ [("createdAt", JStr createdAt)]).

(** The world a successful callback leaves, from the world after the state
    check. *)
Definition installed_world (rt : Runtime) (shop code : string) (tokenData : json) (env : Env)
    (w : World) : World :=
  let w1 := record (EvFetch (token_exchange_request shop code env)) w in
  let w2 :=
    record (EvPut NsSHOPS shop)
      (set_SHOPS
         (kv_put (now w1) (SHOPS w1) shop
            (merchant_record_of tokenData (toISOString rt (now w1))) None) w1) in
  let token := member tokenData "access_token" in
  record (EvFetch (webhook_registration shop token env "customers/data_request"))
    (record (EvFetch (webhook_registration shop token env "shop/redact"))
       (record (EvFetch (webhook_registration shop token env "customers/redact")) w2)).

(** The world once [handleOAuth] has drawn a state token and stored it for
    [shop]. *)
Definition flow_started (rt : Runtime) (shop : string) (w : World) : World :=
  let state := randomUUID rt (length (log w)) in
  record (EvPut NsAUTH_STATES state)
    (set_AUTH_STATES
       (kv_put (now w) (AUTH_STATES w) state shop (Some STATE_TTL_SECONDS))
       (record EvRandomUUID w)).

(** Where the provider is asked to send the merchant back: the configured
    [APP_URL], or else the origin the request came to. *)
Definition callback_uri (env : Env) (url : URL) : string :=
  match APP_URL env with
  | Some u => if String.eqb u "" then origin url else u
  | None => origin url
  end ++ "/auth/callback".

(** The upstream request the proxy builds from a stored credential and the
    body of the client's request. *)
Definition proxied_request (rt : Runtime) (keyData body : json) (env : Env)
    : FetchRequest :=
  let method :=
    match member body "method" with
    | None => Some (JStr "GET")
    | _ => member body "method"
    end in
  {| fr_url := "https://" ++ template rt (member keyData "shop") ++ "/admin/api/"
               ++ SHOPIFY_API_VERSION env ++ template rt (member body "endpoint");
     fr_method := method;
     fr_headers := ("X-Shopify-Access-Token", member keyData "accessToken")
                   :: json_headers;
     fr_body := if is_not_GET method && truthy (member body "data")
                then member body "data" else None |}.

(** How the redirect to the installation flow ends: the install address
    is resolved against the configured [APP_URL]. *)
Definition install_redirect (rt : Runtime) (shop : string) (env : Env)
    : Outcome Response :=
  match APP_URL env with
  | None =>
      Threw (PlatformError "TypeError"
               (failure_message rt
                  (InvalidURL ("/auth?shop=" ++ encodeURIComponent shop) None)))
  | Some base =>
      if URL_canParse rt ("/auth?shop=" ++ encodeURIComponent shop) base
      then Returned (InstallRedirect shop)
      else Threw (PlatformError "TypeError"
                    (failure_message rt
                       (InvalidURL ("/auth?shop=" ++ encodeURIComponent shop)
                          (Some base))))
  end.

(** The answer of the proxy when the upstream call or the reading of its
    answer throws. *)
Definition proxy_failure (e : JsError) (corsHeaders : list (string * string))
    : Response :=
  createJsonResponse
    (JObj [ ("error", JStr ERROR_MESSAGES.FAILED_PROXY);
            ("details", JStr (error_message e)) ])
    500 corsHeaders.

(** The answer of the proxy to a JSON answer of the upstream: the answer
    with its status where a response can carry the status, the failure
    otherwise. *)
Definition proxy_relay (rt : Runtime) (data : json) (status : Z)
    (corsHeaders : list (string * string)) : Response :=
  if negb (Response_status_in_range status)
  then proxy_failure
         (PlatformError "RangeError" (failure_message rt (InvalidStatus status)))
         corsHeaders
  else if is_null_body_status status
  then proxy_failure
         (PlatformError "TypeError" (failure_message rt (NullBodyStatus status)))
         corsHeaders
  else createJsonResponse data status corsHeaders.

(** The world once a credential has been issued for [shop], whose merchant
    record is [shopData]. *)
Definition credential_issued (rt : Runtime) (shop : string) (shopData : json)
    (w : World) : World :=
  let apiKey := randomUUID rt (S (length (log w))) in
  record (EvPut NsAPI_KEYS ("key:" ++ apiKey))
    (set_API_KEYS
       (kv_put (now w) (API_KEYS w) ("key:" ++ apiKey)
          (client_credential_of shop shopData (toISOString rt (now w)))
          (Some (86400 * API_KEY_TTL_DAYS)))
       (record EvRandomUUID (record (EvGet NsSHOPS shop) w))).

(** Runtimes whose upstream refuses every call, or cannot be reached. *)
Module Outage.

Definition refuse (n : nat) (request : FetchRequest) : Outcome UpstreamResponse :=
  Returned {| resp_status := 400;
              resp_json := Returned (JObj [("error", JStr "invalid_request")]) |}.

Definition unreachable (n : nat) (request : FetchRequest) : Outcome UpstreamResponse :=
  Threw (PlatformError "TypeError" "fetch failed").


(** The token exchange answers; every later call fails. *)
Definition exchange_only (n : nat) (request : FetchRequest) : Outcome UpstreamResponse :=
  if String.eqb (fr_url request) "https://shop-a.myshopify.com/admin/oauth/access_token"
  then Fixture.upstream n request
  else unreachable n request.

Definition with_fetch (fetch : nat -> FetchRequest -> Outcome UpstreamResponse)
    : Runtime :=
  {| localeCompare := Fixture.collate;
     JSON_parse := Fixture.parse_known;
     ToString := Fixture.show;
     randomUUID := Fixture.uuid;
     toISOString := Fixture.iso;
     fetch := fetch;
     URL_canParse := Fixture.can_parse;
     failure_message := Fixture.message |}.

End Outage.

(** ** lib/validation.js: isValidHost *)

(** [s.replace(/c/g, d)] for single characters [c] and [d] *)
Fixpoint replace_all_char (c d : ascii) (s : string) : string :=
  match s with
  | EmptyString => EmptyString
  | String x s' =>
      String (if Ascii.eqb x c then d else x) (replace_all_char c d s')
  end.

(** [s.replace(p, '')] for a text [p] that is not empty: the first
    occurrence of [p] goes. *)
Fixpoint remove_first (p s : string) : string :=
  if String.prefix p s then substring_from (String.length p) s
  else
    match s with
    | EmptyString => EmptyString
    | String x s' => String x (remove_first p s')
    end.

(** [s.split(c)[0]] *)
Fixpoint before_char (c : ascii) (s : string) : string :=
  match s with
  | EmptyString => EmptyString
  | String x s' => if Ascii.eqb x c then EmptyString else String x (before_char c s')
  end.

(** [s.includes(p)] *)
Fixpoint includes (s p : string) : bool :=
  String.prefix p s
  || match s with
     | EmptyString => false
     | String _ s' => includes s' p
     end.

(** [atob]: the forgiving-base64 decode of the HTML standard.  [None] is
    the InvalidCharacterError. *)
Definition is_ascii_whitespace (c : ascii) : bool :=
  let n := N_of_ascii c in
  (n =? 9)%N || (n =? 10)%N || (n =? 12)%N || (n =? 13)%N || (n =? 32)%N.

Definition base64_value (c : ascii) : option Z :=
  let n := Z.of_N (N_of_ascii c) in
  if in_range "A" "Z" c then Some (n - 65)
  else if in_range "a" "z" c then Some (n - 71)
  else if in_range "0" "9" c then Some (n + 4)
  else if Ascii.eqb c "+" then Some 62
  else if Ascii.eqb c "/" then Some 63
  else None.

(** One or two [=] at the very end go. *)
Fixpoint strip_padding (data : list ascii) : list ascii :=
  match data with
  | [] => []
  | [c] => if Ascii.eqb c "=" then [] else [c]
  | [c; d] =>
      if Ascii.eqb d "=" then (if Ascii.eqb c "=" then [] else [c]) else [c; d]
  | c :: rest => c :: strip_padding rest
  end.

Fixpoint base64_values (data : list ascii) : option (list Z) :=
  match data with
  | [] => Some []
  | c :: rest =>
      match base64_value c, base64_values rest with
      | Some v, Some vs => Some (v :: vs)
      | _, _ => None
      end
  end.

(** Four values of six bits give three bytes; three left at the end give
    two bytes and two give one, the bits beyond being dropped. *)
Fixpoint bytes_of_values (values : list Z) : list Z :=
  match values with
  | a :: b :: c :: d :: rest =>
      (a * 4 + b / 16) :: ((b mod 16) * 16 + c / 4) :: ((c mod 4) * 64 + d)
      :: bytes_of_values rest
  | [a; b; c] => [a * 4 + b / 16; (b mod 16) * 16 + c / 4]
  | [a; b] => [a * 4 + b / 16]
  | _ => []
  end.

Definition atob (s : string) : option string :=
  let data := List.filter (fun c => negb (is_ascii_whitespace c)) (list_ascii_of_string s) in
  let data := if (length data mod 4 =? 0)%nat then strip_padding data else data in
  if (length data mod 4 =? 1)%nat then None
  else
    match base64_values data with
    | None => None
    | Some values => Some (fromCharCodes (bytes_of_values values))
    end.

Definition isValidHost (host : option string) (shop : string) : bool :=
  match host with
  | None => false
  | Some host =>
      if String.eqb host "" then false
      else
        match atob (replace_all_char "_" "/" (replace_all_char "-" "+" host)) with
        | None => false
        | Some decodedHost =>
            let shopDomain :=
              before_char "/"
                (remove_first "http://" (remove_first "https://" shop)) in
            includes decodedHost shopDomain
        end
  end.

(** ** Vocabulary of the statement on the authorization URL *)

(** The characters of a form-urlencoded text. *)
Definition is_urlencoded_char (c : ascii) : bool :=
  is_alnum c || Ascii.eqb c "*" || Ascii.eqb c "-" || Ascii.eqb c "."
  || Ascii.eqb c "_" || Ascii.eqb c "+" || Ascii.eqb c "%".

(** * Properties *)

(** ** The primitives agree with the published test vectors *)

Example sha256_abc :
  hex_of_bytes (Sha256.sha256 (TextEncoder_encode "abc"))
  = "ba7816bf8f01cfea414140de5dae2223b00361a396177a9cb410ff61f20015ad".
Proof. vm_compute. reflexivity. Qed.

Example sha256_empty :
  hex_of_bytes (Sha256.sha256 [])
  = "e3b0c44298fc1c149afbf4c8996fb92427ae41e4649b934ca495991b7852b855".
Proof. vm_compute. reflexivity. Qed.

Example sha256_two_blocks :
  hex_of_bytes
    (Sha256.sha256
       (TextEncoder_encode "abcdbcdecdefdefgefghfghighijhijkijkljklmklmnlmnomnopnopq"))
  = "248d6a61d20638b8e5c026930c3e6039a33ce45964ff2167f6ecedd419db06c1".
Proof. vm_compute. reflexivity. Qed.

Example hmac_rfc4231_case2 :
  hex_of_bytes
    (Sha256.hmac (TextEncoder_encode "Jefe")
       (TextEncoder_encode "what do ya want for nothing?"))
  = "5bdcc146bf60754e6a042426089575c75a003f089d2739839dec58b964ec3843".
Proof. vm_compute. reflexivity. Qed.

Example hmac_long_key :
  hex_of_bytes
    (Sha256.hmac (repeat 107 100) (repeat 120 200))
  = "e326f00ce14194bb85e2683fe9b1a78851753f77479303f94c2c3cd1998bdda3".
Proof. vm_compute. reflexivity. Qed.

Example btoa_hmac_rfc4231_case2 :
  btoa
    (fromCharCodes
       (Sha256.hmac (TextEncoder_encode "Jefe")
          (TextEncoder_encode "what do ya want for nothing?")))
  = "W9zBRr9gdU5qBCQmCJV1x1oAPwidJzmDnexYuWTsOEM=".
Proof. vm_compute. reflexivity. Qed.

Example isValidShopDomain_examples :
  map (fun s => regex_test shop_domain_regex s)
    [ "shop-a.myshopify.com"; "a.myshopify.com"; "-a.myshopify.com";
      ".myshopify.com"; "shop_a.myshopify.com"; "shop.myshopify.com.evil.com";
      "shop.myshopifyxcom"; "Shop9.myshopify.com" ]
  = [true; true; false; false; false; false; false; true].
Proof. vm_compute. reflexivity. Qed.

Example urlencode_example :
  urlencode "https://gateway.example.com/auth/callback a_b"
  = "https%3A%2F%2Fgateway.example.com%2Fauth%2Fcallback+a_b".
Proof. vm_compute. reflexivity. Qed.

(** The scenario of the specification, on the fixture: initiation,
    callback, issuance and a proxied call; then the redaction webhook,
    after which issuance answers 'not installed' while the key issued
    before is still served. *)
Example end_to_end_scenario :
  let shop := "shop-a.myshopify.com" in
  let key := "00000000-0000-4000-8000-00000000000a" in
  let proxy_request :=
    Fixture.post_request "/api/proxy" (Some ("Bearer " ++ key)) None
      Fixture.proxy_body_text in
  let w1 :=
    snd (worker_fetch Fixture.runtime (Fixture.get_request "/auth" [("shop", shop)])
           Fixture.env Fixture.empty_world) in
  let w2 :=
    snd (worker_fetch Fixture.runtime
           (Fixture.get_request "/auth/callback"
              (Fixture.signed
                 [ ("code", "c0de"); ("shop", shop); ("state", Fixture.uuid 0);
                   ("timestamp", "1700000000") ]))
           Fixture.env w1) in
  let r3 := worker_fetch Fixture.runtime (Fixture.issue_request shop) Fixture.env w2 in
  let r4 := worker_fetch Fixture.runtime proxy_request Fixture.env (snd r3) in
  let w5 :=
    snd (worker_fetch Fixture.runtime Fixture.redact_request Fixture.env (snd r4)) in
  let r6 := worker_fetch Fixture.runtime (Fixture.issue_request shop) Fixture.env w5 in
  let r7 := worker_fetch Fixture.runtime proxy_request Fixture.env (snd r6) in
  kv_value <$> SHOPS w2 !! shop = Some Fixture.merchant_record
  /\ AUTH_STATES w2 = ∅
  /\ fst r3
     = Returned
         (createJsonResponse
            (JObj [("success", JBool true); ("api_key", JStr key); ("shop", JStr shop)])
            200 getCorsHeaders)
  /\ fst r4
     = Returned (createJsonResponse (JObj [("orders", JArr [])]) 200 getCorsHeaders)
  /\ map (fun e => match e with EvFetch r => fr_url r | _ => "" end)
       (upstream_calls (snd r4))
     = [ "https://shop-a.myshopify.com/admin/oauth/access_token";
         "https://shop-a.myshopify.com/admin/api/2025-07/webhooks.json";
         "https://shop-a.myshopify.com/admin/api/2025-07/webhooks.json";
         "https://shop-a.myshopify.com/admin/api/2025-07/webhooks.json";
         "https://shop-a.myshopify.com/admin/api/2025-07/orders.json" ]
  /\ SHOPS w5 = ∅
  /\ fst r6
     = Returned
         (createJsonResponse
            (JObj [ ("error", JStr "App not installed");
                    ("install_url", JStr "https://apps.shopify.com/gateway") ])
            403 getCorsHeaders)
  /\ fst r7 = fst r4.
Proof. vm_compute. repeat split; reflexivity. Qed.

(** ** Constant-time comparison *)

Section TimingSafeEqual.

Lemma code_unit_of_ascii (c : ascii) : is_code_unit (Z.of_N (N_of_ascii c)).
Proof. pose proof (N_ascii_bounded c). unfold is_code_unit. lia. Qed.

Lemma code_units_are_code_units s : Forall is_code_unit (code_units s).
Proof.
  unfold code_units. induction s as [|c s IH]; simpl.
  - constructor.
  - constructor; [apply code_unit_of_ascii|exact IH].
Qed.

Lemma code_units_inj a : forall b, code_units a = code_units b -> a = b.
Proof.
  unfold code_units.
  induction a as [|c a IH]; intros [|d b]; simpl; try discriminate.
  - reflexivity.
  - intros [= Hcd Hab]. apply N2Z.inj in Hcd.
    rewrite <- (ascii_N_embedding c), <- (ascii_N_embedding d), Hcd.
    f_equal. apply IH. exact Hab.
Qed.

Lemma code_units_length s : length (code_units s) = String.length s.
Proof.
  unfold code_units. induction s as [|c s IH]; simpl; [reflexivity|].
  f_equal. exact IH.
Qed.

Lemma ToInt32_small x : 0 <= x < 2 ^ 31 -> Int32.ToInt32 x = x.
Proof.
  intros Hx. unfold Int32.ToInt32.
  rewrite Z.mod_small by lia.
  destruct (Z.leb_spec (2 ^ 31) x); lia.
Qed.

Lemma log2_below x n : 0 <= n -> 0 <= x < 2 ^ n -> x = 0 \/ Z.log2 x < n.
Proof.
  intros Hn Hx. destruct (Z.eq_dec x 0) as [->|Hne]; [left; reflexivity|].
  right. apply Z.log2_lt_pow2; lia.
Qed.

Lemma lxor_below x y n :
  0 < n -> 0 <= x < 2 ^ n -> 0 <= y < 2 ^ n -> 0 <= Z.lxor x y < 2 ^ n.
Proof.
  intros Hn Hx Hy. split; [apply Z.lxor_nonneg; lia|].
  assert (0 < 2 ^ n) by (apply Z.pow_pos_nonneg; lia).
  destruct (Z.eq_dec (Z.lxor x y) 0) as [->|Hne]; [lia|].
  assert (0 < Z.lxor x y) by (pose proof (proj2 (Z.lxor_nonneg x y)); lia).
  apply Z.log2_lt_pow2; [assumption|].
  pose proof (Z.log2_lxor x y ltac:(lia) ltac:(lia)) as Hl.
  destruct (log2_below x n ltac:(lia) Hx) as [->|Hlx],
           (log2_below y n ltac:(lia) Hy) as [->|Hly];
    change (Z.log2 0) with 0 in *; lia.
Qed.

Lemma lor_below x y n :
  0 < n -> 0 <= x < 2 ^ n -> 0 <= y < 2 ^ n -> 0 <= Z.lor x y < 2 ^ n.
Proof.
  intros Hn Hx Hy. split; [apply Z.lor_nonneg; lia|].
  assert (0 < 2 ^ n) by (apply Z.pow_pos_nonneg; lia).
  destruct (Z.eq_dec (Z.lor x y) 0) as [->|Hne]; [lia|].
  assert (0 < Z.lor x y) by (pose proof (proj2 (Z.lor_nonneg x y)); lia).
  apply Z.log2_lt_pow2; [assumption|].
  rewrite Z.log2_lor by lia.
  destruct (log2_below x n ltac:(lia) Hx) as [->|Hlx],
           (log2_below y n ltac:(lia) Hy) as [->|Hly];
    change (Z.log2 0) with 0 in *; lia.
Qed.

Lemma xor_code_units x y :
  is_code_unit x -> is_code_unit y -> Int32.xor (Some x) (Some y) = Z.lxor x y.
Proof.
  unfold is_code_unit. intros Hx Hy. unfold Int32.xor, Int32.ofNumber.
  rewrite (ToInt32_small x), (ToInt32_small y) by lia.
  pose proof (lxor_below x y 16 ltac:(lia) Hx Hy). apply ToInt32_small. lia.
Qed.

Lemma or_code_units x y :
  is_code_unit x -> is_code_unit y -> Int32.or x y = Z.lor x y.
Proof.
  unfold is_code_unit. intros Hx Hy. unfold Int32.or.
  rewrite (ToInt32_small x), (ToInt32_small y) by lia.
  pose proof (lor_below x y 16 ltac:(lia) Hx Hy). apply ToInt32_small. lia.
Qed.

Lemma xor_accumulate_code_units acc x y :
  is_code_unit acc -> is_code_unit x -> is_code_unit y ->
  xor_accumulate acc (x, y) = Z.lor acc (Z.lxor x y)
  /\ is_code_unit (xor_accumulate acc (x, y)).
Proof.
  intros Ha Hx Hy. unfold xor_accumulate; simpl.
  rewrite xor_code_units by assumption.
  assert (is_code_unit (Z.lxor x y)) as Hxy
    by (apply (lxor_below x y 16); [lia|assumption..]).
  rewrite or_code_units by assumption.
  split; [reflexivity|]. apply (lor_below _ _ 16); [lia|assumption..].
Qed.

(** The loop started further in the strings is the loop on the tails. *)
Lemma timingSafeEqual_loop_shift c d a b steps i result :
  timingSafeEqual_loop (c :: a) (d :: b) steps (S i) result
  = (S (fst (timingSafeEqual_loop a b steps i result)),
     snd (timingSafeEqual_loop a b steps i result)).
Proof.
  revert i result. induction steps as [|steps IH]; intros i result; simpl.
  - reflexivity.
  - rewrite IH. reflexivity.
Qed.

(** The loop runs over every pair of code units, whatever they are. *)
Lemma timingSafeEqual_loop_fold a :
  forall b result,
    length a = length b ->
    timingSafeEqual_loop a b (length a) 0 result
    = (length a, fold_left xor_accumulate (combine a b) result).
Proof.
  induction a as [|c a IH]; intros [|d b] result Hlen; simpl in Hlen; try discriminate.
  - reflexivity.
  - cbn [length timingSafeEqual_loop].
    rewrite timingSafeEqual_loop_shift.
    change (charCodeAt (c :: a) 0) with (Some c).
    change (charCodeAt (d :: b) 0) with (Some d).
    rewrite IH by congruence. reflexivity.
Qed.

Lemma fold_xor_accumulate_zero a :
  forall b acc,
    Forall is_code_unit a -> Forall is_code_unit b ->
    length a = length b ->
    is_code_unit acc ->
    fold_left xor_accumulate (combine a b) acc = 0 <-> acc = 0 /\ a = b.
Proof.
  induction a as [|c a IH]; intros [|d b] acc Ha Hb Hlen Hacc;
    simpl in Hlen; try discriminate.
  - simpl. tauto.
  - apply Forall_cons in Ha as [Hc Ha]. apply Forall_cons in Hb as [Hd Hb].
    destruct (xor_accumulate_code_units acc c d Hacc Hc Hd) as [Heq Hrange].
    cbn [combine fold_left].
    rewrite IH by (congruence || assumption).
    rewrite Heq, Z.lor_eq_0_iff, Z.lxor_eq_0_iff. split.
    + intros [[-> ->] ->]. tauto.
    + intros [-> [= -> ->]]. tauto.
Qed.

Lemma timingSafeEqual_true_iff a b :
  Forall is_code_unit a -> Forall is_code_unit b ->
  timingSafeEqual a b = true <-> a = b.
Proof.
  intros Ha Hb. unfold timingSafeEqual.
  destruct (Nat.eqb_spec (length a) (length b)) as [Hlen|Hlen]; simpl.
  - rewrite timingSafeEqual_loop_fold by assumption.
    rewrite Z.eqb_eq, fold_xor_accumulate_zero
      by (assumption || (unfold is_code_unit; lia)).
    tauto.
  - split; [discriminate|]. intros ->. contradiction.
Qed.

Lemma timingSafeEqual_length_mismatch a b :
  length a <> length b -> timingSafeEqual a b = false.
Proof.
  intros Hlen. unfold timingSafeEqual.
  destruct (Nat.eqb_spec (length a) (length b)); [contradiction|reflexivity].
Qed.

(** On the strings of the handlers. *)
Lemma timingSafeEqual_strings a b :
  timingSafeEqual (code_units a) (code_units b) = true <-> a = b.
Proof.
  rewrite timingSafeEqual_true_iff by apply code_units_are_code_units.
  split; [apply code_units_inj|congruence].
Qed.

End TimingSafeEqual.

(** C9. For all strings [a] and [b], given by their code units,
    [timingSafeEqual a b] is true exactly when [a] and [b] are the same
    string; it is false when the lengths differ; when they agree the loop
    visits every index up to the length and its result is the
    XOR-accumulation over every pair of code units, which the function
    requires to be zero. *)
Theorem timingSafeEqual_correct (a b : list Z) :
  Forall is_code_unit a ->
  Forall is_code_unit b ->
  (timingSafeEqual a b = true <-> a = b)
  /\ (length a <> length b -> timingSafeEqual a b = false)
  /\ (length a = length b ->
      timingSafeEqual_loop a b (length a) 0 0
      = (length a, fold_left xor_accumulate (combine a b) 0)
      /\ timingSafeEqual a b = (fold_left xor_accumulate (combine a b) 0 =? 0)).
Proof.
  intros Ha Hb.
  split; [apply timingSafeEqual_true_iff; assumption|].
  split; [apply timingSafeEqual_length_mismatch|].
  intros Hlen. split; [apply timingSafeEqual_loop_fold; assumption|].
  unfold timingSafeEqual. rewrite Hlen, Nat.eqb_refl. simpl.
  rewrite <- Hlen, timingSafeEqual_loop_fold by assumption. reflexivity.
Qed.

Lemma timingSafeEqual_correct_witness :
  (timingSafeEqual [53; 98; 100; 8364] [53; 98; 100; 8365] = true
   <-> [53; 98; 100; 8364] = [53; 98; 100; 8365])
  /\ timingSafeEqual (code_units "5bdc") (code_units "5bd") = false
  /\ timingSafeEqual_loop [53; 98; 100; 8364] [53; 98; 100; 8365] 4 0 0 = (4%nat, 1).
Proof.
  assert (Forall is_code_unit [53; 98; 100; 8364]) as Ha
    by (repeat constructor; unfold is_code_unit; lia).
  assert (Forall is_code_unit [53; 98; 100; 8365]) as Hb
    by (repeat constructor; unfold is_code_unit; lia).
  destruct (timingSafeEqual_correct [53; 98; 100; 8364] [53; 98; 100; 8365] Ha Hb)
    as [Hiff [_ Hloop]].
  destruct (timingSafeEqual_correct (code_units "5bdc") (code_units "5bd")
              (code_units_are_code_units "5bdc") (code_units_are_code_units "5bd"))
    as [_ [Hlen _]].
  split; [exact Hiff|]. split.
  - apply Hlen. simpl. lia.
  - destruct (Hloop eq_refl) as [Hfold _]. exact Hfold.
Defined.

(** ** The regular expression of the domain rule *)

Section Regex.

Lemma append_String c s t : String c s ++ t = String c (s ++ t).
Proof. reflexivity. Qed.

Lemma append_Empty t : "" ++ t = t.
Proof. reflexivity. Qed.

Lemma append_Empty_r s : s ++ "" = s.
Proof.
  induction s as [|c s IH]; [reflexivity|]. rewrite append_String, IH. reflexivity.
Qed.

Lemma append_eq_Empty s t : s ++ t = "" -> s = "" /\ t = "".
Proof. destruct s; [rewrite append_Empty; auto|rewrite append_String; discriminate]. Qed.

Lemma matches_seq_inv r1 r2 s :
  matches (ReSeq r1 r2) s ->
  exists s1 s2, s = s1 ++ s2 /\ matches r1 s1 /\ matches r2 s2.
Proof. inversion 1; subst; eauto. Qed.

Lemma matches_class_inv p s :
  matches (ReClass p) s -> exists c, s = String c "" /\ p c = true.
Proof. inversion 1; subst; eauto. Qed.

Lemma matches_alt_inv r1 r2 s :
  matches (ReAlt r1 r2) s -> matches r1 s \/ matches r2 s.
Proof. inversion 1; subst; auto. Qed.

Lemma nullable_correct r : nullable r = true <-> matches r "".
Proof.
  induction r as [| |p|r1 IH1 r2 IH2|r1 IH1 r2 IH2|r IH]; simpl.
  - split; [discriminate|]. inversion 1.
  - split; [constructor|reflexivity].
  - split; [discriminate|]. inversion 1.
  - rewrite andb_true_iff, IH1, IH2. split.
    + intros [H1 H2]. change "" with ("" ++ ""). constructor; assumption.
    + intros H. apply matches_seq_inv in H as (s1 & s2 & Heq & H1 & H2).
      symmetry in Heq. apply append_eq_Empty in Heq as [-> ->]. auto.
  - rewrite orb_true_iff, IH1, IH2. split.
    + intros [H|H]; [apply MAltL|apply MAltR]; assumption.
    + apply matches_alt_inv.
  - split; [constructor|reflexivity].
Qed.

(** A non-empty match of a star starts with a non-empty match of its
    body. *)
Lemma matches_star_String r c s :
  matches (ReStar r) (String c s) ->
  exists s1 s2, s = s1 ++ s2 /\ matches r (String c s1) /\ matches (ReStar r) s2.
Proof.
  intros H. remember (ReStar r) as r' eqn:Er. remember (String c s) as t eqn:Et.
  revert c s Et.
  induction H as [| | | | | |r0 s1 s2 H1 _ H2 IH2]; intros a t Et; try discriminate.
  injection Er as ->. destruct s1 as [|c1 s1].
  - rewrite append_Empty in Et. apply IH2; [reflexivity|exact Et].
  - rewrite append_String in Et. injection Et as -> <-.
    exists s1, s2. auto.
Qed.

Lemma matches_seq_String r1 r2 c s :
  matches (ReSeq r1 r2) (String c s)
  <-> (exists s1 s2, s = s1 ++ s2 /\ matches r1 (String c s1) /\ matches r2 s2)
      \/ (matches r1 "" /\ matches r2 (String c s)).
Proof.
  split.
  - intros H. apply matches_seq_inv in H as (s1 & s2 & Heq & H1 & H2).
    destruct s1 as [|c1 s1].
    + rewrite append_Empty in Heq. subst. right. auto.
    + rewrite append_String in Heq. injection Heq as -> ->. left. eauto.
  - intros [(s1 & s2 & -> & H1 & H2)|[H1 H2]].
    + rewrite <- append_String. constructor; assumption.
    + rewrite <- (append_Empty (String c s)). constructor; assumption.
Qed.

Lemma deriv_correct r : forall c s, matches (deriv c r) s <-> matches r (String c s).
Proof.
  induction r as [| |p|r1 IH1 r2 IH2|r1 IH1 r2 IH2|r IH]; intros c s; simpl.
  - split; inversion 1.
  - split; inversion 1.
  - destruct (p c) eqn:Ep; split.
    + inversion 1; subst. constructor. exact Ep.
    + inversion 1; subst. constructor.
    + inversion 1.
    + inversion 1; subst. congruence.
  - assert (matches (ReSeq (deriv c r1) r2) s
            <-> exists s1 s2, s = s1 ++ s2 /\ matches r1 (String c s1) /\ matches r2 s2)
      as Hseq.
    { split.
      - intros H. apply matches_seq_inv in H as (s1 & s2 & -> & H1 & H2).
        exists s1, s2. split; [reflexivity|]. split; [apply IH1|]; assumption.
      - intros (s1 & s2 & -> & H1 & H2). constructor; [apply IH1|]; assumption. }
    rewrite matches_seq_String. destruct (nullable r1) eqn:En.
    + split.
      * intros H. apply matches_alt_inv in H as [H|H].
        -- left. apply Hseq. assumption.
        -- right. split; [apply nullable_correct; exact En|apply IH2; assumption].
      * intros [H|[_ H]]; [apply MAltL, Hseq; exact H|apply MAltR, IH2; exact H].
    + rewrite Hseq. split; [auto|].
      intros [H|[H _]]; [exact H|]. apply nullable_correct in H. congruence.
  - split.
    + intros H. apply matches_alt_inv in H as [H|H];
        [apply MAltL, IH1|apply MAltR, IH2]; assumption.
    + intros H. apply matches_alt_inv in H as [H|H];
        [apply MAltL, IH1|apply MAltR, IH2]; assumption.
  - split.
    + intros H. apply matches_seq_inv in H as (s1 & s2 & -> & H1 & H2).
      rewrite <- append_String. constructor; [apply IH|]; assumption.
    + intros H. apply matches_star_String in H as (s1 & s2 & -> & H1 & H2).
      constructor; [apply IH|]; assumption.
Qed.

(** The test by derivatives decides the full match. *)
Lemma regex_test_correct s : forall r, regex_test r s = true <-> matches r s.
Proof.
  induction s as [|c s IH]; intros r; simpl.
  - apply nullable_correct.
  - rewrite IH. apply deriv_correct.
Qed.

Lemma matches_ReLit t : forall s, matches (ReLit t) s <-> s = t.
Proof.
  induction t as [|c t IH]; intros s; simpl.
  - split; [inversion 1; reflexivity|intros ->; constructor].
  - split.
    + intros H. apply matches_seq_inv in H as (s1 & s2 & -> & H1 & H2).
      apply matches_class_inv in H1 as (c' & -> & Hc).
      rewrite append_String, append_Empty.
      apply Ascii.eqb_eq in Hc. subst. f_equal. apply IH. exact H2.
    + intros ->. rewrite <- (append_Empty t), <- append_String.
      constructor; [constructor; apply Ascii.eqb_refl|apply IH; reflexivity].
Qed.

Lemma matches_star_class p s : matches (ReStar (ReClass p)) s <-> all_in p s = true.
Proof.
  split.
  - intros H. remember (ReStar (ReClass p)) as r eqn:Er.
    induction H as [| | | | | |r0 s1 s2 H1 _ H2 IH2]; try discriminate.
    + reflexivity.
    + injection Er as ->. apply matches_class_inv in H1 as (c & -> & Hc).
      rewrite append_String, append_Empty. simpl.
      rewrite IH2 by reflexivity. rewrite andb_true_r. assumption.
  - induction s as [|c s IH]; simpl.
    + intros _. constructor.
    + rewrite andb_true_iff. intros [Hc Hs].
      rewrite <- (append_Empty s), <- append_String.
      constructor; [constructor; exact Hc|apply IH; exact Hs].
Qed.

(** The identifiers the domain rule accepts: an alphanumeric character,
    then alphanumeric characters and dashes, then [.myshopify.com]. *)
Lemma shop_domain_regex_correct s :
  regex_test shop_domain_regex s = true
  <-> exists c label,
        s = String c (label ++ ".myshopify.com")
        /\ is_alnum c = true /\ all_in is_alnum_dash label = true.
Proof.
  rewrite regex_test_correct. unfold shop_domain_regex. split.
  - intros H. apply matches_seq_inv in H as (s1 & s2 & -> & H1 & H2).
    apply matches_class_inv in H1 as (c & -> & Hc).
    apply matches_seq_inv in H2 as (s3 & s4 & -> & H3 & H4).
    apply matches_star_class in H3. apply matches_ReLit in H4. subst.
    rewrite append_String, append_Empty. eauto.
  - intros (c & label & -> & Hc & Hlabel).
    rewrite <- (append_Empty (label ++ _)), <- append_String.
    constructor; [constructor; exact Hc|].
    constructor; [apply matches_star_class; exact Hlabel|].
    apply matches_ReLit. reflexivity.
Qed.

End Regex.

(** ** Frame rules of the monad *)

Section Frames.

Context {X : Type} (f : World -> X).

Lemma preserves_ret {A} (a : A) : preserves f (ret a).
Proof. intros w. reflexivity. Qed.

Lemma preserves_throw {A} (e : JsError) : preserves f (@throw A e).
Proof. intros w. reflexivity. Qed.

Lemma preserves_settle {A} (o : Outcome A) : preserves f (settle o).
Proof. intros w. reflexivity. Qed.

Lemma preserves_bind {A B} (c : M A) (k : A -> M B) :
  preserves f c -> (forall a, preserves f (k a)) -> preserves f (bind c k).
Proof.
  intros Hc Hk w. unfold bind. specialize (Hc w).
  destruct (c w) as [[a|e] w']; simpl in *.
  - rewrite Hk. exact Hc.
  - exact Hc.
Qed.

Lemma preserves_try_catch {A} (c : M A) (h : JsError -> M A) :
  preserves f c -> (forall e, preserves f (h e)) -> preserves f (try_catch c h).
Proof.
  intros Hc Hh w. unfold try_catch. specialize (Hc w).
  destruct (c w) as [[a|e] w']; simpl in *.
  - exact Hc.
  - rewrite Hh. exact Hc.
Qed.

End Frames.

Lemma upstream_calls_record e w :
  upstream_calls (record e w)
  = (upstream_calls w ++ (if is_upstream_call e then [e] else []))%list.
Proof.
  unfold upstream_calls, record; simpl. rewrite List.filter_app. simpl.
  destruct (is_upstream_call e); reflexivity.
Qed.

Lemma store_accesses_record e w :
  store_accesses (record e w)
  = (store_accesses w ++ (if is_store_access e then [e] else []))%list.
Proof.
  unfold store_accesses, record; simpl. rewrite List.filter_app. simpl.
  destruct (is_store_access e); reflexivity.
Qed.

(** ** The OAuth callback *)

Section Callback.

Context (rt : Runtime).

Lemma truthy_str_Some s : s <> "" -> truthy_str (Some s) = true.
Proof.
  intros Hs. simpl. destruct (String.eqb_spec s ""); [contradiction|reflexivity].
Qed.

(** With the four parameters present the callback starts by reading the
    state store. *)
Lemma handleOAuthCallback_present request env code shop state hmac :
  carries request code shop state hmac ->
  handleOAuthCallback rt request env
  = (let* savedShop := AUTH_STATES_get state in
     if negb (bool_decide (savedShop = Some shop))
     then throw (AuthenticationError ERROR_MESSAGES.INVALID_STATE 403)
     else
       run AUTH_STATES_delete state in
       callback_after_state_check rt request env shop code).
Proof.
  intros (Hc & Hs & Hst & Hh & Hc' & Hs' & Hst' & Hh').
  unfold handleOAuthCallback. cbv zeta in *.
  rewrite Hc, Hs, Hst, Hh.
  rewrite !truthy_str_Some by assumption. reflexivity.
Qed.

Lemma handleOAuthCallback_invalid_state request env w code shop state hmac :
  carries request code shop state hmac ->
  kv_get (now w) (AUTH_STATES w) state <> Some shop ->
  handleOAuthCallback rt request env w
  = (Threw (AuthenticationError ERROR_MESSAGES.INVALID_STATE 403),
     record (EvGet NsAUTH_STATES state) w).
Proof.
  intros Hreq Hstate.
  rewrite (handleOAuthCallback_present request env code shop state hmac Hreq).
  unfold bind, AUTH_STATES_get.
  rewrite bool_decide_eq_false_2 by assumption. reflexivity.
Qed.

End Callback.

Lemma handleOAuthCallback_carries_or_missing (rt : Runtime) request env w :
  (exists code shop state hmac, carries request code shop state hmac)
  \/ handleOAuthCallback rt request env w
     = (Threw (ValidationError ERROR_MESSAGES.MISSING_OAUTH_PARAMS 400), w).
Proof.
  unfold handleOAuthCallback, carries. cbv zeta.
  destruct (fromEntries_get (searchParams (req_url request)) "code") as [code|];
    [destruct (String.eqb_spec code "") as [->|Hcode]|]; try (right; reflexivity).
  destruct (fromEntries_get (searchParams (req_url request)) "shop") as [shop|];
    [destruct (String.eqb_spec shop "") as [->|Hshop]|];
    try (right; unfold truthy_str; rewrite (proj2 (String.eqb_neq code "") Hcode);
         reflexivity).
  destruct (fromEntries_get (searchParams (req_url request)) "state") as [state|];
    [destruct (String.eqb_spec state "") as [->|Hstate]|];
    try (right; unfold truthy_str;
         rewrite (proj2 (String.eqb_neq code "") Hcode),
                 (proj2 (String.eqb_neq shop "") Hshop);
         reflexivity).
  destruct (fromEntries_get (searchParams (req_url request)) "hmac") as [hmac|];
    [destruct (String.eqb_spec hmac "") as [->|Hhmac]|];
    try (right; unfold truthy_str;
         rewrite (proj2 (String.eqb_neq code "") Hcode),
                 (proj2 (String.eqb_neq shop "") Hshop),
                 (proj2 (String.eqb_neq state "") Hstate);
         reflexivity).
  left. exists code, shop, state, hmac. auto 10.
Qed.

(** C8. In the OAuth callback carrying its four parameters, whenever the
    State Store holds no entry for the supplied state token, or holds a
    domain other than the supplied one, the callback throws
    AuthenticationError (invalid state, 403); the only thing it did is the
    read of the state store, so no upstream call (in particular no token
    exchange) occurred and no store changed.  The absent case and the
    mismatched case end in the same outcome and the same world.  Whatever
    parameters the request carries, a callback whose state token has no
    matching entry throws and calls nothing upstream. *)
Theorem callback_invalid_state_fails_closed (rt : Runtime) request env w :
  (forall code shop state hmac,
      carries request code shop state hmac ->
      (kv_get (now w) (AUTH_STATES w) state = None
       \/ exists other,
            kv_get (now w) (AUTH_STATES w) state = Some other /\ other <> shop) ->
      handleOAuthCallback rt request env w
      = (Threw (AuthenticationError ERROR_MESSAGES.INVALID_STATE 403),
         record (EvGet NsAUTH_STATES state) w)
      /\ upstream_calls (snd (handleOAuthCallback rt request env w)) = upstream_calls w
      /\ SHOPS (snd (handleOAuthCallback rt request env w)) = SHOPS w
      /\ AUTH_STATES (snd (handleOAuthCallback rt request env w)) = AUTH_STATES w
      /\ API_KEYS (snd (handleOAuthCallback rt request env w)) = API_KEYS w)
  /\ ((forall shop state,
          fromEntries_get (searchParams (req_url request)) "shop" = Some shop ->
          fromEntries_get (searchParams (req_url request)) "state" = Some state ->
          kv_get (now w) (AUTH_STATES w) state <> Some shop) ->
      (exists e, fst (handleOAuthCallback rt request env w) = Threw e)
      /\ upstream_calls (snd (handleOAuthCallback rt request env w)) = upstream_calls w).
Proof.
  split.
  - intros code shop state hmac Hreq Hstate.
    rewrite (handleOAuthCallback_invalid_state rt request env w code shop state hmac Hreq).
    + simpl. rewrite upstream_calls_record. simpl. rewrite app_nil_r. auto.
    + destruct Hstate as [-> | (other & -> & Hne)]; congruence.
  - intros Hstate.
    destruct (handleOAuthCallback_carries_or_missing rt request env w)
      as [(code & shop & state & hmac & Hreq) | ->].
    + rewrite (handleOAuthCallback_invalid_state rt request env w code shop state hmac
                 Hreq).
      * simpl. rewrite upstream_calls_record. simpl. rewrite app_nil_r. eauto.
      * apply Hstate; apply Hreq.
    + simpl. eauto.
Qed.

Lemma callback_invalid_state_fails_closed_witness :
  handleOAuthCallback Fixture.runtime (Fixture.callback_request "shop-b.myshopify.com")
    Fixture.env Fixture.world_with_state
  = (Threw (AuthenticationError "Invalid state parameter" 403),
     record (EvGet NsAUTH_STATES "st-1") Fixture.world_with_state)
  /\ handleOAuthCallback Fixture.runtime (Fixture.callback_request "shop-a.myshopify.com")
       Fixture.env Fixture.empty_world
     = (Threw (AuthenticationError "Invalid state parameter" 403),
        record (EvGet NsAUTH_STATES "st-1") Fixture.empty_world)
  /\ upstream_calls
       (snd (handleOAuthCallback Fixture.runtime
               (Fixture.get_request "/auth/callback"
                  [("shop", "shop-a.myshopify.com"); ("state", "st-1")])
               Fixture.env Fixture.empty_world)) = [].
Proof.
  split; [|split].
  - destruct (callback_invalid_state_fails_closed Fixture.runtime
                (Fixture.callback_request "shop-b.myshopify.com") Fixture.env
                Fixture.world_with_state) as [Hcarries _].
    apply (Hcarries "c0de" "shop-b.myshopify.com" "st-1"
             (Fixture.provider_signature (Fixture.callback_params "shop-b.myshopify.com")
                "s3cr3t")).
    + unfold carries. vm_compute. repeat split; discriminate.
    + right. exists "shop-a.myshopify.com". split; [reflexivity | discriminate].
  - destruct (callback_invalid_state_fails_closed Fixture.runtime
                (Fixture.callback_request "shop-a.myshopify.com") Fixture.env
                Fixture.empty_world) as [Hcarries _].
    apply (Hcarries "c0de" "shop-a.myshopify.com" "st-1"
             (Fixture.provider_signature (Fixture.callback_params "shop-a.myshopify.com")
                "s3cr3t")).
    + unfold carries. vm_compute. repeat split; discriminate.
    + left. reflexivity.
  - destruct (callback_invalid_state_fails_closed Fixture.runtime
                (Fixture.get_request "/auth/callback"
                   [("shop", "shop-a.myshopify.com"); ("state", "st-1")])
                Fixture.env Fixture.empty_world) as [_ Hany].
    apply Hany. intros shop state _ _. unfold kv_get.
    cbn [AUTH_STATES Fixture.empty_world]. rewrite lookup_empty. discriminate.
Defined.

(** ** What the steps of a handler leave alone *)

Ltac frame_leaf :=
  solve [ intros ?; reflexivity
        | intros ?; simpl;
          repeat (match goal with
                  | H : forall _ _, _ = _ |- _ => rewrite H
                  end);
          reflexivity
        | intros ?; unfold upstream_calls, store_accesses; simpl;
          rewrite ?List.filter_app; simpl; rewrite ?app_nil_r; reflexivity ].

Ltac frame_step :=
  first
    [ apply preserves_bind; [|intros ?]
    | apply preserves_try_catch; [|intros ?]
    | match goal with
      | |- preserves _ (if ?b then _ else _) => destruct b
      | |- preserves _ (match ?x with _ => _ end) => destruct x
      end
    | frame_leaf ].

Ltac frame := repeat frame_step.

(** Runs a handler as far as its tests allow. *)
Ltac run_handler :=
  unfold destructure, get_member,
    SHOPS_get, SHOPS_put, SHOPS_delete, AUTH_STATES_get, AUTH_STATES_put,
    AUTH_STATES_delete, API_KEYS_get, API_KEYS_put, crypto_randomUUID,
    Date_toISOString, do_fetch, bind, try_catch, settle, ret, throw;
  cbn beta iota zeta delta [fst snd negb default].


Section HandlerFrames.

Context (rt : Runtime) {X : Type} (f : World -> X).

(** [f] does not look at the log. *)
Hypothesis f_record : forall e w, f (record e w) = f w.

Lemma get_member_preserves o key : preserves f (get_member o key).
Proof. unfold get_member. frame. Qed.

Lemma destructure_preserves o name key : preserves f (destructure o name key).
Proof. unfold destructure. frame. Qed.

Lemma do_fetch_preserves request : preserves f (do_fetch rt request).
Proof. unfold do_fetch. frame. Qed.

Lemma exchangeCodeForToken_preserves shop code env :
  preserves f (exchangeCodeForToken rt shop code env).
Proof. unfold exchangeCodeForToken. frame. Qed.

Lemma registerMandatoryWebhooks_preserves shop accessToken env :
  preserves f (registerMandatoryWebhooks rt shop accessToken env).
Proof.
  unfold registerMandatoryWebhooks.
  induction (mandatory_webhooks env) as [|[topic address] rest IH]; simpl.
  - apply preserves_ret.
  - apply preserves_bind; [|intros ?; exact IH].
    apply preserves_try_catch; [|intros ?; apply preserves_ret].
    apply preserves_bind; [apply do_fetch_preserves|intros ?; apply preserves_ret].
Qed.

Lemma proxyToShopify_preserves shop endpoint method data accessToken env :
  preserves f (proxyToShopify rt shop endpoint method data accessToken env).
Proof. unfold proxyToShopify. frame. Qed.

Lemma new_Response_preserves response : preserves f (new_Response rt response).
Proof. unfold new_Response. frame. Qed.

(** The proxy writes to no store. *)
Lemma handleAPIProxy_preserves request env corsHeaders :
  preserves f (handleAPIProxy rt request env corsHeaders).
Proof.
  unfold handleAPIProxy.
  destruct (extractApiKey request); [|frame].
  destruct (String.eqb _ _); [frame|].
  apply preserves_bind; [frame|intros keyData].
  destruct (negb (truthy keyData)); [frame|].
  repeat (apply preserves_bind; [apply destructure_preserves|intros ?]).
  destruct (negb (truthy _)); [frame|].
  apply preserves_try_catch; [|intros ?; frame].
  apply preserves_bind;
    [apply proxyToShopify_preserves|intros ?; apply new_Response_preserves].
Qed.

Section NotSHOPS.

(** [f] does not look at [SHOPS]. *)
Hypothesis f_SHOPS : forall m w, f (set_SHOPS m w) = f w.

Lemma storeShopData_preserves shop tokenData env :
  preserves f (storeShopData rt shop tokenData env).
Proof.
  unfold storeShopData.
  apply preserves_bind; [apply get_member_preserves|intros ?].
  apply preserves_bind; [apply get_member_preserves|intros ?].
  frame.
Qed.

Lemma callback_after_state_check_preserves request env shop code :
  preserves f (callback_after_state_check rt request env shop code).
Proof.
  unfold callback_after_state_check.
  destruct (verifyShopifyHmac _ _ _); simpl.
  - apply preserves_bind; [apply exchangeCodeForToken_preserves|intros ?].
    apply preserves_bind; [apply storeShopData_preserves|intros ?].
    apply preserves_bind; [apply get_member_preserves|intros ?].
    apply preserves_bind; [apply registerMandatoryWebhooks_preserves|intros ?].
    apply preserves_ret.
  - apply preserves_throw.
Qed.

Lemma handleRootPath_preserves url env : preserves f (handleRootPath rt url env).
Proof. unfold handleRootPath, checkInstallation, createInstallRedirect. frame. Qed.

Lemma handleWebhook_preserves request env topic :
  preserves f (handleWebhook rt request env topic).
Proof.
  unfold handleWebhook, handleShopRedact, handleCustomerRedact,
    handleCustomerDataRequest.
  destruct (negb _); [frame|].
  apply preserves_bind; [frame|intros data].
  apply preserves_bind; [|intros ?; frame].
  destruct (String.eqb topic "shop/redact"); [|frame].
  apply preserves_bind; [apply get_member_preserves|intros ?]. frame.
Qed.

(** [f] does not look at [AUTH_STATES] either. *)
Hypothesis f_AUTH_STATES : forall m w, f (set_AUTH_STATES m w) = f w.

Lemma handleOAuth_preserves request env : preserves f (handleOAuth rt request env).
Proof. unfold handleOAuth. frame. Qed.

Lemma handleOAuthCallback_preserves request env :
  preserves f (handleOAuthCallback rt request env).
Proof.
  unfold handleOAuthCallback. cbv zeta.
  destruct (_ || _); [frame|].
  apply preserves_bind; [frame|intros savedShop].
  destruct (negb _); [frame|].
  apply preserves_bind; [frame|intros ?].
  apply callback_after_state_check_preserves.
Qed.

End NotSHOPS.

End HandlerFrames.

Section AfterStateCheck.

Context (rt : Runtime).

(** With a matching state entry the callback reads it, deletes it and
    goes on. *)
Lemma handleOAuthCallback_valid_state request env w code shop state hmac :
  carries request code shop state hmac ->
  kv_get (now w) (AUTH_STATES w) state = Some shop ->
  handleOAuthCallback rt request env w
  = callback_after_state_check rt request env shop code
      (record (EvDelete NsAUTH_STATES state)
         (set_AUTH_STATES (kv_delete (AUTH_STATES w) state)
            (record (EvGet NsAUTH_STATES state) w))).
Proof.
  intros Hreq Hstate.
  rewrite (handleOAuthCallback_present rt request env code shop state hmac Hreq).
  unfold bind at 1. unfold AUTH_STATES_get at 1. rewrite Hstate.
  rewrite bool_decide_eq_true_2 by reflexivity. cbn [negb].
  unfold bind at 1. unfold AUTH_STATES_delete at 1. reflexivity.
Qed.

Lemma handleOAuthCallback_consumes request env w code shop state hmac :
  carries request code shop state hmac ->
  kv_get (now w) (AUTH_STATES w) state = Some shop ->
  AUTH_STATES (snd (handleOAuthCallback rt request env w))
  = delete state (AUTH_STATES w)
  /\ now (snd (handleOAuthCallback rt request env w)) = now w.
Proof.
  intros Hreq Hstate.
  rewrite (handleOAuthCallback_valid_state request env w code shop state hmac Hreq Hstate).
  rewrite (callback_after_state_check_preserves rt AUTH_STATES) by reflexivity.
  rewrite (callback_after_state_check_preserves rt now) by reflexivity.
  split; reflexivity.
Qed.

End AfterStateCheck.

(** C1 (as amended).  In the OAuth callback carrying its four parameters,
    whenever the state store returns the supplied domain for the state
    token, the entry of that token is deleted before the callback
    finishes, whether the rest of the callback (signature check, token
    exchange, persistence, webhook registration) succeeds or fails;
    consequently a second callback presenting the same token, at any later
    time, fails with AuthenticationError (invalid state). *)
Theorem callback_consumes_matching_state (rt : Runtime) request env w
    code shop state hmac :
  carries request code shop state hmac ->
  kv_get (now w) (AUTH_STATES w) state = Some shop ->
  AUTH_STATES (snd (handleOAuthCallback rt request env w)) !! state = None
  /\ AUTH_STATES (snd (handleOAuthCallback rt request env w))
     = delete state (AUTH_STATES w)
  /\ forall request2 env2 t code2 shop2 hmac2,
       carries request2 code2 shop2 state hmac2 ->
       fst (handleOAuthCallback rt request2 env2
              (set_now t (snd (handleOAuthCallback rt request env w))))
       = Threw (AuthenticationError ERROR_MESSAGES.INVALID_STATE 403).
Proof.
  intros Hreq Hstate.
  destruct (handleOAuthCallback_consumes rt request env w code shop state hmac
              Hreq Hstate) as [Hdel _].
  split; [rewrite Hdel; apply lookup_delete_eq|].
  split; [exact Hdel|].
  intros request2 env2 t code2 shop2 hmac2 Hreq2.
  rewrite (handleOAuthCallback_invalid_state rt request2 env2 _ code2 shop2 state hmac2
             Hreq2); [reflexivity|].
  unfold kv_get. simpl. rewrite Hdel, lookup_delete_eq. discriminate.
Qed.

Lemma callback_consumes_matching_state_witness :
  AUTH_STATES
    (snd (handleOAuthCallback Fixture.runtime
            (Fixture.callback_request "shop-a.myshopify.com") Fixture.env
            Fixture.world_with_state)) !! "st-1" = None.
Proof.
  apply (callback_consumes_matching_state Fixture.runtime
           (Fixture.callback_request "shop-a.myshopify.com") Fixture.env
           Fixture.world_with_state
           "c0de" "shop-a.myshopify.com" "st-1"
           (Fixture.provider_signature (Fixture.callback_params "shop-a.myshopify.com")
              "s3cr3t")).
  - unfold carries. vm_compute. repeat split; discriminate.
  - vm_compute. reflexivity.
Defined.

(** C1 as stated fails: a callback whose domain differs from the stored
    one fails, yet the entry of its state token is still there, and the
    next callback presenting the same token goes through. *)
Lemma callback_state_survives_mismatch :
  carries (Fixture.callback_request "shop-b.myshopify.com")
    "c0de" "shop-b.myshopify.com" "st-1"
    (Fixture.provider_signature (Fixture.callback_params "shop-b.myshopify.com") "s3cr3t")
  /\ fst (handleOAuthCallback Fixture.runtime
            (Fixture.callback_request "shop-b.myshopify.com") Fixture.env
            Fixture.world_with_state)
     = Threw (AuthenticationError "Invalid state parameter" 403)
  /\ kv_get 1000
       (AUTH_STATES
          (snd (handleOAuthCallback Fixture.runtime
                  (Fixture.callback_request "shop-b.myshopify.com") Fixture.env
                  Fixture.world_with_state))) "st-1"
     = Some "shop-a.myshopify.com"
  /\ fst (handleOAuthCallback Fixture.runtime
            (Fixture.callback_request "shop-a.myshopify.com") Fixture.env
            (snd (handleOAuthCallback Fixture.runtime
                    (Fixture.callback_request "shop-b.myshopify.com") Fixture.env
                    Fixture.world_with_state)))
     = Returned (RedirectResponse "https://shop-a.myshopify.com/admin/apps/gateway" 302).
Proof.
  split.
  { unfold carries. vm_compute. repeat split; discriminate. }
  vm_compute. repeat split; reflexivity.
Qed.

(** ** Webhook signatures *)

Lemma TextEncoder_encode_nonempty s : s <> "" -> TextEncoder_encode s <> [].
Proof.
  destruct s as [|c s]; [congruence|]. intros _.
  unfold TextEncoder_encode, code_units. simpl.
  unfold utf8_of_code. destruct (_ <? 128); discriminate.
Qed.

(** The webhook verifier accepts exactly the base64 HMAC of the body, for
    a non-empty body and a non-empty secret. *)
Lemma verifyWebhookHmac_true_iff body hmac secret :
  verifyWebhookHmac body hmac secret = true
  <-> body <> "" /\ secret <> ""
      /\ hmac = Some (btoa (fromCharCodes
                               (Sha256.hmac (TextEncoder_encode secret)
                                  (TextEncoder_encode body))))
      /\ hmac <> Some "".
Proof.
  unfold verifyWebhookHmac. destruct hmac as [h|].
  2: { split; [discriminate|]. intros (_ & _ & H & _). discriminate. }
  destruct (String.eqb_spec h "") as [->|Hh]; simpl.
  { split; [discriminate|]. intros (_ & _ & _ & H). congruence. }
  destruct (String.eqb_spec secret "") as [->|Hs]; simpl.
  { split; [discriminate|]. intros (_ & H & _). congruence. }
  destruct (String.eqb_spec body "") as [->|Hb]; simpl.
  { split; [discriminate|]. intros (H & _). congruence. }
  unfold subtle_sign_hmac_sha256.
  pose proof (TextEncoder_encode_nonempty secret Hs) as Hkey.
  destruct (TextEncoder_encode secret) as [|k0 key] eqn:Ek; [congruence|].
  rewrite timingSafeEqual_strings. split.
  - intros ->. repeat split; try assumption. congruence.
  - intros (_ & _ & H & _). congruence.
Qed.

(** C4. For every inbound webhook request whose signature header does not
    verify against the raw body under the shared secret (the verifier
    says no; in particular whenever the header is not the base64
    HMAC-SHA256 of the body), the webhook handler throws
    AuthenticationError (invalid webhook signature, 401) and the world is
    exactly as before: nothing was dispatched, no store entry was written
    or deleted, no store was even read. *)
Theorem webhook_bad_signature_fails_closed (rt : Runtime) request env topic w :
  (verifyWebhookHmac (req_body request) (req_X_Shopify_Hmac_Sha256 request)
     (SHOPIFY_API_SECRET env) = false
   \/ req_X_Shopify_Hmac_Sha256 request
      <> Some (btoa (fromCharCodes
                        (Sha256.hmac (TextEncoder_encode (SHOPIFY_API_SECRET env))
                           (TextEncoder_encode (req_body request)))))) ->
  handleWebhook rt request env topic w
  = (Threw (AuthenticationError ERROR_MESSAGES.INVALID_WEBHOOK 401), w)
  /\ SHOPS (snd (handleWebhook rt request env topic w)) = SHOPS w
  /\ AUTH_STATES (snd (handleWebhook rt request env topic w)) = AUTH_STATES w
  /\ API_KEYS (snd (handleWebhook rt request env topic w)) = API_KEYS w
  /\ log (snd (handleWebhook rt request env topic w)) = log w.
Proof.
  intros Hbad.
  assert (verifyWebhookHmac (req_body request) (req_X_Shopify_Hmac_Sha256 request)
            (SHOPIFY_API_SECRET env) = false) as Hv.
  { destruct Hbad as [H|H]; [exact H|].
    destruct (verifyWebhookHmac _ _ _) eqn:E; [|reflexivity].
    apply verifyWebhookHmac_true_iff in E. destruct E as (_ & _ & E & _).
    contradiction. }
  unfold handleWebhook. rewrite Hv. simpl. auto.
Qed.

Lemma webhook_bad_signature_fails_closed_witness :
  handleWebhook Fixture.runtime
    (Fixture.post_request "/webhooks/shop/redact" None (Some "Zm9yZ2Vk")
       Fixture.redact_body)
    Fixture.env "shop/redact" Fixture.world_installed
  = (Threw (AuthenticationError "Invalid webhook signature" 401),
     Fixture.world_installed).
Proof.
  apply (webhook_bad_signature_fails_closed Fixture.runtime
           (Fixture.post_request "/webhooks/shop/redact" None (Some "Zm9yZ2Vk")
              Fixture.redact_body)
           Fixture.env "shop/redact" Fixture.world_installed).
  left. vm_compute. reflexivity.
Defined.

(** ** The proxy *)

Lemma kv_get_expired {V} (ns : gmap string (KVEntry V)) key e t now :
  ns !! key = Some e -> kv_expiration e = Some t -> t <= now ->
  kv_get now ns key = None.
Proof.
  intros He Ht Hle. unfold kv_get, kv_live. rewrite He, Ht.
  destruct (Z.ltb_spec now t); [lia|reflexivity].
Qed.

Lemma kv_get_missing {V} (ns : gmap string (KVEntry V)) key now :
  ns !! key = None -> kv_get now ns key = None.
Proof. intros He. unfold kv_get. rewrite He. reflexivity. Qed.

(** C5. For every proxy request whose client key is missing from the
    request (no Authorization header, not a Bearer one, or an empty key),
    or is absent from the Credential Store, an entry whose TTL has run out
    being read as absent, the proxy answers 401 with an error payload
    (missing or invalid authorization, or invalid API key) and makes no
    upstream call; it changes no store. *)
Theorem proxy_unknown_key_fails_closed (rt : Runtime) request env corsHeaders w :
  (extractApiKey request = None
   \/ extractApiKey request = Some ""
   \/ (exists k, extractApiKey request = Some k
                 /\ API_KEYS w !! ("key:" ++ k) = None)
   \/ (exists k e t, extractApiKey request = Some k
                     /\ API_KEYS w !! ("key:" ++ k) = Some e
                     /\ kv_expiration e = Some t /\ t <= now w)) ->
  (exists message,
      fst (handleAPIProxy rt request env corsHeaders w)
      = Returned (createJsonResponse (JObj [("error", JStr message)]) 401 corsHeaders)
      /\ (message = ERROR_MESSAGES.MISSING_AUTH
          \/ message = ERROR_MESSAGES.INVALID_API_KEY))
  /\ upstream_calls (snd (handleAPIProxy rt request env corsHeaders w)) = upstream_calls w
  /\ SHOPS (snd (handleAPIProxy rt request env corsHeaders w)) = SHOPS w
  /\ AUTH_STATES (snd (handleAPIProxy rt request env corsHeaders w)) = AUTH_STATES w
  /\ API_KEYS (snd (handleAPIProxy rt request env corsHeaders w)) = API_KEYS w.
Proof.
  intros Hkey. unfold handleAPIProxy.
  destruct Hkey as [-> | [-> | Hkey]].
  - simpl. split; [eexists; split; [reflexivity|auto]|auto].
  - simpl. split; [eexists; split; [reflexivity|auto]|auto].
  - assert (exists k, extractApiKey request = Some k
                      /\ kv_get (now w) (API_KEYS w) ("key:" ++ k) = None)
      as (k & -> & Hget).
    { destruct Hkey as [(k & Hk & Hnone) | (k & e & t & Hk & He & Ht & Hle)].
      - exists k. split; [exact Hk|]. apply kv_get_missing. exact Hnone.
      - exists k. split; [exact Hk|]. eapply kv_get_expired; eassumption. }
    destruct (String.eqb_spec k "") as [->|Hk].
    + simpl. split; [eexists; split; [reflexivity|auto]|auto].
    + unfold bind, API_KEYS_get. rewrite Hget. simpl.
      rewrite upstream_calls_record. simpl. rewrite app_nil_r.
      split; [eexists; split; [reflexivity|auto]|auto].
Qed.

Lemma proxy_unknown_key_fails_closed_witness :
  upstream_calls
    (snd (handleAPIProxy Fixture.runtime (Fixture.proxy_request (Some "Bearer k-2"))
            Fixture.env getCorsHeaders Fixture.world_installed)) = []
  /\ upstream_calls
       (snd (handleAPIProxy Fixture.runtime (Fixture.proxy_request (Some "Bearer k-1"))
               Fixture.env getCorsHeaders (set_now 7777000 Fixture.world_installed))) = []
  /\ upstream_calls
       (snd (handleAPIProxy Fixture.runtime (Fixture.proxy_request None)
               Fixture.env getCorsHeaders Fixture.world_installed)) = [].
Proof.
  split; [|split].
  - apply (proxy_unknown_key_fails_closed Fixture.runtime
             (Fixture.proxy_request (Some "Bearer k-2")) Fixture.env getCorsHeaders
             Fixture.world_installed).
    right. right. left. exists "k-2". split; vm_compute; reflexivity.
  - apply (proxy_unknown_key_fails_closed Fixture.runtime
             (Fixture.proxy_request (Some "Bearer k-1")) Fixture.env getCorsHeaders
             (set_now 7777000 Fixture.world_installed)).
    right. right. right.
    exists "k-1", (Fixture.kv_entry Fixture.client_credential (Some 7777000)), 7777000.
    repeat split; vm_compute; try reflexivity. discriminate.
  - apply (proxy_unknown_key_fails_closed Fixture.runtime
             (Fixture.proxy_request None) Fixture.env getCorsHeaders
             Fixture.world_installed).
    left. reflexivity.
Defined.

(** ** Credential issuance *)

Section Issuance.

Context (rt : Runtime).

(** What [handleExtensionAuth] does to the key store: nothing, or one
    [put] of a credential for a domain whose merchant record it read. *)
Lemma handleExtensionAuth_API_KEYS request env corsHeaders w :
  API_KEYS (snd (handleExtensionAuth rt request env corsHeaders w)) = API_KEYS w
  \/ exists shop record apiKey createdAt,
       member (parseJsonBody rt request) "shop" = Some shop
       /\ isValidShopDomain rt (Some shop) = true
       /\ kv_get (now w) (SHOPS w) (template rt (Some shop)) = Some record
       /\ truthy (Some record) = true
       /\ API_KEYS (snd (handleExtensionAuth rt request env corsHeaders w))
          = kv_put (now w) (API_KEYS w) ("key:" ++ apiKey)
              (JObj ([("shop", shop)]
                     ++ field "accessToken" (member record "accessToken")
                     ++ [("createdAt", JStr createdAt)]))
              (Some (86400 * API_KEY_TTL_DAYS)).
Proof.
  unfold handleExtensionAuth.
  destruct (parseJsonBody rt request) as [| | | | |members] eqn:Ebody;
    try (left; run_handler; unfold member;
         destruct (isValidShopDomain rt None) eqn:Ev;
         [unfold isValidShopDomain in Ev; simpl in Ev; discriminate|reflexivity]).
  run_handler. unfold member.
  destruct (assoc "shop" members) as [shop|] eqn:Eshop.
  2: { left. unfold isValidShopDomain. reflexivity. }
  destruct (isValidShopDomain rt (Some shop)) eqn:Evalid; [|left; reflexivity].
  run_handler.
  destruct (kv_get (now w) (SHOPS w) (template rt (Some shop))) as [record|] eqn:Eget.
  2: { left. reflexivity. }
  destruct (truthy (Some record)) eqn:Etruthy; [|left; reflexivity].
  right. exists shop, record.
  eexists. eexists.
  split; [reflexivity|]. split; [assumption|]. split; [assumption|].
  split; [assumption|].
  run_handler. unfold member.
  destruct record; simpl in Etruthy; try discriminate; reflexivity.
Qed.

Lemma handleExtensionAuth_not_installed request env corsHeaders w shop :
  member (parseJsonBody rt request) "shop" = Some (JStr shop) ->
  kv_get (now w) (SHOPS w) shop = None ->
  handleExtensionAuth rt request env corsHeaders w
  = (Returned
       (if isValidShopDomain rt (Some (JStr shop))
        then createJsonResponse
               (JObj [ ("error", JStr ERROR_MESSAGES.APP_NOT_INSTALLED);
                       ("install_url",
                        JStr ("https://apps.shopify.com/" ++ SHOPIFY_APP_HANDLE env)) ])
               403 corsHeaders
        else createJsonResponse
               (JObj [("error", JStr ERROR_MESSAGES.INVALID_SHOP)]) 400 corsHeaders),
     if isValidShopDomain rt (Some (JStr shop))
     then record (EvGet NsSHOPS shop) w else w).
Proof.
  intros Hshop Hget. unfold handleExtensionAuth.
  destruct (parseJsonBody rt request) as [| | | | |members] eqn:Ebody;
    try discriminate.
  simpl in Hshop. run_handler. unfold member. rewrite Hshop.
  destruct (isValidShopDomain rt (Some (JStr shop))); [|reflexivity].
  run_handler. cbn [template to_string].
  rewrite Hget. reflexivity.
Qed.

End Issuance.

Lemma routeRequest_API_KEYS (rt : Runtime) request url env corsHeaders w :
  API_KEYS (snd (routeRequest rt request url env corsHeaders w)) = API_KEYS w
  \/ (pathname url = "/api/auth"
      /\ routeRequest rt request url env corsHeaders w
         = handleExtensionAuth rt request env corsHeaders w).
Proof.
  unfold routeRequest.
  destruct (String.eqb (pathname url) "/");
    [left; apply (handleRootPath_preserves rt API_KEYS); reflexivity|].
  destruct (String.eqb (pathname url) "/auth");
    [left; apply (handleOAuth_preserves rt API_KEYS); reflexivity|].
  destruct (String.eqb (pathname url) "/auth/callback");
    [left; apply (handleOAuthCallback_preserves rt API_KEYS); reflexivity|].
  destruct (String.eqb (pathname url) "/webhooks/customers/redact");
    [left; apply (handleWebhook_preserves rt API_KEYS); reflexivity|].
  destruct (String.eqb (pathname url) "/webhooks/shop/redact");
    [left; apply (handleWebhook_preserves rt API_KEYS); reflexivity|].
  destruct (String.eqb (pathname url) "/webhooks/customers/data_request");
    [left; apply (handleWebhook_preserves rt API_KEYS); reflexivity|].
  destruct (String.eqb_spec (pathname url) "/api/auth") as [Hpath|_];
    [right; split; [exact Hpath|reflexivity]|].
  destruct (String.eqb (pathname url) "/api/proxy");
    [left; apply (handleAPIProxy_preserves rt API_KEYS); reflexivity|].
  left. reflexivity.
Qed.

(** C6. For every domain with no MerchantRecord in the Credential Store,
    credential issuance returns a response, it does not throw, and
    persists no ClientCredential; for a well-formed domain that response
    is the structured 'not installed' result (403, "App not installed",
    with the install address).  Hence whichever route a request takes,
    a ClientCredential entry that the request changed was written by the
    issuance route for a domain whose MerchantRecord the store returned at
    that moment, and it holds that domain and that record's token. *)
Theorem issuance_requires_merchant_record (rt : Runtime) request env corsHeaders w :
  (forall shop,
      member (parseJsonBody rt request) "shop" = Some (JStr shop) ->
      kv_get (now w) (SHOPS w) shop = None ->
      (exists response,
          fst (handleExtensionAuth rt request env corsHeaders w) = Returned response
          /\ (isValidShopDomain rt (Some (JStr shop)) = true ->
              response
              = createJsonResponse
                  (JObj [ ("error", JStr ERROR_MESSAGES.APP_NOT_INSTALLED);
                          ("install_url",
                           JStr ("https://apps.shopify.com/" ++ SHOPIFY_APP_HANDLE env)) ])
                  403 corsHeaders))
      /\ API_KEYS (snd (handleExtensionAuth rt request env corsHeaders w)) = API_KEYS w)
  /\ (forall url key,
         API_KEYS (snd (routeRequest rt request url env corsHeaders w)) !! key
         <> API_KEYS w !! key ->
         pathname url = "/api/auth"
         /\ exists shop record apiKey createdAt,
              member (parseJsonBody rt request) "shop" = Some shop
              /\ isValidShopDomain rt (Some shop) = true
              /\ kv_get (now w) (SHOPS w) (template rt (Some shop)) = Some record
              /\ key = "key:" ++ apiKey
              /\ API_KEYS (snd (routeRequest rt request url env corsHeaders w)) !! key
                 = Some {| kv_value :=
                             JObj ([("shop", shop)]
                                   ++ field "accessToken" (member record "accessToken")
                                   ++ [("createdAt", JStr createdAt)]);
                           kv_expiration := Some (now w + 86400 * API_KEY_TTL_DAYS) |}).
Proof.
  split.
  - intros shop Hshop Hget.
    rewrite (handleExtensionAuth_not_installed rt request env corsHeaders w shop Hshop Hget).
    cbn [fst snd]. split.
    + eexists. split; [reflexivity|]. intros ->. reflexivity.
    + destruct (isValidShopDomain _ _); reflexivity.
  - intros url key Hchanged.
    destruct (routeRequest_API_KEYS rt request url env corsHeaders w) as [Hsame|[Hpath Hroute]].
    { rewrite Hsame in Hchanged. contradiction. }
    split; [exact Hpath|].
    rewrite Hroute in *.
    destruct (handleExtensionAuth_API_KEYS rt request env corsHeaders w)
      as [Hsame|(shop & record & apiKey & createdAt & Hshop & Hvalid & Hget & _ & Hput)].
    { rewrite Hsame in Hchanged. contradiction. }
    exists shop, record, apiKey, createdAt.
    rewrite Hput in *. unfold kv_put in *.
    destruct (decide (key = "key:" ++ apiKey)) as [->|Hne].
    + rewrite lookup_insert_eq. auto.
    + rewrite lookup_insert_ne in Hchanged by congruence. contradiction.
Qed.

Lemma issuance_requires_merchant_record_witness :
  fst (handleExtensionAuth Fixture.runtime (Fixture.issue_request "shop-a.myshopify.com")
         Fixture.env getCorsHeaders Fixture.empty_world)
  = Returned
      (createJsonResponse
         (JObj [ ("error", JStr "App not installed");
                 ("install_url", JStr "https://apps.shopify.com/gateway") ])
         403 getCorsHeaders)
  /\ API_KEYS
       (snd (handleExtensionAuth Fixture.runtime
               (Fixture.issue_request "shop-a.myshopify.com")
               Fixture.env getCorsHeaders Fixture.empty_world)) = ∅.
Proof.
  destruct (issuance_requires_merchant_record Fixture.runtime
              (Fixture.issue_request "shop-a.myshopify.com") Fixture.env getCorsHeaders
              Fixture.empty_world) as [Hnone _].
  destruct (Hnone "shop-a.myshopify.com") as [(response & Hret & Hvalid) Hkeys].
  - vm_compute. reflexivity.
  - vm_compute. reflexivity.
  - split; [|exact Hkeys].
    rewrite Hret. f_equal. apply Hvalid. vm_compute. reflexivity.
Defined.

(** ** Shop redaction *)

Section Redaction.

Context (rt : Runtime).

(** A verified shop-redaction webhook whose body carries a truthy
    [shop_domain] deletes that key from [SHOPS] and answers 200. *)
Lemma handleWebhook_shop_redact request env w data shop_domain :
  verifyWebhookHmac (req_body request) (req_X_Shopify_Hmac_Sha256 request)
    (SHOPIFY_API_SECRET env) = true ->
  JSON_parse rt (req_body request) = Some data ->
  data <> JNull ->
  member data "shop_domain" = shop_domain ->
  truthy shop_domain = true ->
  handleWebhook rt request env "shop/redact" w
  = (Returned (TextResponse "" 200),
     record (EvDelete NsSHOPS (template rt shop_domain))
       (set_SHOPS (kv_delete (SHOPS w) (template rt shop_domain)) w)).
Proof.
  intros Hv Hparse Hnull Hmember Htruthy.
  unfold handleWebhook, handleShopRedact. rewrite Hv, Hparse. cbn [negb String.eqb].
  change (String.eqb "shop/redact" "shop/redact") with true. cbv iota.
  unfold get_member. destruct data; try contradiction;
    run_handler; rewrite Hmember, Htruthy; reflexivity.
Qed.

End Redaction.

(** C7. For every webhook with the shop-redaction topic whose signature
    verifies and whose parsed body carries a shop domain, the handler
    answers 200 and the MerchantRecord of that domain is gone from the
    Credential Store; a subsequent credential issuance for that domain, at
    any later time, returns the 'not installed' result. *)
Theorem shop_redaction_uninstalls (rt : Runtime) request env w data shop :
  verifyWebhookHmac (req_body request) (req_X_Shopify_Hmac_Sha256 request)
    (SHOPIFY_API_SECRET env) = true ->
  JSON_parse rt (req_body request) = Some data ->
  member data "shop_domain" = Some (JStr shop) ->
  isValidShopDomain rt (Some (JStr shop)) = true ->
  fst (handleWebhook rt request env "shop/redact" w) = Returned (TextResponse "" 200)
  /\ SHOPS (snd (handleWebhook rt request env "shop/redact" w)) = delete shop (SHOPS w)
  /\ SHOPS (snd (handleWebhook rt request env "shop/redact" w)) !! shop = None
  /\ forall request2 env2 corsHeaders t,
       member (parseJsonBody rt request2) "shop" = Some (JStr shop) ->
       fst (handleExtensionAuth rt request2 env2 corsHeaders
              (set_now t (snd (handleWebhook rt request env "shop/redact" w))))
       = Returned
           (createJsonResponse
              (JObj [ ("error", JStr ERROR_MESSAGES.APP_NOT_INSTALLED);
                      ("install_url",
                       JStr ("https://apps.shopify.com/" ++ SHOPIFY_APP_HANDLE env2)) ])
              403 corsHeaders).
Proof.
  intros Hv Hparse Hmember Hvalid.
  assert (truthy (Some (JStr shop)) = true) as Htruthy.
  { unfold isValidShopDomain in Hvalid.
    destruct (truthy (Some (JStr shop))); [reflexivity|discriminate]. }
  assert (data <> JNull) as Hnull by (intros ->; discriminate).
  rewrite (handleWebhook_shop_redact rt request env w data (Some (JStr shop))
             Hv Hparse Hnull Hmember Htruthy).
  cbn [fst snd template to_string]. unfold kv_delete.
  split; [reflexivity|]. split; [reflexivity|].
  split; [apply lookup_delete_eq|].
  intros request2 env2 corsHeaders t Hshop2.
  rewrite (handleExtensionAuth_not_installed rt request2 env2 corsHeaders _ shop Hshop2).
  - rewrite Hvalid. reflexivity.
  - apply kv_get_missing. simpl. apply lookup_delete_eq.
Qed.

Lemma shop_redaction_uninstalls_witness :
  SHOPS (snd (handleWebhook Fixture.runtime Fixture.redact_request Fixture.env
                "shop/redact" Fixture.world_installed)) !! "shop-a.myshopify.com" = None
  /\ fst (handleExtensionAuth Fixture.runtime
            (Fixture.issue_request "shop-a.myshopify.com") Fixture.env getCorsHeaders
            (set_now 2000
               (snd (handleWebhook Fixture.runtime Fixture.redact_request Fixture.env
                       "shop/redact" Fixture.world_installed))))
     = Returned
         (createJsonResponse
            (JObj [ ("error", JStr "App not installed");
                    ("install_url", JStr "https://apps.shopify.com/gateway") ])
            403 getCorsHeaders).
Proof.
  destruct (shop_redaction_uninstalls Fixture.runtime Fixture.redact_request Fixture.env
              Fixture.world_installed
              (JObj [("shop_domain", JStr "shop-a.myshopify.com")])
              "shop-a.myshopify.com") as (_ & _ & Hgone & Hissue).
  - vm_compute. reflexivity.
  - vm_compute. reflexivity.
  - reflexivity.
  - vm_compute. reflexivity.
  - split; [exact Hgone|].
    apply (Hissue (Fixture.issue_request "shop-a.myshopify.com") Fixture.env
             getCorsHeaders 2000).
    vm_compute. reflexivity.
Defined.

(** ** The proxy after a redaction *)

Section IgnoresSHOPS.







Context (rt : Runtime).






(** A request with a live key and an endpoint is forwarded: one read of
    [API_KEYS], one upstream call, built from the stored credential. *)
Lemma destructure_not_null o name key :
  o <> JNull -> destructure o name key = ret (member o key).
Proof. destruct o; [contradiction|reflexivity..]. Qed.


End IgnoresSHOPS.

Lemma Json_null_dec (v : json) : {v = JNull} + {v <> JNull}.
Proof. destruct v; (left; reflexivity) || (right; discriminate). Qed.

Lemma get_member_not_null o key : o <> JNull -> get_member o key = ret (member o key).
Proof. destruct o; [contradiction|reflexivity..]. Qed.

Lemma bind_ret_l {A B} (a : A) (k : A -> M B) : bind (ret a) k = k a.
Proof. reflexivity. Qed.




(** ** Domain validation *)

Section DomainValidation.

Context (rt : Runtime).

(** On a string the validation is the full match of the rule. *)
Lemma isValidShopDomain_matches s :
  isValidShopDomain rt (Some (JStr s)) = true <-> matches shop_domain_regex s.
Proof.
  rewrite <- regex_test_correct. unfold isValidShopDomain. cbn [truthy template to_string].
  destruct (String.eqb_spec s "") as [->|Hne]; simpl.
  - split; discriminate.
  - reflexivity.
Qed.

Lemma handleRootPath_invalid_shop url env w shop :
  params_get (searchParams url) "shop" = Some shop ->
  shop <> "" ->
  isValidShopDomain rt (Some (JStr shop)) = false ->
  handleRootPath rt url env w
  = (Threw (ValidationError ERROR_MESSAGES.INVALID_SHOP 400), w).
Proof.
  intros Hshop Hne Hinvalid. unfold handleRootPath. rewrite Hshop.
  destruct (String.eqb_spec shop ""); [contradiction|].
  rewrite Hinvalid. reflexivity.
Qed.

Lemma handleOAuth_invalid_shop request env w :
  isValidShopDomain rt (of_str (params_get (searchParams (req_url request)) "shop"))
  = false ->
  handleOAuth rt request env w
  = (Threw (ValidationError ERROR_MESSAGES.INVALID_SHOP 400), w).
Proof.
  intros Hinvalid. unfold handleOAuth. cbv zeta. rewrite Hinvalid. reflexivity.
Qed.

Lemma handleExtensionAuth_invalid_shop request env corsHeaders w :
  parseJsonBody rt request <> JNull ->
  isValidShopDomain rt (member (parseJsonBody rt request) "shop") = false ->
  handleExtensionAuth rt request env corsHeaders w
  = (Returned
       (createJsonResponse (JObj [("error", JStr ERROR_MESSAGES.INVALID_SHOP)])
          400 corsHeaders),
     w).
Proof.
  intros Hbody Hinvalid. unfold handleExtensionAuth.
  rewrite destructure_not_null by assumption. rewrite bind_ret_l.
  rewrite Hinvalid. reflexivity.
Qed.

(** In the callback the domain is not matched against the rule; a domain
    that is not well formed differs from whatever the state store holds. *)
Lemma handleOAuthCallback_invalid_shop request env w code shop state hmac :
  carries request code shop state hmac ->
  states_wellformed rt w ->
  isValidShopDomain rt (Some (JStr shop)) = false ->
  handleOAuthCallback rt request env w
  = (Threw (AuthenticationError ERROR_MESSAGES.INVALID_STATE 403),
     record (EvGet NsAUTH_STATES state) w).
Proof.
  intros Hreq Hwf Hinvalid.
  apply (handleOAuthCallback_invalid_state rt request env w code shop state hmac Hreq).
  unfold kv_get. destruct (AUTH_STATES w !! state) as [e|] eqn:He; [|discriminate].
  destruct (kv_live (now w) e); [|discriminate].
  intros [= Heq]. specialize (Hwf state e He). congruence.
Qed.

(** Every route keeps the state store well formed: only [handleOAuth]
    writes to it, after the domain matched the rule. *)
Lemma handleOAuth_states_wellformed request env w :
  states_wellformed rt w ->
  states_wellformed rt (snd (handleOAuth rt request env w)).
Proof.
  intros Hwf. unfold handleOAuth. cbv zeta.
  destruct (params_get (searchParams (req_url request)) "shop") as [shop|] eqn:Eshop;
    [|exact Hwf].
  cbn [of_str fmap option_fmap option_map default].
  destruct (isValidShopDomain rt (Some (JStr shop))) eqn:Evalid; [|exact Hwf].
  run_handler. unfold kv_put. intros state e. cbn [AUTH_STATES set_AUTH_STATES record].
  destruct (decide (state = randomUUID rt (length (log w)))) as [->|Hne].
  - rewrite lookup_insert_eq. intros [= <-]. exact Evalid.
  - rewrite lookup_insert_ne by congruence. apply Hwf.
Qed.

Lemma handleOAuthCallback_states_wellformed request env w :
  states_wellformed rt w ->
  states_wellformed rt (snd (handleOAuthCallback rt request env w)).
Proof.
  intros Hwf. unfold handleOAuthCallback. cbv zeta.
  destruct (_ || _); [exact Hwf|].
  unfold bind at 1. unfold AUTH_STATES_get at 1.
  destruct (negb _); [exact Hwf|].
  unfold bind at 1. unfold AUTH_STATES_delete at 1.
  fold (callback_after_state_check rt request env
          (default "" (fromEntries_get (searchParams (req_url request)) "shop"))
          (default "" (fromEntries_get (searchParams (req_url request)) "code"))).
  intros state e.
  rewrite (callback_after_state_check_preserves rt AUTH_STATES) by reflexivity.
  cbn [AUTH_STATES set_AUTH_STATES record]. unfold kv_delete.
  intros He. apply lookup_delete_Some in He. destruct He as [_ He].
  exact (Hwf state e He).
Qed.

Lemma handleExtensionAuth_AUTH_STATES request env corsHeaders :
  preserves AUTH_STATES (handleExtensionAuth rt request env corsHeaders).
Proof.
  unfold handleExtensionAuth.
  apply preserves_bind; [apply destructure_preserves; reflexivity|intros shop].
  destruct (negb _); [frame|].
  apply preserves_bind; [frame|intros shopData].
  destruct (negb _); [frame|].
  apply preserves_bind; [frame|intros ?].
  apply preserves_bind; [apply get_member_preserves; reflexivity|intros ?].
  frame.
Qed.

Lemma routeRequest_states_wellformed request url env corsHeaders w :
  states_wellformed rt w ->
  states_wellformed rt (snd (routeRequest rt request url env corsHeaders w)).
Proof.
  intros Hwf. unfold routeRequest.
  destruct (String.eqb (pathname url) "/").
  { unfold states_wellformed.
    rewrite (handleRootPath_preserves rt AUTH_STATES) by reflexivity. exact Hwf. }
  destruct (String.eqb (pathname url) "/auth");
    [apply handleOAuth_states_wellformed; exact Hwf|].
  destruct (String.eqb (pathname url) "/auth/callback");
    [apply handleOAuthCallback_states_wellformed; exact Hwf|].
  repeat (match goal with
          | |- context [if String.eqb ?a ?b then _ else _] =>
              destruct (String.eqb a b)
          end);
    unfold states_wellformed;
    rewrite ?(handleWebhook_preserves rt AUTH_STATES) by reflexivity;
    rewrite ?handleExtensionAuth_AUTH_STATES;
    rewrite ?(handleAPIProxy_preserves rt AUTH_STATES) by reflexivity;
    exact Hwf.
Qed.

End DomainValidation.

(** C3 (as amended).  The validation of a string is the full match of
    [^[a-zA-Z0-9][a-zA-Z0-9-]*\.myshopify\.com$].  An identifier that
    does not pass it is rejected before any
    store access by the root entry (for a non-empty identifier) and by
    auth initiation, with a ValidationError (invalid shop domain, 400),
    and by client-credential issuance, with a 400 'Invalid shop domain'
    JSON response; in each case the world is left as it was.  In the
    OAuth callback, with its four parameters present and a state store
    holding well-formed domains only (which every route maintains), such
    an identifier is rejected too: the callback throws, having written to
    no store and called nothing upstream. *)
Theorem invalid_domain_rejected (rt : Runtime) env w :
  (forall shop,
      isValidShopDomain rt (Some (JStr shop)) = true
      <-> matches shop_domain_regex shop)
  /\ (forall url shop,
      params_get (searchParams url) "shop" = Some shop ->
      shop <> "" ->
      isValidShopDomain rt (Some (JStr shop)) = false ->
      handleRootPath rt url env w
      = (Threw (ValidationError ERROR_MESSAGES.INVALID_SHOP 400), w))
  /\ (forall request,
         isValidShopDomain rt
           (of_str (params_get (searchParams (req_url request)) "shop")) = false ->
         handleOAuth rt request env w
         = (Threw (ValidationError ERROR_MESSAGES.INVALID_SHOP 400), w))
  /\ (forall request corsHeaders,
         parseJsonBody rt request <> JNull ->
         isValidShopDomain rt (member (parseJsonBody rt request) "shop") = false ->
         handleExtensionAuth rt request env corsHeaders w
         = (Returned
              (createJsonResponse (JObj [("error", JStr ERROR_MESSAGES.INVALID_SHOP)])
                 400 corsHeaders),
            w))
  /\ (forall request code shop state hmac,
         carries request code shop state hmac ->
         states_wellformed rt w ->
         isValidShopDomain rt (Some (JStr shop)) = false ->
         (exists e, fst (handleOAuthCallback rt request env w) = Threw e)
         /\ upstream_calls (snd (handleOAuthCallback rt request env w))
            = upstream_calls w
         /\ SHOPS (snd (handleOAuthCallback rt request env w)) = SHOPS w
         /\ AUTH_STATES (snd (handleOAuthCallback rt request env w)) = AUTH_STATES w
         /\ API_KEYS (snd (handleOAuthCallback rt request env w)) = API_KEYS w)
  /\ (forall request url corsHeaders,
         states_wellformed rt w ->
         states_wellformed rt (snd (routeRequest rt request url env corsHeaders w))).
Proof.
  split; [intros; apply isValidShopDomain_matches|].
  split; [intros; eapply handleRootPath_invalid_shop; eassumption|].
  split; [intros; apply handleOAuth_invalid_shop; assumption|].
  split; [intros; apply handleExtensionAuth_invalid_shop; assumption|].
  split.
  { intros request code shop state hmac Hreq Hwf Hinvalid.
    rewrite (handleOAuthCallback_invalid_shop rt request env w code shop state hmac)
      by assumption.
    simpl. rewrite upstream_calls_record. simpl. rewrite app_nil_r. eauto 6. }
  intros. apply routeRequest_states_wellformed. assumption.
Qed.

Lemma invalid_domain_rejected_witness :
  handleRootPath Fixture.runtime
    (req_url (Fixture.get_request "/" [("shop", "evil.example.com")]))
    Fixture.env Fixture.world_with_state
  = (Threw (ValidationError "Invalid shop domain" 400), Fixture.world_with_state)
  /\ handleOAuth Fixture.runtime
       (Fixture.get_request "/auth" [("shop", "evil.example.com")])
       Fixture.env Fixture.world_with_state
     = (Threw (ValidationError "Invalid shop domain" 400), Fixture.world_with_state)
  /\ handleExtensionAuth Fixture.runtime (Fixture.issue_request "evil.example.com")
       Fixture.env getCorsHeaders Fixture.world_with_state
     = (Returned
          (createJsonResponse (JObj [("error", JStr "Invalid shop domain")]) 400
             getCorsHeaders),
        Fixture.world_with_state)
  /\ AUTH_STATES
       (snd (handleOAuthCallback Fixture.runtime
               (Fixture.callback_request "evil.example.com")
               Fixture.env Fixture.world_with_state))
     = AUTH_STATES Fixture.world_with_state.
Proof.
  destruct (invalid_domain_rejected Fixture.runtime Fixture.env Fixture.world_with_state)
    as (_ & Hroot & Hinit & Hissue & Hcallback & _).
  split; [|split; [|split]].
  - apply (Hroot _ "evil.example.com"); [reflexivity|discriminate|].
    vm_compute. reflexivity.
  - apply Hinit. vm_compute. reflexivity.
  - apply Hissue; [vm_compute; discriminate|vm_compute; reflexivity].
  - apply (Hcallback _ "c0de" "evil.example.com" "st-1"
             (Fixture.provider_signature (Fixture.callback_params "evil.example.com")
                "s3cr3t")).
    + unfold carries. vm_compute. repeat split; discriminate.
    + intros state e. unfold Fixture.world_with_state. cbn [AUTH_STATES].
      destruct (decide (state = "st-1")) as [->|Hne].
      * rewrite lookup_singleton_eq. intros [= <-]. vm_compute. reflexivity.
      * rewrite lookup_singleton_ne by congruence. discriminate.
    + vm_compute. reflexivity.
Defined.

(** C3 as stated fails.  The callback given an ill-formed domain reads the
    state store and throws AuthenticationError, not ValidationError;
    issuance answers with a response, it does not throw; the root entry
    given an empty identifier shows the landing page.  Served by the
    worker, the ValidationError of auth initiation is the 400 error page,
    the rejection by the callback a 403 JSON error. *)
Lemma invalid_domain_not_always_ValidationError :
  isValidShopDomain Fixture.runtime (Some (JStr "evil.example.com")) = false
  /\ isValidShopDomain Fixture.runtime (Some (JStr "")) = false
  /\ fst (handleOAuthCallback Fixture.runtime
            (Fixture.callback_request "evil.example.com") Fixture.env
            Fixture.empty_world)
     = Threw (AuthenticationError "Invalid state parameter" 403)
  /\ store_accesses
       (snd (handleOAuthCallback Fixture.runtime
               (Fixture.callback_request "evil.example.com") Fixture.env
               Fixture.empty_world))
     = [EvGet NsAUTH_STATES "st-1"]
  /\ fst (handleExtensionAuth Fixture.runtime (Fixture.issue_request "evil.example.com")
            Fixture.env getCorsHeaders Fixture.empty_world)
     = Returned
         (createJsonResponse (JObj [("error", JStr "Invalid shop domain")]) 400
            getCorsHeaders)
  /\ fst (handleRootPath Fixture.runtime
            (req_url (Fixture.get_request "/" [("shop", "")]))
            Fixture.env Fixture.empty_world)
     = Returned LandingPage
  /\ fst (worker_fetch Fixture.runtime
            (Fixture.get_request "/auth" [("shop", "evil.example.com")])
            Fixture.env Fixture.empty_world)
     = Returned (HtmlErrorPage 400 "Invalid shop domain")
  /\ fst (worker_fetch Fixture.runtime (Fixture.callback_request "evil.example.com")
            Fixture.env Fixture.empty_world)
     = Returned
         (JsonResponse (JObj [("error", JStr "Invalid state parameter")]) 403
            [("Content-Type", "application/json")]).
Proof. vm_compute. repeat split; reflexivity. Qed.

(** ** The authorization signature *)

Section Sorting.

Context {A : Type} (compare : A -> A -> Z).

Let le (x y : A) : Prop := compare x y <= 0.

Hypothesis compare_total : forall x y, compare x y <= 0 \/ compare y x <= 0.
Hypothesis compare_trans :
  forall x y z, compare x y <= 0 -> compare y z <= 0 -> compare x z <= 0.

Lemma sort_insert_Permutation x l : Permutation (x :: l) (sort_insert compare x l).
Proof.
  induction l as [|y l IH]; simpl.
  - apply Permutation_refl.
  - destruct (compare x y <=? 0).
    + apply Permutation_refl.
    + eapply perm_trans; [apply perm_swap|]. apply perm_skip. exact IH.
Qed.

Lemma Array_sort_Permutation l : Permutation l (Array_sort compare l).
Proof.
  induction l as [|x l IH]; simpl.
  - apply perm_nil.
  - eapply perm_trans; [apply perm_skip; exact IH|]. apply sort_insert_Permutation.
Qed.

Lemma sort_insert_StronglySorted x l :
  StronglySorted le l -> StronglySorted le (sort_insert compare x l).
Proof.
  induction 1 as [|y l Hsorted IH Hall]; simpl.
  - constructor; constructor.
  - destruct (Z.leb_spec (compare x y) 0) as [Hxy|Hxy].
    + constructor; [constructor; assumption|].
      constructor; [exact Hxy|].
      eapply List.Forall_impl; [|exact Hall].
      intros z Hyz. unfold le in *. eapply compare_trans; eassumption.
    + constructor; [exact IH|].
      eapply Permutation_Forall; [apply sort_insert_Permutation|].
      constructor; [|exact Hall].
      unfold le. destruct (compare_total x y); lia.
Qed.

Lemma Array_sort_StronglySorted l : StronglySorted le (Array_sort compare l).
Proof.
  induction l as [|x l IH]; simpl.
  - constructor.
  - apply sort_insert_StronglySorted. exact IH.
Qed.

End Sorting.

Section Digest.

Lemma be_bytes_length n x : length (Sha256.be_bytes n x) = n.
Proof.
  revert x. induction n as [|n IH]; intros x; simpl.
  - reflexivity.
  - rewrite length_app, IH. simpl. lia.
Qed.

Lemma be_bytes_range n x : Forall (fun b => 0 <= b < 256) (Sha256.be_bytes n x).
Proof.
  revert x. induction n as [|n IH]; intros x; simpl.
  - constructor.
  - apply Forall_app. split; [apply IH|].
    constructor; [|constructor]. apply Z.mod_pos_bound. lia.
Qed.

Lemma compress_length h block :
  length h = 8%nat -> length (Sha256.compress h block) = 8%nat.
Proof.
  intros Hh. unfold Sha256.compress.
  rewrite length_map, length_combine, Hh. reflexivity.
Qed.

Lemma fold_compress_length blocks :
  forall h, length h = 8%nat -> length (fold_left Sha256.compress blocks h) = 8%nat.
Proof.
  induction blocks as [|b blocks IH]; intros h Hh; simpl.
  - exact Hh.
  - apply IH. apply compress_length. exact Hh.
Qed.

Lemma flat_map_be_bytes_length n l :
  length (flat_map (Sha256.be_bytes n) l) = (n * length l)%nat.
Proof.
  induction l as [|x l IH]; simpl.
  - lia.
  - rewrite length_app, be_bytes_length, IH. lia.
Qed.

Lemma sha256_length msg : length (Sha256.sha256 msg) = 32%nat.
Proof.
  unfold Sha256.sha256. rewrite flat_map_be_bytes_length.
  rewrite fold_compress_length; reflexivity.
Qed.

Lemma sha256_range msg : Forall (fun b => 0 <= b < 256) (Sha256.sha256 msg).
Proof.
  unfold Sha256.sha256.
  induction (fold_left Sha256.compress _ Sha256.H0) as [|x l IH].
  - constructor.
  - cbn [flat_map]. apply Forall_app. split; [apply be_bytes_range|exact IH].
Qed.

Lemma hmac_length key msg : length (Sha256.hmac key msg) = 32%nat.
Proof. apply sha256_length. Qed.

Lemma hmac_range key msg : Forall (fun b => 0 <= b < 256) (Sha256.hmac key msg).
Proof. apply sha256_range. Qed.

Lemma hex_of_bytes_cons b l :
  hex_of_bytes (b :: l) = hex_of_byte b ++ hex_of_bytes l.
Proof. destruct l; reflexivity. Qed.

Lemma hex_of_bytes_length l : String.length (hex_of_bytes l) = (2 * length l)%nat.
Proof.
  induction l as [|b l IH].
  - reflexivity.
  - rewrite hex_of_bytes_cons. unfold hex_of_byte.
    rewrite !append_String, append_Empty. cbn [String.length]. rewrite IH.
    simpl. lia.
Qed.

Lemma hex_digit_lower d : 0 <= d < 16 -> is_lower_hex_digit (hex_digit d) = true.
Proof.
  intros Hd.
  assert (d = 0 \/ d = 1 \/ d = 2 \/ d = 3 \/ d = 4 \/ d = 5 \/ d = 6 \/ d = 7
          \/ d = 8 \/ d = 9 \/ d = 10 \/ d = 11 \/ d = 12 \/ d = 13 \/ d = 14
          \/ d = 15) as Hcases by lia.
  repeat (destruct Hcases as [->|Hcases]; [reflexivity|]). subst. reflexivity.
Qed.

Lemma hex_of_bytes_lower l :
  Forall (fun b => 0 <= b < 256) l -> is_lower_hex (hex_of_bytes l) = true.
Proof.
  induction 1 as [|b l Hb _ IH].
  - reflexivity.
  - rewrite hex_of_bytes_cons. unfold hex_of_byte.
    rewrite !append_String, append_Empty. cbn [is_lower_hex].
    rewrite !hex_digit_lower, IH; try reflexivity.
    + apply Z.mod_pos_bound. lia.
    + split; [apply Z.div_pos; lia|]. apply Z.div_lt_upper_bound; lia.
Qed.

End Digest.

Section AuthorizationSignature.

Context (rt : Runtime).

Lemma params_delete_In params name p :
  In p (params_delete params name) <-> In p params /\ fst p <> name.
Proof.
  unfold params_delete. rewrite List.filter_In.
  destruct (String.eqb_spec (fst p) name); simpl; intuition congruence.
Qed.

(** For a non-empty secret the verifier accepts exactly the lowercase hex
    HMAC of the sorted, joined parameters. *)
Lemma verifyShopifyHmac_true_iff params secret :
  secret <> "" ->
  verifyShopifyHmac rt params secret = true
  <-> params_get params "hmac"
      = Some (hex_of_bytes
                (Sha256.hmac (TextEncoder_encode secret)
                   (TextEncoder_encode
                      (join "&"
                         (map (fun p => fst p ++ "=" ++ snd p)
                            (Array_sort (fun a b => localeCompare rt (fst a) (fst b))
                               (params_delete (params_delete params "hmac")
                                  "signature"))))))).
Proof.
  intros Hsecret. unfold verifyShopifyHmac.
  destruct (params_get params "hmac") as [supplied|]; [|split; discriminate].
  unfold subtle_sign_hmac_sha256.
  pose proof (TextEncoder_encode_nonempty secret Hsecret) as Hkey.
  destruct (TextEncoder_encode secret) as [|k0 key] eqn:Ek; [congruence|].
  destruct (String.eqb_spec supplied "") as [->|Hne].
  - split; [discriminate|]. intros [= Heq].
    apply (f_equal String.length) in Heq.
    rewrite hex_of_bytes_length, hmac_length in Heq. discriminate.
  - rewrite timingSafeEqual_strings. split; congruence.
Qed.

(** The worker serves no route with an empty secret. *)
Lemma worker_fetch_empty_secret request env w :
  SHOPIFY_API_SECRET env = "" ->
  exists message,
    worker_fetch rt request env w = (Returned (HtmlErrorPage 500 message), w).
Proof.
  intros Hsecret. unfold worker_fetch, validateEnvironment. rewrite Hsecret.
  destruct (String.eqb (SHOPIFY_API_KEY env) ""); simpl; eexists;
    unfold try_catch, bind, throw, ret, handleError; simpl; reflexivity.
Qed.

End AuthorizationSignature.

(** The collation of the fixture is a total preorder. *)
Lemma lex_compare_total k1 :
  forall k2, Fixture.lex_compare k1 k2 <= 0 \/ Fixture.lex_compare k2 k1 <= 0.
Proof.
  induction k1 as [|x k1 IH]; intros [|y k2]; simpl; try lia.
  destruct (Z.ltb_spec x y), (Z.ltb_spec y x); try lia. apply IH.
Qed.

Lemma lex_compare_trans k1 :
  forall k2 k3,
    Fixture.lex_compare k1 k2 <= 0 -> Fixture.lex_compare k2 k3 <= 0 ->
    Fixture.lex_compare k1 k3 <= 0.
Proof.
  induction k1 as [|x k1 IH]; intros [|y k2] [|z k3]; simpl; try lia.
  destruct (Z.ltb_spec x y), (Z.ltb_spec y x), (Z.ltb_spec y z), (Z.ltb_spec z y),
    (Z.ltb_spec x z), (Z.ltb_spec z x); try lia.
  apply IH.
Qed.

Lemma Fixture_collation_total : collation_total Fixture.runtime.
Proof. intros a b. apply lex_compare_total. Qed.

Lemma Fixture_collation_transitive : collation_transitive Fixture.runtime.
Proof. intros a b c. apply lex_compare_trans. Qed.

(** C2 (as amended).  For every query-parameter set and non-empty secret,
    the authorization-signature verifier removes the signature parameters
    (every entry named hmac or signature), sorts the remaining parameters
    by key in the order of [localeCompare] (a total preorder, the
    collation of the runtime, not the byte order), joins them as key=value
    pairs with '&', computes HMAC-SHA256 over the UTF-8 encoding of that
    string, renders the 32-byte digest as 64 lowercase hex digits, and
    accepts exactly when that rendering equals the supplied signature (the
    first hmac entry) under the constant-time comparison. *)
Theorem verifyShopifyHmac_correct (rt : Runtime) params secret :
  collation_total rt ->
  collation_transitive rt ->
  secret <> "" ->
  (forall p,
      In p (params_delete (params_delete params "hmac") "signature")
      <-> In p params /\ fst p <> "hmac" /\ fst p <> "signature")
  /\ Permutation (params_delete (params_delete params "hmac") "signature")
       (Array_sort (fun a b => localeCompare rt (fst a) (fst b))
          (params_delete (params_delete params "hmac") "signature"))
  /\ StronglySorted (key_le rt)
       (Array_sort (fun a b => localeCompare rt (fst a) (fst b))
          (params_delete (params_delete params "hmac") "signature"))
  /\ (verifyShopifyHmac rt params secret = true
      <-> exists supplied,
            params_get params "hmac" = Some supplied
            /\ timingSafeEqual (code_units supplied)
                 (code_units
                    (hex_of_bytes
                       (Sha256.hmac (TextEncoder_encode secret)
                          (TextEncoder_encode
                             (join "&"
                                (map (fun p => fst p ++ "=" ++ snd p)
                                   (Array_sort
                                      (fun a b => localeCompare rt (fst a) (fst b))
                                      (params_delete (params_delete params "hmac")
                                         "signature"))))))))
               = true)
  /\ (forall key message,
         String.length (hex_of_bytes (Sha256.hmac key message)) = 64%nat
         /\ is_lower_hex (hex_of_bytes (Sha256.hmac key message)) = true).
Proof.
  intros Htotal Htrans Hsecret.
  split.
  { intros p. rewrite !params_delete_In. tauto. }
  split; [apply Array_sort_Permutation|].
  split.
  { apply Array_sort_StronglySorted.
    - intros x y. apply Htotal.
    - intros x y z. apply Htrans. }
  split.
  { rewrite verifyShopifyHmac_true_iff by assumption. split.
    - intros Hget. eexists. split; [exact Hget|]. apply timingSafeEqual_strings.
      reflexivity.
    - intros (supplied & Hget & Heq). apply timingSafeEqual_strings in Heq.
      congruence. }
  intros key message. split.
  - rewrite hex_of_bytes_length, hmac_length. reflexivity.
  - apply hex_of_bytes_lower, hmac_range.
Qed.

Lemma verifyShopifyHmac_correct_witness :
  verifyShopifyHmac Fixture.runtime
    (Fixture.signed (Fixture.callback_params "shop-a.myshopify.com")) "s3cr3t" = true.
Proof.
  destruct (verifyShopifyHmac_correct Fixture.runtime
              (Fixture.signed (Fixture.callback_params "shop-a.myshopify.com")) "s3cr3t"
              Fixture_collation_total Fixture_collation_transitive)
    as (_ & _ & _ & Hiff & _).
  - discriminate.
  - apply Hiff.
    exists (Fixture.provider_signature
              (Fixture.callback_params "shop-a.myshopify.com") "s3cr3t").
    split; vm_compute; reflexivity.
Defined.

(** C2 as stated fails: with the parameters a=1 and B=2 the byte order
    puts B first and the collation puts a first; the signature over the
    byte-ordered string, which the verifier of the specification accepts,
    is refused by [verifyShopifyHmac]. *)
Lemma verifyShopifyHmac_not_bytewise :
  Array_sort (fun a b => bytewise_compare (fst a) (fst b)) [("a", "1"); ("B", "2")]
  = [("B", "2"); ("a", "1")]
  /\ Array_sort (fun a b => localeCompare Fixture.runtime (fst a) (fst b))
       [("a", "1"); ("B", "2")]
     = [("a", "1"); ("B", "2")]
  /\ verifyAuthorizationSignature_bytewise
       (Fixture.signed [("a", "1"); ("B", "2")]) "s3cr3t" = true
  /\ verifyShopifyHmac Fixture.runtime
       (Fixture.signed [("a", "1"); ("B", "2")]) "s3cr3t" = false.
Proof. vm_compute. repeat split; reflexivity. Qed.

(** * Further properties *)

(** ** The steps of the callback after the state check *)

Section CallbackSteps.

Context (rt : Runtime).

Lemma exchangeCodeForToken_run shop code env w :
  exchangeCodeForToken rt shop code env w
  = (match fetch rt (length (log w)) (token_exchange_request shop code env) with
     | Returned response =>
         if resp_ok response then resp_json response
         else Threw (AuthenticationError ERROR_MESSAGES.FAILED_TOKEN_EXCHANGE 401)
     | Threw e => Threw e
     end,
     record (EvFetch (token_exchange_request shop code env)) w).
Proof.
  unfold exchangeCodeForToken. run_handler.
  fold (token_exchange_request shop code env).
  destruct (fetch rt _ _) as [response|e]; [|reflexivity].
  destruct (resp_ok response); reflexivity.
Qed.

Lemma storeShopData_null shop env w :
  exists e, storeShopData rt shop JNull env w = (Threw e, w).
Proof. eexists. reflexivity. Qed.

Lemma storeShopData_run shop tokenData env w :
  tokenData <> JNull ->
  storeShopData rt shop tokenData env w
  = (Returned tt,
     record (EvPut NsSHOPS shop)
       (set_SHOPS
          (kv_put (now w) (SHOPS w) shop
             (merchant_record_of tokenData (toISOString rt (now w))) None) w)).
Proof.
  intros Hnull. unfold storeShopData, merchant_record_of.
  destruct tokenData; try congruence; reflexivity.
Qed.

Lemma registerMandatoryWebhooks_run shop accessToken env w :
  registerMandatoryWebhooks rt shop accessToken env w
  = (Returned tt,
     record (EvFetch (webhook_registration shop accessToken env "customers/data_request"))
       (record (EvFetch (webhook_registration shop accessToken env "shop/redact"))
          (record (EvFetch (webhook_registration shop accessToken env "customers/redact"))
             w))).
Proof.
  unfold registerMandatoryWebhooks, mandatory_webhooks, registerMandatoryWebhooks_loop.
  run_handler.
  change (app_url env ++ "/webhooks/customers/redact")
    with (app_url env ++ "/webhooks/" ++ "customers/redact").
  change (app_url env ++ "/webhooks/shop/redact")
    with (app_url env ++ "/webhooks/" ++ "shop/redact").
  change (app_url env ++ "/webhooks/customers/data_request")
    with (app_url env ++ "/webhooks/" ++ "customers/data_request").
  fold (webhook_registration shop accessToken env "customers/redact").
  fold (webhook_registration shop accessToken env "shop/redact").
  fold (webhook_registration shop accessToken env "customers/data_request").
  destruct (fetch rt _ _); destruct (fetch rt _ _); destruct (fetch rt _ _); reflexivity.
Qed.

Lemma get_member_run (o : json) key w :
  o <> JNull -> get_member o key w = (Returned (member o key), w).
Proof. intros Ho. destruct o; try congruence; reflexivity. Qed.

(** Every way the steps after the state check can end. *)
Lemma callback_after_state_check_cases request env shop code w :
  let exchange := fetch rt (length (log w)) (token_exchange_request shop code env) in
  let w1 := record (EvFetch (token_exchange_request shop code env)) w in
  callback_after_state_check rt request env shop code w
  = if verifyShopifyHmac rt (searchParams (req_url request)) (SHOPIFY_API_SECRET env)
    then
      match exchange with
      | Threw e => (Threw e, w1)
      | Returned response =>
          if resp_ok response then
            match resp_json response with
            | Threw e => (Threw e, w1)
            | Returned tokenData =>
                match tokenData with
                | JNull =>
                    (Threw (PlatformError "TypeError"
                              "Cannot read properties of null (reading 'access_token')"),
                     w1)
                | _ =>
                    (Returned (RedirectResponse
                                 ("https://" ++ shop ++ "/admin/apps/"
                                  ++ SHOPIFY_APP_HANDLE env) 302),
                     installed_world rt shop code tokenData env w)
                end
            end
          else (Threw (AuthenticationError ERROR_MESSAGES.FAILED_TOKEN_EXCHANGE 401), w1)
      end
    else (Threw (AuthenticationError ERROR_MESSAGES.INVALID_HMAC 403), w).
Proof.
  intros exchange w1. unfold callback_after_state_check.
  destruct (verifyShopifyHmac _ _ _); [|reflexivity]. cbn [negb].
  unfold bind at 1. rewrite exchangeCodeForToken_run. fold exchange. fold w1.
  destruct exchange as [response|e]; [|reflexivity].
  destruct (resp_ok response); [|reflexivity].
  destruct (resp_json response) as [tokenData|e]; [|reflexivity].
  assert (tokenData = JNull \/ tokenData <> JNull) as [->|Hnull]
    by (destruct tokenData; auto; right; discriminate).
  { reflexivity. }
  unfold bind at 1. rewrite (storeShopData_run shop tokenData env w1 Hnull).
  unfold bind at 1. rewrite (get_member_run tokenData "access_token" _ Hnull).
  unfold bind at 1. rewrite registerMandatoryWebhooks_run.
  unfold ret, installed_world. fold w1.
  destruct tokenData; try congruence; reflexivity.
Qed.

End CallbackSteps.

Lemma upstream_calls_state_consumed state w :
  upstream_calls (state_consumed state w) = upstream_calls w.
Proof.
  unfold state_consumed. rewrite upstream_calls_record. simpl. rewrite app_nil_r.
  change (upstream_calls (set_AUTH_STATES ?m ?w')) with (upstream_calls w').
  rewrite upstream_calls_record. simpl. apply app_nil_r.
Qed.

Lemma upstream_calls_installed_world rt shop code tokenData env w :
  upstream_calls (installed_world rt shop code tokenData env w)
  = (upstream_calls w
     ++ [ EvFetch (token_exchange_request shop code env);
          EvFetch (webhook_registration shop (member tokenData "access_token") env
                     "customers/redact");
          EvFetch (webhook_registration shop (member tokenData "access_token") env
                     "shop/redact");
          EvFetch (webhook_registration shop (member tokenData "access_token") env
                     "customers/data_request") ])%list.
Proof.
  unfold installed_world. cbv zeta.
  rewrite !upstream_calls_record. cbn [is_upstream_call].
  change (upstream_calls (set_SHOPS ?m ?w')) with (upstream_calls w').
  rewrite upstream_calls_record. cbn [is_upstream_call].
  rewrite <- !app_assoc. reflexivity.
Qed.

(** X1. In the OAuth callback carrying its four parameters and a state
    token that matches, a request whose signature does not verify throws
    AuthenticationError (invalid HMAC signature, 403): the state entry is
    already consumed, and neither an upstream call nor a write to the
    merchant or credential store happens. *)
Theorem callback_bad_signature_fails_closed (rt : Runtime) request env w
    code shop state hmac :
  carries request code shop state hmac ->
  kv_get (now w) (AUTH_STATES w) state = Some shop ->
  verifyShopifyHmac rt (searchParams (req_url request)) (SHOPIFY_API_SECRET env)
  = false ->
  handleOAuthCallback rt request env w
  = (Threw (AuthenticationError ERROR_MESSAGES.INVALID_HMAC 403),
     state_consumed state w)
  /\ upstream_calls (snd (handleOAuthCallback rt request env w)) = upstream_calls w
  /\ SHOPS (snd (handleOAuthCallback rt request env w)) = SHOPS w
  /\ API_KEYS (snd (handleOAuthCallback rt request env w)) = API_KEYS w
  /\ AUTH_STATES (snd (handleOAuthCallback rt request env w)) !! state = None.
Proof.
  intros Hreq Hstate Hsig.
  rewrite (handleOAuthCallback_valid_state rt request env w code shop state hmac
             Hreq Hstate).
  fold (state_consumed state w).
  pose proof (callback_after_state_check_cases rt request env shop code
                (state_consumed state w)) as Hrun.
  cbv zeta in Hrun. rewrite Hsig in Hrun. rewrite Hrun. cbn [snd].
  rewrite upstream_calls_state_consumed.
  repeat split. apply lookup_delete_eq.
Qed.

Lemma callback_bad_signature_fails_closed_witness :
  handleOAuthCallback Fixture.runtime
    (Fixture.get_request "/auth/callback"
       (Fixture.callback_params "shop-a.myshopify.com" ++ [("hmac", "00")])%list)
    Fixture.env Fixture.world_with_state
  = (Threw (AuthenticationError "Invalid HMAC signature" 403),
     state_consumed "st-1" Fixture.world_with_state).
Proof.
  apply (callback_bad_signature_fails_closed Fixture.runtime
           (Fixture.get_request "/auth/callback"
              (Fixture.callback_params "shop-a.myshopify.com" ++ [("hmac", "00")])%list)
           Fixture.env Fixture.world_with_state
           "c0de" "shop-a.myshopify.com" "st-1" "00").
  - unfold carries. vm_compute. repeat split; discriminate.
  - vm_compute. reflexivity.
  - vm_compute. reflexivity.
Defined.

(** X2. In the OAuth callback that passed the state and signature checks,
    when the token exchange is refused (a status outside 200..299) the
    callback throws AuthenticationError (failed to exchange code for
    token, 401), and when the upstream cannot be reached it throws what
    [fetch] threw; either way exactly one upstream call was made, the token
    exchange with the client id, the client secret and the code, and
    nothing was written to the merchant or credential store. *)
Theorem callback_exchange_failure_persists_nothing (rt : Runtime) request env w
    code shop state hmac :
  carries request code shop state hmac ->
  kv_get (now w) (AUTH_STATES w) state = Some shop ->
  verifyShopifyHmac rt (searchParams (req_url request)) (SHOPIFY_API_SECRET env)
  = true ->
  (forall response,
      fetch rt (length (log (state_consumed state w)))
        (token_exchange_request shop code env) = Returned response ->
      resp_ok response = false) ->
  (exists e,
      fst (handleOAuthCallback rt request env w) = Threw e
      /\ (forall response,
             fetch rt (length (log (state_consumed state w)))
               (token_exchange_request shop code env) = Returned response ->
             e = AuthenticationError ERROR_MESSAGES.FAILED_TOKEN_EXCHANGE 401)
      /\ (forall e',
             fetch rt (length (log (state_consumed state w)))
               (token_exchange_request shop code env) = Threw e' ->
             e = e'))
  /\ upstream_calls (snd (handleOAuthCallback rt request env w))
     = (upstream_calls w ++ [EvFetch (token_exchange_request shop code env)])%list
  /\ SHOPS (snd (handleOAuthCallback rt request env w)) = SHOPS w
  /\ API_KEYS (snd (handleOAuthCallback rt request env w)) = API_KEYS w.
Proof.
  intros Hreq Hstate Hsig Hrefused.
  rewrite (handleOAuthCallback_valid_state rt request env w code shop state hmac
             Hreq Hstate).
  fold (state_consumed state w).
  pose proof (callback_after_state_check_cases rt request env shop code
                (state_consumed state w)) as Hrun.
  cbv zeta in Hrun. rewrite Hsig in Hrun. rewrite Hrun. clear Hrun.
  destruct (fetch rt _ _) as [response|e] eqn:Efetch.
  - rewrite (Hrefused response eq_refl). cbn [fst snd].
    rewrite upstream_calls_record, upstream_calls_state_consumed.
    split; [|auto].
    eexists. split; [reflexivity|]. split; [reflexivity|discriminate].
  - cbn [fst snd]. rewrite upstream_calls_record, upstream_calls_state_consumed.
    split; [|auto].
    eexists. split; [reflexivity|]. split; [discriminate|congruence].
Qed.

Lemma callback_exchange_failure_persists_nothing_witness :
  (exists e,
      fst (handleOAuthCallback (Outage.with_fetch Outage.refuse)
             (Fixture.callback_request "shop-a.myshopify.com") Fixture.env
             Fixture.world_with_state) = Threw e
      /\ (forall response,
             Outage.refuse 2
               (token_exchange_request "shop-a.myshopify.com" "c0de" Fixture.env)
             = Returned response ->
             e = AuthenticationError "Failed to exchange code for token" 401)
      /\ (forall e',
             Outage.refuse 2
               (token_exchange_request "shop-a.myshopify.com" "c0de" Fixture.env)
             = Threw e' -> e = e'))
  /\ upstream_calls
       (snd (handleOAuthCallback (Outage.with_fetch Outage.refuse)
               (Fixture.callback_request "shop-a.myshopify.com") Fixture.env
               Fixture.world_with_state))
     = [EvFetch (token_exchange_request "shop-a.myshopify.com" "c0de" Fixture.env)]
  /\ SHOPS
       (snd (handleOAuthCallback (Outage.with_fetch Outage.refuse)
               (Fixture.callback_request "shop-a.myshopify.com") Fixture.env
               Fixture.world_with_state)) = ∅
  /\ API_KEYS
       (snd (handleOAuthCallback (Outage.with_fetch Outage.refuse)
               (Fixture.callback_request "shop-a.myshopify.com") Fixture.env
               Fixture.world_with_state)) = ∅.
Proof.
  apply (callback_exchange_failure_persists_nothing (Outage.with_fetch Outage.refuse)
           (Fixture.callback_request "shop-a.myshopify.com") Fixture.env
           Fixture.world_with_state
           "c0de" "shop-a.myshopify.com" "st-1"
           (Fixture.provider_signature (Fixture.callback_params "shop-a.myshopify.com")
              "s3cr3t")).
  - unfold carries. vm_compute. repeat split; discriminate.
  - vm_compute. reflexivity.
  - vm_compute. reflexivity.
  - intros response Hresponse. injection Hresponse as <-. reflexivity.
Defined.

Lemma handleOAuthCallback_cases (rt : Runtime) request env w :
  handleOAuthCallback rt request env w
  = (Threw (ValidationError ERROR_MESSAGES.MISSING_OAUTH_PARAMS 400), w)
  \/ exists code shop state hmac,
       carries request code shop state hmac
       /\ ((kv_get (now w) (AUTH_STATES w) state <> Some shop
            /\ handleOAuthCallback rt request env w
               = (Threw (AuthenticationError ERROR_MESSAGES.INVALID_STATE 403),
                  record (EvGet NsAUTH_STATES state) w))
           \/ (kv_get (now w) (AUTH_STATES w) state = Some shop
               /\ handleOAuthCallback rt request env w
                  = callback_after_state_check rt request env shop code
                      (state_consumed state w))).
Proof.
  destruct (handleOAuthCallback_carries_or_missing rt request env w)
    as [(code & shop & state & hmac & Hreq) | Hmissing]; [|left; exact Hmissing].
  right. exists code, shop, state, hmac. split; [exact Hreq|].
  destruct (decide (kv_get (now w) (AUTH_STATES w) state = Some shop)) as [Hstate|Hstate].
  - right. split; [exact Hstate|].
    apply (handleOAuthCallback_valid_state rt request env w code shop state hmac);
      assumption.
  - left. split; [exact Hstate|].
    apply (handleOAuthCallback_invalid_state rt request env w code shop state hmac);
      assumption.
Qed.

(** Every way the callback can end: what it returned or threw, and the
    world it left. *)
Lemma handleOAuthCallback_outcome (rt : Runtime) request env w o w' :
  handleOAuthCallback rt request env w = (o, w') ->
  match o with
  | Threw _ =>
      SHOPS w' = SHOPS w /\ API_KEYS w' = API_KEYS w
      /\ (upstream_calls w' = upstream_calls w
          \/ exists rq, upstream_calls w' = (upstream_calls w ++ [EvFetch rq])%list)
  | Returned response =>
      exists code shop state hmac answer tokenData,
        carries request code shop state hmac
        /\ kv_get (now w) (AUTH_STATES w) state = Some shop
        /\ verifyShopifyHmac rt (searchParams (req_url request))
             (SHOPIFY_API_SECRET env) = true
        /\ fetch rt (length (log (state_consumed state w)))
             (token_exchange_request shop code env) = Returned answer
        /\ resp_ok answer = true
        /\ resp_json answer = Returned tokenData
        /\ tokenData <> JNull
        /\ w' = installed_world rt shop code tokenData env (state_consumed state w)
        /\ SHOPS w'
           = kv_put (now w) (SHOPS w) shop
               (merchant_record_of tokenData (toISOString rt (now w))) None
        /\ response
           = RedirectResponse
               ("https://" ++ shop ++ "/admin/apps/" ++ SHOPIFY_APP_HANDLE env) 302
  end.
Proof.
  intros Hrun.
  destruct (handleOAuthCallback_cases rt request env w)
    as [Hmissing | (code & shop & state & hmac & Hreq & [[Hstate Hbad] | [Hstate Hgood]])].
  - rewrite Hmissing in Hrun. injection Hrun as <- <-. auto.
  - rewrite Hbad in Hrun. injection Hrun as <- <-.
    rewrite upstream_calls_record. simpl. rewrite app_nil_r. auto.
  - rewrite Hgood in Hrun.
    pose proof (callback_after_state_check_cases rt request env shop code
                  (state_consumed state w)) as Hcases.
    cbv zeta in Hcases. rewrite Hcases in Hrun. clear Hcases Hgood.
    destruct (verifyShopifyHmac _ _ _) eqn:Hsig.
    2: { injection Hrun as <- <-. rewrite upstream_calls_state_consumed. auto. }
    destruct (fetch rt _ _) as [answer|e] eqn:Efetch.
    2: { injection Hrun as <- <-.
         rewrite upstream_calls_record, upstream_calls_state_consumed. simpl.
         split; [reflexivity|]. split; [reflexivity|]. right. eauto. }
    destruct (resp_ok answer) eqn:Eok.
    2: { injection Hrun as <- <-.
         rewrite upstream_calls_record, upstream_calls_state_consumed. simpl.
         split; [reflexivity|]. split; [reflexivity|]. right. eauto. }
    destruct (resp_json answer) as [tokenData|e] eqn:Ejson.
    2: { injection Hrun as <- <-.
         rewrite upstream_calls_record, upstream_calls_state_consumed. simpl.
         split; [reflexivity|]. split; [reflexivity|]. right. eauto. }
    assert (tokenData = JNull \/ tokenData <> JNull) as [->|Hnull]
      by (destruct tokenData; auto; right; discriminate).
    { injection Hrun as <- <-.
      rewrite upstream_calls_record, upstream_calls_state_consumed. simpl.
      split; [reflexivity|]. split; [reflexivity|]. right. eauto. }
    assert ((o, w')
            = (Returned (RedirectResponse
                           ("https://" ++ shop ++ "/admin/apps/"
                            ++ SHOPIFY_APP_HANDLE env) 302),
               installed_world rt shop code tokenData env (state_consumed state w)))
      as Hdone by (rewrite <- Hrun; destruct tokenData; try congruence; reflexivity).
    injection Hdone as -> ->.
    exists code, shop, state, hmac, answer, tokenData.
    repeat (split; [first [assumption|reflexivity]|]). reflexivity.
Qed.

(** X3. Whatever the request, the OAuth callback writes the merchant store
    exactly when it returns.  If it throws, the merchant and credential
    stores are as before and at most one upstream call was made.  If it
    returns, the request carried its four parameters, the state token
    matched, the signature verified, the token exchange answered 2xx with
    a JSON value other than null, and the world is the one where the
    merchant record of that answer is stored under the domain; the
    response is the redirect to the app in the merchant's admin. *)
Theorem callback_persists_exactly_on_success (rt : Runtime) request env w :
  (forall e,
      fst (handleOAuthCallback rt request env w) = Threw e ->
      SHOPS (snd (handleOAuthCallback rt request env w)) = SHOPS w
      /\ API_KEYS (snd (handleOAuthCallback rt request env w)) = API_KEYS w
      /\ (upstream_calls (snd (handleOAuthCallback rt request env w)) = upstream_calls w
          \/ exists rq,
               upstream_calls (snd (handleOAuthCallback rt request env w))
               = (upstream_calls w ++ [EvFetch rq])%list))
  /\ (forall response,
         fst (handleOAuthCallback rt request env w) = Returned response ->
         exists code shop state hmac answer tokenData,
           carries request code shop state hmac
           /\ kv_get (now w) (AUTH_STATES w) state = Some shop
           /\ verifyShopifyHmac rt (searchParams (req_url request))
                (SHOPIFY_API_SECRET env) = true
           /\ fetch rt (length (log (state_consumed state w)))
                (token_exchange_request shop code env) = Returned answer
           /\ resp_ok answer = true
           /\ resp_json answer = Returned tokenData
           /\ tokenData <> JNull
           /\ SHOPS (snd (handleOAuthCallback rt request env w))
              = <[shop := {| kv_value :=
                               merchant_record_of tokenData (toISOString rt (now w));
                             kv_expiration := None |}]> (SHOPS w)
           /\ response
              = RedirectResponse
                  ("https://" ++ shop ++ "/admin/apps/" ++ SHOPIFY_APP_HANDLE env) 302).
Proof.
  pose proof (handleOAuthCallback_outcome rt request env w
                (fst (handleOAuthCallback rt request env w))
                (snd (handleOAuthCallback rt request env w))
                (surjective_pairing _)) as Hrun.
  split.
  - intros e He. rewrite He in Hrun. exact Hrun.
  - intros response Hresponse. rewrite Hresponse in Hrun.
    destruct Hrun as (code & shop & state & hmac & answer & tokenData & Hreq & Hstate
                      & Hsig & Hfetch & Hok & Hjson & Hnull & _ & Hshops & Hredirect).
    exists code, shop, state, hmac, answer, tokenData. auto 12.
Qed.

Lemma callback_persists_exactly_on_success_witness :
  SHOPS (snd (handleOAuthCallback Fixture.runtime
                (Fixture.callback_request "shop-a.myshopify.com") Fixture.env
                Fixture.world_with_state))
  = <["shop-a.myshopify.com" := Fixture.kv_entry Fixture.merchant_record None]> ∅.
Proof.
  destruct (proj2 (callback_persists_exactly_on_success Fixture.runtime
                     (Fixture.callback_request "shop-a.myshopify.com") Fixture.env
                     Fixture.world_with_state)
              (RedirectResponse "https://shop-a.myshopify.com/admin/apps/gateway" 302))
    as (code & shop & state & hmac & answer & tokenData & Hreq & _ & _
        & Hfetch & _ & Hjson & _ & Hshops & _).
  - vm_compute. reflexivity.
  - rewrite Hshops.
    destruct Hreq as (Hcode & Hshop & Hstate & _).
    assert (shop = "shop-a.myshopify.com") as -> by (vm_compute in Hshop; congruence).
    assert (code = "c0de") as -> by (vm_compute in Hcode; congruence).
    assert (state = "st-1") as -> by (vm_compute in Hstate; congruence).
    assert (answer
            = {| resp_status := 200;
                 resp_json := Returned (JObj [ ("access_token", JStr "shpat_1");
                                               ("scope", JStr "read_orders") ]) |})
      as -> by (vm_compute in Hfetch; congruence).
    assert (tokenData = JObj [ ("access_token", JStr "shpat_1");
                               ("scope", JStr "read_orders") ])
      as -> by (simpl in Hjson; congruence).
    reflexivity.
Defined.

(** X4. A callback that passed the state and signature checks and whose
    token exchange answered 2xx with a JSON value other than null returns
    the redirect to the app in the merchant's admin.  The merchant record
    (access token and scope of the answer, time of installation) is stored
    under the domain without expiry; the state entry is gone; the
    credential store is untouched.  Exactly four upstream calls were made:
    the token exchange, then the registration of the three mandatory
    webhooks with the new access token, whatever the upstream answered to
    the registrations. *)
Theorem callback_success_installs (rt : Runtime) request env w
    code shop state hmac answer tokenData :
  carries request code shop state hmac ->
  kv_get (now w) (AUTH_STATES w) state = Some shop ->
  verifyShopifyHmac rt (searchParams (req_url request)) (SHOPIFY_API_SECRET env)
  = true ->
  fetch rt (length (log (state_consumed state w)))
    (token_exchange_request shop code env) = Returned answer ->
  resp_ok answer = true ->
  resp_json answer = Returned tokenData ->
  tokenData <> JNull ->
  fst (handleOAuthCallback rt request env w)
  = Returned (RedirectResponse
                ("https://" ++ shop ++ "/admin/apps/" ++ SHOPIFY_APP_HANDLE env) 302)
  /\ (forall t,
         kv_get t (SHOPS (snd (handleOAuthCallback rt request env w))) shop
         = Some (merchant_record_of tokenData (toISOString rt (now w))))
  /\ (forall other,
         other <> shop ->
         SHOPS (snd (handleOAuthCallback rt request env w)) !! other
         = SHOPS w !! other)
  /\ AUTH_STATES (snd (handleOAuthCallback rt request env w)) !! state = None
  /\ API_KEYS (snd (handleOAuthCallback rt request env w)) = API_KEYS w
  /\ upstream_calls (snd (handleOAuthCallback rt request env w))
     = (upstream_calls w
        ++ [ EvFetch (token_exchange_request shop code env);
             EvFetch (webhook_registration shop (member tokenData "access_token") env
                        "customers/redact");
             EvFetch (webhook_registration shop (member tokenData "access_token") env
                        "shop/redact");
             EvFetch (webhook_registration shop (member tokenData "access_token") env
                        "customers/data_request") ])%list.
Proof.
  intros Hreq Hstate Hsig Hfetch Hok Hjson Hnull.
  rewrite (handleOAuthCallback_valid_state rt request env w code shop state hmac
             Hreq Hstate).
  fold (state_consumed state w).
  pose proof (callback_after_state_check_cases rt request env shop code
                (state_consumed state w)) as Hrun.
  cbv zeta in Hrun. rewrite Hsig, Hfetch, Hok, Hjson in Hrun.
  assert (callback_after_state_check rt request env shop code (state_consumed state w)
          = (Returned (RedirectResponse
                         ("https://" ++ shop ++ "/admin/apps/"
                          ++ SHOPIFY_APP_HANDLE env) 302),
             installed_world rt shop code tokenData env (state_consumed state w)))
    as -> by (rewrite Hrun; destruct tokenData; try congruence; reflexivity).
  cbn [fst snd].
  rewrite upstream_calls_installed_world, upstream_calls_state_consumed.
  split; [reflexivity|].
  change (SHOPS (installed_world rt shop code tokenData env (state_consumed state w)))
    with (<[shop := {| kv_value := merchant_record_of tokenData (toISOString rt (now w));
                       kv_expiration := None |}]> (SHOPS w)).
  split; [intros t; unfold kv_get; rewrite lookup_insert_eq; reflexivity|].
  split; [intros other Hother; apply lookup_insert_ne; congruence|].
  split; [apply lookup_delete_eq|].
  split; reflexivity.
Qed.

Lemma callback_success_installs_witness :
  fst (handleOAuthCallback (Outage.with_fetch Outage.exchange_only)
         (Fixture.callback_request "shop-a.myshopify.com") Fixture.env
         Fixture.world_with_state)
  = Returned (RedirectResponse "https://shop-a.myshopify.com/admin/apps/gateway" 302)
  /\ (forall t,
         kv_get t
           (SHOPS (snd (handleOAuthCallback (Outage.with_fetch Outage.exchange_only)
                          (Fixture.callback_request "shop-a.myshopify.com") Fixture.env
                          Fixture.world_with_state))) "shop-a.myshopify.com"
         = Some Fixture.merchant_record).
Proof.
  pose proof (callback_success_installs (Outage.with_fetch Outage.exchange_only)
                (Fixture.callback_request "shop-a.myshopify.com") Fixture.env
                Fixture.world_with_state
                "c0de" "shop-a.myshopify.com" "st-1"
                (Fixture.provider_signature
                   (Fixture.callback_params "shop-a.myshopify.com") "s3cr3t")
                {| resp_status := 200;
                   resp_json := Returned (JObj [ ("access_token", JStr "shpat_1");
                                                 ("scope", JStr "read_orders") ]) |}
                (JObj [ ("access_token", JStr "shpat_1"); ("scope", JStr "read_orders") ]))
    as Hrun.
  destruct Hrun as (Hfst & Hrecord & _).
  - unfold carries. vm_compute. repeat split; discriminate.
  - vm_compute. reflexivity.
  - vm_compute. reflexivity.
  - vm_compute. reflexivity.
  - vm_compute. reflexivity.
  - reflexivity.
  - discriminate.
  - split; [exact Hfst|exact Hrecord].
Defined.

(** X5. Registering the mandatory webhooks is best effort: whatever the
    upstream answers, and even when it cannot be reached, the registration
    returns normally after exactly three upstream calls, one POST per
    topic (customers/redact, shop/redact, customers/data_request, in this
    order), each carrying the access token and the address of the
    gateway's own route of the topic; no store is touched. *)
Theorem registerMandatoryWebhooks_best_effort (rt : Runtime) shop accessToken env w :
  fst (registerMandatoryWebhooks rt shop accessToken env w) = Returned tt
  /\ log (snd (registerMandatoryWebhooks rt shop accessToken env w))
     = (log w
        ++ [ EvFetch (webhook_registration shop accessToken env "customers/redact");
             EvFetch (webhook_registration shop accessToken env "shop/redact");
             EvFetch (webhook_registration shop accessToken env
                        "customers/data_request") ])%list
  /\ SHOPS (snd (registerMandatoryWebhooks rt shop accessToken env w)) = SHOPS w
  /\ AUTH_STATES (snd (registerMandatoryWebhooks rt shop accessToken env w))
     = AUTH_STATES w
  /\ API_KEYS (snd (registerMandatoryWebhooks rt shop accessToken env w)) = API_KEYS w
  /\ (forall topic,
         In topic ["customers/redact"; "shop/redact"; "customers/data_request"] ->
         forall request url corsHeaders w0,
           pathname url = "/webhooks/" ++ topic ->
           routeRequest rt request url env corsHeaders w0
           = handleWebhook rt request env topic w0).
Proof.
  rewrite registerMandatoryWebhooks_run. cbn [fst snd].
  split; [reflexivity|].
  split; [simpl; rewrite <- !app_assoc; reflexivity|].
  split; [reflexivity|]. split; [reflexivity|]. split; [reflexivity|].
  intros topic Htopic request url corsHeaders w0 Hpath.
  unfold routeRequest. cbv zeta. rewrite Hpath.
  simpl in Htopic. destruct Htopic as [<-|[<-|[<-|[]]]]; reflexivity.
Qed.

Section Initiation.

Context (rt : Runtime).

Lemma handleOAuth_run request env w shop :
  params_get (searchParams (req_url request)) "shop" = Some shop ->
  isValidShopDomain rt (Some (JStr shop)) = true ->
  handleOAuth rt request env w
  = (Returned
       (RedirectResponse
          (buildShopifyAuthUrl shop (SHOPIFY_API_KEY env) (OAUTH_SCOPES env)
             (callback_uri env (req_url request)) (randomUUID rt (length (log w))))
          302),
     flow_started rt shop w).
Proof.
  intros Hshop Hvalid. unfold handleOAuth. cbv zeta. rewrite Hshop.
  cbn [of_str fmap option_fmap option_map]. rewrite Hvalid. run_handler.
  unfold flow_started, callback_uri, app_url, truthy_str.
  destruct (APP_URL env) as [u|]; [destruct (String.eqb u "")|]; reflexivity.
Qed.

End Initiation.

(** X6. Starting the OAuth flow for a well-formed domain draws a fresh
    state token, stores the domain under it in the state store with a
    lifetime of 600 seconds, and redirects (302) to the authorization page
    of that domain, on a host of the form label.myshopify.com, with the
    client id, the scopes, the callback URI and the state token in the
    query.  Nothing else is written, and no upstream call is made. *)
Theorem handleOAuth_starts_flow (rt : Runtime) request env w shop :
  params_get (searchParams (req_url request)) "shop" = Some shop ->
  isValidShopDomain rt (Some (JStr shop)) = true ->
  fst (handleOAuth rt request env w)
  = Returned
      (RedirectResponse
         ("https://" ++ shop ++ "/admin/oauth/authorize?"
          ++ URLSearchParams_toString
               [ ("client_id", SHOPIFY_API_KEY env); ("scope", OAUTH_SCOPES env);
                 ("redirect_uri", callback_uri env (req_url request));
                 ("state", randomUUID rt (length (log w))) ])
         302)
  /\ (exists c label,
         shop = String c (label ++ ".myshopify.com")
         /\ is_alnum c = true /\ all_in is_alnum_dash label = true)
  /\ AUTH_STATES (snd (handleOAuth rt request env w))
     = <[randomUUID rt (length (log w)) :=
           {| kv_value := shop; kv_expiration := Some (now w + 600) |}]> (AUTH_STATES w)
  /\ SHOPS (snd (handleOAuth rt request env w)) = SHOPS w
  /\ API_KEYS (snd (handleOAuth rt request env w)) = API_KEYS w
  /\ upstream_calls (snd (handleOAuth rt request env w)) = upstream_calls w.
Proof.
  intros Hshop Hvalid. rewrite (handleOAuth_run rt request env w shop Hshop Hvalid).
  cbn [fst snd]. split; [reflexivity|].
  split.
  { apply shop_domain_regex_correct. rewrite regex_test_correct.
    apply (isValidShopDomain_matches rt). exact Hvalid. }
  unfold flow_started. cbv zeta.
  rewrite upstream_calls_record. cbn [is_upstream_call].
  change (upstream_calls (set_AUTH_STATES ?m ?w')) with (upstream_calls w').
  rewrite upstream_calls_record. cbn [is_upstream_call]. rewrite !app_nil_r.
  repeat split.
Qed.

Lemma handleOAuth_starts_flow_witness :
  fst (handleOAuth Fixture.runtime
         (Fixture.get_request "/auth" [("shop", "shop-a.myshopify.com")])
         Fixture.env Fixture.empty_world)
  = Returned
      (RedirectResponse
         ("https://shop-a.myshopify.com/admin/oauth/authorize?"
          ++ "client_id=client-id&scope=read_orders"
          ++ "&redirect_uri=https%3A%2F%2Fgateway.example.com%2Fauth%2Fcallback"
          ++ "&state=00000000-0000-4000-8000-000000000000")
         302)
  /\ AUTH_STATES
       (snd (handleOAuth Fixture.runtime
               (Fixture.get_request "/auth" [("shop", "shop-a.myshopify.com")])
               Fixture.env Fixture.empty_world))
     = <["00000000-0000-4000-8000-000000000000" :=
           {| kv_value := "shop-a.myshopify.com"; kv_expiration := Some 1600 |}]> ∅.
Proof.
  pose proof (handleOAuth_starts_flow Fixture.runtime
                (Fixture.get_request "/auth" [("shop", "shop-a.myshopify.com")])
                Fixture.env Fixture.empty_world "shop-a.myshopify.com") as Hrun.
  destruct Hrun as (Hfst & _ & Hstates & _).
  - reflexivity.
  - vm_compute. reflexivity.
  - split.
    + rewrite Hfst. vm_compute. reflexivity.
    + rewrite Hstates. reflexivity.
Defined.

(** X7. The state token drawn by [handleOAuth] binds the callback to the
    domain and to 600 seconds.  A callback presenting the token for the
    same domain strictly before the 600 seconds have passed gets through
    the state check: the entry is read and deleted and the signature check
    follows.  From 600 seconds on the token reads as absent, and at any
    time a callback presenting it for another domain is refused, both with
    AuthenticationError (invalid state, 403) and without any upstream
    call. *)
Theorem state_token_lifetime (rt : Runtime) request env w shop
    request2 env2 code shop2 hmac t :
  params_get (searchParams (req_url request)) "shop" = Some shop ->
  isValidShopDomain rt (Some (JStr shop)) = true ->
  carries request2 code shop2 (randomUUID rt (length (log w))) hmac ->
  (shop2 = shop -> t < now w + STATE_TTL_SECONDS ->
   handleOAuthCallback rt request2 env2 (set_now t (snd (handleOAuth rt request env w)))
   = callback_after_state_check rt request2 env2 shop code
       (state_consumed (randomUUID rt (length (log w)))
          (set_now t (snd (handleOAuth rt request env w)))))
  /\ (shop2 <> shop \/ now w + STATE_TTL_SECONDS <= t ->
      handleOAuthCallback rt request2 env2
        (set_now t (snd (handleOAuth rt request env w)))
      = (Threw (AuthenticationError ERROR_MESSAGES.INVALID_STATE 403),
         record (EvGet NsAUTH_STATES (randomUUID rt (length (log w))))
           (set_now t (snd (handleOAuth rt request env w))))).
Proof.
  intros Hshop Hvalid Hreq2.
  rewrite (handleOAuth_run rt request env w shop Hshop Hvalid). cbn [snd].
  assert (forall t,
             kv_get t (AUTH_STATES (flow_started rt shop w))
               (randomUUID rt (length (log w)))
             = if t <? now w + STATE_TTL_SECONDS then Some shop else None) as Hget.
  { intros t0. unfold kv_get, flow_started, kv_live, kv_put.
    cbn [AUTH_STATES record set_AUTH_STATES].
    rewrite lookup_insert_eq. reflexivity. }
  split.
  - intros -> Hlive.
    apply (handleOAuthCallback_valid_state rt request2 env2 _ code shop _ hmac Hreq2).
    cbn [now set_now AUTH_STATES]. rewrite Hget.
    destruct (Z.ltb_spec t (now w + STATE_TTL_SECONDS)); [reflexivity|lia].
  - intros Hbad.
    apply (handleOAuthCallback_invalid_state rt request2 env2 _ code shop2 _ hmac Hreq2).
    cbn [now set_now AUTH_STATES]. rewrite Hget.
    destruct (Z.ltb_spec t (now w + STATE_TTL_SECONDS)); [|discriminate].
    destruct Hbad as [Hother|Hlate]; [congruence|lia].
Qed.

Lemma state_token_lifetime_witness :
  (handleOAuthCallback Fixture.runtime
     (Fixture.get_request "/auth/callback"
        [ ("code", "c0de"); ("shop", "shop-a.myshopify.com");
          ("state", "00000000-0000-4000-8000-000000000000"); ("hmac", "00") ])
     Fixture.env
     (set_now 1599
        (snd (handleOAuth Fixture.runtime
                (Fixture.get_request "/auth" [("shop", "shop-a.myshopify.com")])
                Fixture.env Fixture.empty_world)))
   = callback_after_state_check Fixture.runtime
       (Fixture.get_request "/auth/callback"
          [ ("code", "c0de"); ("shop", "shop-a.myshopify.com");
            ("state", "00000000-0000-4000-8000-000000000000"); ("hmac", "00") ])
       Fixture.env "shop-a.myshopify.com" "c0de"
       (state_consumed "00000000-0000-4000-8000-000000000000"
          (set_now 1599
             (snd (handleOAuth Fixture.runtime
                     (Fixture.get_request "/auth" [("shop", "shop-a.myshopify.com")])
                     Fixture.env Fixture.empty_world)))))
  /\ fst (handleOAuthCallback Fixture.runtime
            (Fixture.get_request "/auth/callback"
               [ ("code", "c0de"); ("shop", "shop-a.myshopify.com");
                 ("state", "00000000-0000-4000-8000-000000000000"); ("hmac", "00") ])
            Fixture.env
            (set_now 1600
               (snd (handleOAuth Fixture.runtime
                       (Fixture.get_request "/auth" [("shop", "shop-a.myshopify.com")])
                       Fixture.env Fixture.empty_world))))
     = Threw (AuthenticationError "Invalid state parameter" 403).
Proof.
  split.
  - refine (proj1 (state_token_lifetime Fixture.runtime
                     (Fixture.get_request "/auth" [("shop", "shop-a.myshopify.com")])
                     Fixture.env Fixture.empty_world "shop-a.myshopify.com"
                     (Fixture.get_request "/auth/callback"
                        [ ("code", "c0de"); ("shop", "shop-a.myshopify.com");
                          ("state", "00000000-0000-4000-8000-000000000000");
                          ("hmac", "00") ])
                     Fixture.env "c0de" "shop-a.myshopify.com" "00" 1599
                     eq_refl _ _) eq_refl eq_refl).
    + vm_compute. reflexivity.
    + unfold carries. vm_compute. repeat split; discriminate.
  - rewrite (proj2 (state_token_lifetime Fixture.runtime
                      (Fixture.get_request "/auth" [("shop", "shop-a.myshopify.com")])
                      Fixture.env Fixture.empty_world "shop-a.myshopify.com"
                      (Fixture.get_request "/auth/callback"
                         [ ("code", "c0de"); ("shop", "shop-a.myshopify.com");
                           ("state", "00000000-0000-4000-8000-000000000000");
                           ("hmac", "00") ])
                      Fixture.env "c0de" "shop-a.myshopify.com" "00" 1600
                      eq_refl ltac:(vm_compute; reflexivity)
                      ltac:(unfold carries; vm_compute; repeat split; discriminate))).
    + reflexivity.
    + right. vm_compute. discriminate.
Defined.

(** ** The proxy, step by step *)

Section ProxySteps.

Context (rt : Runtime).

Lemma length_log_record e w : length (log (record e w)) = S (length (log w)).
Proof. unfold record; cbn [log]. rewrite length_app, Nat.add_1_r. reflexivity. Qed.

Lemma truthy_not_null keyData : truthy (Some keyData) = true -> keyData <> JNull.
Proof. intros H ->. discriminate. Qed.

(** With a live key the proxy goes on to the body of the request. *)
Lemma handleAPIProxy_live_key request env corsHeaders w k keyData :
  extractApiKey request = Some k ->
  k <> "" ->
  kv_get (now w) (API_KEYS w) ("key:" ++ k) = Some keyData ->
  truthy (Some keyData) = true ->
  handleAPIProxy rt request env corsHeaders w
  = match parseJsonBody rt request with
    | JNull =>
        (Threw (PlatformError "TypeError"
                  "Cannot destructure property 'endpoint' of 'body' as it is null."),
         record (EvGet NsAPI_KEYS ("key:" ++ k)) w)
    | body =>
        if truthy (member body "endpoint")
        then
          (Returned
             match fetch rt (S (length (log w))) (proxied_request rt keyData body env) with
             | Returned response =>
                 match resp_json response with
                 | Returned data => proxy_relay rt data (resp_status response) corsHeaders
                 | Threw e => proxy_failure e corsHeaders
                 end
             | Threw e => proxy_failure e corsHeaders
             end,
           record (EvFetch (proxied_request rt keyData body env))
             (record (EvGet NsAPI_KEYS ("key:" ++ k)) w))
        else
          (Returned (createJsonResponse
                       (JObj [("error", JStr ERROR_MESSAGES.MISSING_ENDPOINT)])
                       400 corsHeaders),
           record (EvGet NsAPI_KEYS ("key:" ++ k)) w)
    end.
Proof.
  intros Hk Hne Hget Htruthy.
  pose proof (truthy_not_null keyData Htruthy) as Hkd.
  unfold handleAPIProxy. rewrite Hk.
  destruct (String.eqb_spec k "") as [|_]; [contradiction|].
  unfold bind at 1. unfold API_KEYS_get at 1. rewrite Hget, Htruthy.
  cbn [negb default].
  rewrite !(destructure_not_null keyData) by assumption.
  unfold bind at 1. unfold ret at 1. unfold bind at 1. unfold ret at 1.
  destruct (parseJsonBody rt request) as [| b | n | s | l | members] eqn:Hbody;
    [reflexivity|..];
    (unfold destructure at 1; unfold bind at 1; unfold ret at 1;
     unfold destructure at 1; unfold bind at 1; unfold ret at 1;
     unfold destructure at 1; unfold bind at 1; unfold ret at 1;
     match goal with
     | |- context [truthy (member ?body "endpoint")] =>
         destruct (truthy (member body "endpoint")); [|reflexivity];
         cbn [negb]; unfold proxyToShopify, proxied_request, new_Response, proxy_relay;
         cbv zeta; run_handler; rewrite length_log_record
     end;
     destruct (fetch rt _ _) as [response|e]; [|reflexivity];
     destruct (resp_json response); [|reflexivity];
     cbn [fst snd response_status createJsonResponse];
     destruct (negb (Response_status_in_range (resp_status response)));
     [reflexivity|];
     destruct (is_null_body_status (resp_status response)); reflexivity).
Qed.

End ProxySteps.

Lemma upstream_calls_proxied rq key w :
  upstream_calls (record (EvFetch rq) (record (EvGet NsAPI_KEYS key) w))
  = (upstream_calls w ++ [EvFetch rq])%list.
Proof.
  rewrite !upstream_calls_record. simpl. rewrite app_nil_r. reflexivity.
Qed.

Lemma upstream_calls_key_read key w :
  upstream_calls (record (EvGet NsAPI_KEYS key) w) = upstream_calls w.
Proof. rewrite upstream_calls_record. simpl. apply app_nil_r. Qed.

(** With a live key, a body that is not [null] and an endpoint, the proxy
    makes its upstream call. *)
Lemma handleAPIProxy_call (rt : Runtime) request env corsHeaders w k keyData :
  extractApiKey request = Some k ->
  k <> "" ->
  kv_get (now w) (API_KEYS w) ("key:" ++ k) = Some keyData ->
  truthy (Some keyData) = true ->
  parseJsonBody rt request <> JNull ->
  truthy (member (parseJsonBody rt request) "endpoint") = true ->
  handleAPIProxy rt request env corsHeaders w
  = (Returned
       match fetch rt (S (length (log w)))
               (proxied_request rt keyData (parseJsonBody rt request) env) with
       | Returned response =>
           match resp_json response with
           | Returned data => proxy_relay rt data (resp_status response) corsHeaders
           | Threw e => proxy_failure e corsHeaders
           end
       | Threw e => proxy_failure e corsHeaders
       end,
     record (EvFetch (proxied_request rt keyData (parseJsonBody rt request) env))
       (record (EvGet NsAPI_KEYS ("key:" ++ k)) w)).
Proof.
  intros Hk Hne Hget Htruthy Hbody Hendpoint.
  rewrite (handleAPIProxy_live_key rt request env corsHeaders w k keyData)
    by assumption.
  destruct (parseJsonBody rt request); try congruence; cbv beta iota zeta;
    rewrite Hendpoint; reflexivity.
Qed.



(** X8. When the upstream call of the proxy fails, because the upstream
    cannot be reached or because its answer is not JSON, the proxy does
    not throw: it answers 500 with the error "Failed to proxy request" and
    the message of the failure as details.  The call was made exactly
    once, there is no retry, and no store is written. *)
Theorem proxy_upstream_failure_is_reported (rt : Runtime) request env corsHeaders w
    k keyData e :
  extractApiKey request = Some k ->
  k <> "" ->
  kv_get (now w) (API_KEYS w) ("key:" ++ k) = Some keyData ->
  truthy (Some keyData) = true ->
  parseJsonBody rt request <> JNull ->
  truthy (member (parseJsonBody rt request) "endpoint") = true ->
  (fetch rt (S (length (log w)))
     (proxied_request rt keyData (parseJsonBody rt request) env) = Threw e
   \/ exists response,
        fetch rt (S (length (log w)))
          (proxied_request rt keyData (parseJsonBody rt request) env)
        = Returned response
        /\ resp_json response = Threw e) ->
  fst (handleAPIProxy rt request env corsHeaders w)
  = Returned (createJsonResponse
                (JObj [ ("error", JStr "Failed to proxy request");
                        ("details", JStr (error_message e)) ])
                500 corsHeaders)
  /\ upstream_calls (snd (handleAPIProxy rt request env corsHeaders w))
     = (upstream_calls w
        ++ [EvFetch (proxied_request rt keyData (parseJsonBody rt request) env)])%list
  /\ SHOPS (snd (handleAPIProxy rt request env corsHeaders w)) = SHOPS w
  /\ AUTH_STATES (snd (handleAPIProxy rt request env corsHeaders w)) = AUTH_STATES w
  /\ API_KEYS (snd (handleAPIProxy rt request env corsHeaders w)) = API_KEYS w.
Proof.
  intros Hk Hne Hget Htruthy Hbody Hendpoint Hfail.
  rewrite (handleAPIProxy_call rt request env corsHeaders w k keyData) by assumption.
  cbn [fst snd]. rewrite upstream_calls_proxied.
  split; [|repeat split].
  destruct Hfail as [-> | (response & -> & ->)]; reflexivity.
Qed.

Lemma proxy_upstream_failure_is_reported_witness :
  fst (handleAPIProxy (Outage.with_fetch Outage.unreachable)
         (Fixture.proxy_request (Some "Bearer k-1")) Fixture.env getCorsHeaders
         Fixture.world_installed)
  = Returned (createJsonResponse
                (JObj [ ("error", JStr "Failed to proxy request");
                        ("details", JStr "fetch failed") ])
                500 getCorsHeaders)
  /\ length (upstream_calls
               (snd (handleAPIProxy (Outage.with_fetch Outage.unreachable)
                       (Fixture.proxy_request (Some "Bearer k-1")) Fixture.env
                       getCorsHeaders Fixture.world_installed))) = 1%nat.
Proof.
  pose proof (proxy_upstream_failure_is_reported (Outage.with_fetch Outage.unreachable)
                (Fixture.proxy_request (Some "Bearer k-1")) Fixture.env getCorsHeaders
                Fixture.world_installed "k-1" Fixture.client_credential
                (PlatformError "TypeError" "fetch failed")) as Hrun.
  destruct Hrun as (Hfst & Hcalls & _).
  - reflexivity.
  - discriminate.
  - vm_compute. reflexivity.
  - reflexivity.
  - vm_compute. discriminate.
  - vm_compute. reflexivity.
  - left. reflexivity.
  - split; [exact Hfst|]. rewrite Hcalls. reflexivity.
Defined.



(** X10. A proxy request with a live key whose body names no endpoint is
    answered 400 (missing endpoint parameter) without any upstream call; a
    body that is not JSON at all is read as the empty object and gets the
    same answer.  The key was looked up, and no store was written. *)
Theorem proxy_missing_endpoint_is_400 (rt : Runtime) request env corsHeaders w
    k keyData :
  extractApiKey request = Some k ->
  k <> "" ->
  kv_get (now w) (API_KEYS w) ("key:" ++ k) = Some keyData ->
  truthy (Some keyData) = true ->
  (JSON_parse rt (req_body request) = None
   \/ (parseJsonBody rt request <> JNull
       /\ truthy (member (parseJsonBody rt request) "endpoint") = false)) ->
  handleAPIProxy rt request env corsHeaders w
  = (Returned (createJsonResponse
                 (JObj [("error", JStr "Missing endpoint parameter")]) 400 corsHeaders),
     record (EvGet NsAPI_KEYS ("key:" ++ k)) w)
  /\ upstream_calls (snd (handleAPIProxy rt request env corsHeaders w))
     = upstream_calls w.
Proof.
  intros Hk Hne Hget Htruthy Hbody.
  assert (parseJsonBody rt request <> JNull
          /\ truthy (member (parseJsonBody rt request) "endpoint") = false)
    as [Hnull Hendpoint].
  { destruct Hbody as [Hparse|Hbody]; [|exact Hbody].
    unfold parseJsonBody. rewrite Hparse. split; [discriminate|reflexivity]. }
  rewrite (handleAPIProxy_live_key rt request env corsHeaders w k keyData)
    by assumption.
  destruct (parseJsonBody rt request); try congruence; cbv beta iota zeta;
    rewrite Hendpoint; cbn [snd]; rewrite upstream_calls_key_read; split; reflexivity.
Qed.

Lemma proxy_missing_endpoint_is_400_witness :
  handleAPIProxy Fixture.runtime
    (Fixture.post_request "/api/proxy" (Some "Bearer k-1") None "not json")
    Fixture.env getCorsHeaders Fixture.world_installed
  = (Returned (createJsonResponse
                 (JObj [("error", JStr "Missing endpoint parameter")]) 400
                 getCorsHeaders),
     record (EvGet NsAPI_KEYS "key:k-1") Fixture.world_installed).
Proof.
  apply (proxy_missing_endpoint_is_400 Fixture.runtime
           (Fixture.post_request "/api/proxy" (Some "Bearer k-1") None "not json")
           Fixture.env getCorsHeaders Fixture.world_installed
           "k-1" Fixture.client_credential).
  - reflexivity.
  - discriminate.
  - vm_compute. reflexivity.
  - reflexivity.
  - left. reflexivity.
Defined.

(** X11. The proxy answers every request with a response, except one: a
    request with a live key whose body is the JSON value null makes it
    throw a TypeError.  In every case it makes at most one upstream call
    and writes to no store. *)
Theorem proxy_throws_only_on_null_body (rt : Runtime) request env corsHeaders w :
  ((exists response,
       fst (handleAPIProxy rt request env corsHeaders w) = Returned response)
   \/ (parseJsonBody rt request = JNull
       /\ (exists k keyData,
              extractApiKey request = Some k
              /\ kv_get (now w) (API_KEYS w) ("key:" ++ k) = Some keyData
              /\ truthy (Some keyData) = true)
       /\ fst (handleAPIProxy rt request env corsHeaders w)
          = Threw (PlatformError "TypeError"
                     "Cannot destructure property 'endpoint' of 'body' as it is null.")
       /\ upstream_calls (snd (handleAPIProxy rt request env corsHeaders w))
          = upstream_calls w))
  /\ (upstream_calls (snd (handleAPIProxy rt request env corsHeaders w))
      = upstream_calls w
      \/ exists rq,
           upstream_calls (snd (handleAPIProxy rt request env corsHeaders w))
           = (upstream_calls w ++ [EvFetch rq])%list)
  /\ SHOPS (snd (handleAPIProxy rt request env corsHeaders w)) = SHOPS w
  /\ AUTH_STATES (snd (handleAPIProxy rt request env corsHeaders w)) = AUTH_STATES w
  /\ API_KEYS (snd (handleAPIProxy rt request env corsHeaders w)) = API_KEYS w.
Proof.
  assert (SHOPS (snd (handleAPIProxy rt request env corsHeaders w)) = SHOPS w
          /\ AUTH_STATES (snd (handleAPIProxy rt request env corsHeaders w))
             = AUTH_STATES w
          /\ API_KEYS (snd (handleAPIProxy rt request env corsHeaders w)) = API_KEYS w)
    as Hstores.
  { split; [|split].
    - apply (handleAPIProxy_preserves rt SHOPS). reflexivity.
    - apply (handleAPIProxy_preserves rt AUTH_STATES). reflexivity.
    - apply (handleAPIProxy_preserves rt API_KEYS). reflexivity. }
  match goal with
  | |- ?A /\ ?B /\ _ =>
      enough (A /\ B) as [? ?]
        by (split; [assumption|split; [assumption|exact Hstores]])
  end.
  clear Hstores.
  destruct (extractApiKey request) as [k|] eqn:Hk.
  2: { unfold handleAPIProxy. rewrite Hk. simpl. split; [left; eauto|left; reflexivity]. }
  destruct (String.eqb_spec k "") as [->|Hne].
  { unfold handleAPIProxy. rewrite Hk. simpl. split; [left; eauto|left; reflexivity]. }
  destruct (kv_get (now w) (API_KEYS w) ("key:" ++ k)) as [keyData|] eqn:Hget.
  2: { unfold handleAPIProxy. rewrite Hk.
       destruct (String.eqb_spec k ""); [contradiction|].
       unfold bind, API_KEYS_get. rewrite Hget. cbn [truthy negb ret fst snd].
       rewrite upstream_calls_key_read. split; [left; eauto|left; reflexivity]. }
  destruct (truthy (Some keyData)) eqn:Htruthy.
  2: { unfold handleAPIProxy. rewrite Hk.
       destruct (String.eqb_spec k ""); [contradiction|].
       unfold bind, API_KEYS_get. rewrite Hget, Htruthy. cbn [negb ret fst snd].
       rewrite upstream_calls_key_read. split; [left; eauto|left; reflexivity]. }
  rewrite (handleAPIProxy_live_key rt request env corsHeaders w k keyData)
    by assumption.
  destruct (parseJsonBody rt request) eqn:Hbody;
    [ cbn [fst snd]; rewrite upstream_calls_key_read;
      split; [right; eauto 10|left; reflexivity]
    | cbv beta iota zeta;
      match goal with
      | |- context [truthy ?v] =>
          destruct (truthy v); cbn [fst snd];
          [ rewrite upstream_calls_proxied; split; [left; eauto|right; eauto]
          | rewrite upstream_calls_key_read; split; [left; eauto|left; reflexivity] ]
      end .. ].
Qed.

(** ** Issuing a credential and using it *)

Lemma handleExtensionAuth_run (rt : Runtime) request env corsHeaders w shop shopData :
  member (parseJsonBody rt request) "shop" = Some (JStr shop) ->
  isValidShopDomain rt (Some (JStr shop)) = true ->
  kv_get (now w) (SHOPS w) shop = Some shopData ->
  truthy (Some shopData) = true ->
  handleExtensionAuth rt request env corsHeaders w
  = (Returned
       (createJsonResponse
          (JObj [ ("success", JBool true);
                  ("api_key", JStr (randomUUID rt (S (length (log w)))));
                  ("shop", JStr shop) ])
          200 corsHeaders),
     credential_issued rt shop shopData w).
Proof.
  intros Hshop Hvalid Hget Htruthy. unfold handleExtensionAuth.
  destruct (parseJsonBody rt request) as [| | | | |members] eqn:Ebody;
    try discriminate.
  run_handler. rewrite Hshop, Hvalid. run_handler. cbn [template to_string].
  rewrite Hget, Htruthy. cbn [negb default]. rewrite length_log_record.
  pose proof (truthy_not_null shopData Htruthy) as Hnull.
  unfold credential_issued, client_credential_of.
  destruct shopData; try congruence; reflexivity.
Qed.


(** X12. For a well-formed domain whose merchant record the store
    returns, issuance answers 200 with a fresh key and stores under
    "key:" followed by that key a credential holding the domain and the
    access token of the merchant record as it is at that moment, with a
    lifetime of 90 days (7776000 seconds).  The merchant store and the
    state store are untouched and no upstream call is made; the caller
    proved nothing but the name of the domain. *)
Theorem issuance_stores_credential (rt : Runtime) request env corsHeaders w
    shop shopData :
  member (parseJsonBody rt request) "shop" = Some (JStr shop) ->
  isValidShopDomain rt (Some (JStr shop)) = true ->
  kv_get (now w) (SHOPS w) shop = Some shopData ->
  truthy (Some shopData) = true ->
  fst (handleExtensionAuth rt request env corsHeaders w)
  = Returned
      (createJsonResponse
         (JObj [ ("success", JBool true);
                 ("api_key", JStr (randomUUID rt (S (length (log w)))));
                 ("shop", JStr shop) ])
         200 corsHeaders)
  /\ API_KEYS (snd (handleExtensionAuth rt request env corsHeaders w))
     = <["key:" ++ randomUUID rt (S (length (log w))) :=
           {| kv_value :=
                JObj ([("shop", JStr shop)]
                      ++ field "accessToken" (member shopData "accessToken")
                      ++ [("createdAt", JStr (toISOString rt (now w)))]);
              kv_expiration := Some (now w + 7776000) |}]> (API_KEYS w)
  /\ SHOPS (snd (handleExtensionAuth rt request env corsHeaders w)) = SHOPS w
  /\ AUTH_STATES (snd (handleExtensionAuth rt request env corsHeaders w))
     = AUTH_STATES w
  /\ upstream_calls (snd (handleExtensionAuth rt request env corsHeaders w))
     = upstream_calls w.
Proof.
  intros Hshop Hvalid Hget Htruthy.
  rewrite (handleExtensionAuth_run rt request env corsHeaders w shop shopData)
    by assumption.
  cbn [fst snd]. split; [reflexivity|]. split; [reflexivity|].
  split; [reflexivity|]. split; [reflexivity|].
  unfold credential_issued. cbv zeta.
  rewrite upstream_calls_record. cbn [is_upstream_call].
  change (upstream_calls (set_API_KEYS ?m ?w')) with (upstream_calls w').
  rewrite !upstream_calls_record. cbn [is_upstream_call]. rewrite !app_nil_r.
  reflexivity.
Qed.

Lemma issuance_stores_credential_witness :
  fst (handleExtensionAuth Fixture.runtime (Fixture.issue_request "shop-a.myshopify.com")
         Fixture.env getCorsHeaders Fixture.world_installed)
  = Returned
      (createJsonResponse
         (JObj [ ("success", JBool true);
                 ("api_key", JStr "00000000-0000-4000-8000-000000000001");
                 ("shop", JStr "shop-a.myshopify.com") ])
         200 getCorsHeaders)
  /\ API_KEYS
       (snd (handleExtensionAuth Fixture.runtime
               (Fixture.issue_request "shop-a.myshopify.com")
               Fixture.env getCorsHeaders Fixture.world_installed))
     = <["key:00000000-0000-4000-8000-000000000001" :=
           Fixture.kv_entry Fixture.client_credential (Some 7777000)]>
         (API_KEYS Fixture.world_installed).
Proof.
  destruct (issuance_stores_credential Fixture.runtime
              (Fixture.issue_request "shop-a.myshopify.com") Fixture.env getCorsHeaders
              Fixture.world_installed "shop-a.myshopify.com" Fixture.merchant_record)
    as (Hfst & Hkeys & _).
  - vm_compute. reflexivity.
  - vm_compute. reflexivity.
  - vm_compute. reflexivity.
  - reflexivity.
  - split; [exact Hfst|]. rewrite Hkeys. reflexivity.
Defined.



(** ** Webhooks *)

Lemma handleWebhook_world (rt : Runtime) request env topic w :
  snd (handleWebhook rt request env topic w) = w
  \/ (topic = "shop/redact"
      /\ verifyWebhookHmac (req_body request) (req_X_Shopify_Hmac_Sha256 request)
           (SHOPIFY_API_SECRET env) = true
      /\ exists data,
           JSON_parse rt (req_body request) = Some data
           /\ truthy (member data "shop_domain") = true
           /\ handleWebhook rt request env topic w
              = (Returned (TextResponse "" 200),
                 record (EvDelete NsSHOPS (template rt (member data "shop_domain")))
                   (set_SHOPS
                      (kv_delete (SHOPS w) (template rt (member data "shop_domain")))
                      w))).
Proof.
  destruct (verifyWebhookHmac (req_body request) (req_X_Shopify_Hmac_Sha256 request)
              (SHOPIFY_API_SECRET env)) eqn:Hv.
  2: { left. unfold handleWebhook. rewrite Hv. reflexivity. }
  destruct (JSON_parse rt (req_body request)) as [data|] eqn:Hparse.
  2: { left. unfold handleWebhook. rewrite Hv, Hparse. reflexivity. }
  destruct (String.eqb_spec topic "shop/redact") as [->|Htopic].
  - destruct (Json_null_dec data) as [->|Hnull].
    { left. unfold handleWebhook. rewrite Hv, Hparse. reflexivity. }
    destruct (truthy (member data "shop_domain")) eqn:Htruthy.
    + right. split; [reflexivity|]. split; [reflexivity|].
      exists data. split; [reflexivity|]. split; [exact Htruthy|].
      apply (handleWebhook_shop_redact rt request env w data (member data "shop_domain"));
        auto.
    + left. unfold handleWebhook, handleShopRedact. rewrite Hv, Hparse.
      cbn [negb]. rewrite bind_ret_l.
      change (String.eqb "shop/redact" "shop/redact") with true. cbv iota.
      rewrite get_member_not_null by assumption. rewrite bind_ret_l.
      rewrite Htruthy. reflexivity.
  - left. unfold handleWebhook. rewrite Hv, Hparse. cbn [negb]. rewrite bind_ret_l.
    destruct (String.eqb_spec topic "shop/redact"); [contradiction|].
    unfold handleCustomerRedact, handleCustomerDataRequest.
    repeat (destruct (String.eqb _ _)); reflexivity.
Qed.

Lemma handleWebhook_upstream_calls (rt : Runtime) request env topic w :
  upstream_calls (snd (handleWebhook rt request env topic w)) = upstream_calls w.
Proof.
  destruct (handleWebhook_world rt request env topic w)
    as [->|(_ & _ & data & _ & _ & ->)]; [reflexivity|].
  cbn [snd]. rewrite upstream_calls_record. simpl. apply app_nil_r.
Qed.

(** X14. Whatever the topic, the signature and the body, a webhook makes
    no upstream call, reads no store and leaves the state store and the
    credential store as they are.  It leaves the whole world exactly as it
    found it, with one exception: the shop-redaction topic with a
    signature that verifies and a JSON body whose shop_domain is truthy,
    in which case the only effect is the deletion of that domain from the
    merchant store, every other merchant record staying, and the answer is
    200. *)
Theorem webhook_only_effect_is_shop_redaction (rt : Runtime) request env topic w :
  upstream_calls (snd (handleWebhook rt request env topic w)) = upstream_calls w
  /\ AUTH_STATES (snd (handleWebhook rt request env topic w)) = AUTH_STATES w
  /\ API_KEYS (snd (handleWebhook rt request env topic w)) = API_KEYS w
  /\ (snd (handleWebhook rt request env topic w) = w
      \/ (topic = "shop/redact"
          /\ verifyWebhookHmac (req_body request) (req_X_Shopify_Hmac_Sha256 request)
               (SHOPIFY_API_SECRET env) = true
          /\ exists data,
               JSON_parse rt (req_body request) = Some data
               /\ truthy (member data "shop_domain") = true
               /\ fst (handleWebhook rt request env topic w)
                  = Returned (TextResponse "" 200)
               /\ log (snd (handleWebhook rt request env topic w))
                  = (log w
                     ++ [EvDelete NsSHOPS (template rt (member data "shop_domain"))])%list
               /\ SHOPS (snd (handleWebhook rt request env topic w))
                  = delete (template rt (member data "shop_domain")) (SHOPS w)
               /\ forall other,
                    other <> template rt (member data "shop_domain") ->
                    SHOPS (snd (handleWebhook rt request env topic w)) !! other
                    = SHOPS w !! other)).
Proof.
  split; [apply handleWebhook_upstream_calls|].
  destruct (handleWebhook_world rt request env topic w)
    as [Hsame|(Htopic & Hv & data & Hparse & Htruthy & Hrun)].
  - rewrite Hsame. auto.
  - rewrite Hrun. cbn [fst snd]. split; [reflexivity|]. split; [reflexivity|].
    right. split; [exact Htopic|]. split; [exact Hv|].
    exists data. split; [exact Hparse|]. split; [exact Htruthy|].
    split; [reflexivity|]. split; [reflexivity|]. split; [reflexivity|].
    intros other Hother. cbn [SHOPS record set_SHOPS]. unfold kv_delete.
    apply lookup_delete_ne. congruence.
Qed.

(** X15. A webhook whose signature verifies is acknowledged with an empty
    200 response and nothing else when its topic is one of the two
    customer topics (or any topic other than shop redaction), and also
    when it is a shop redaction whose body names no shop domain.  A body
    that verifies but is not JSON makes the handler throw a SyntaxError,
    with the message the engine gives for that body, and a shop redaction
    whose body is the JSON value null a TypeError; the world is unchanged
    in each of these cases. *)
Theorem verified_webhook_outcomes (rt : Runtime) request env topic w :
  verifyWebhookHmac (req_body request) (req_X_Shopify_Hmac_Sha256 request)
    (SHOPIFY_API_SECRET env) = true ->
  (JSON_parse rt (req_body request) = None ->
   exists message,
     handleWebhook rt request env topic w
     = (Threw (PlatformError "SyntaxError" message), w))
  /\ (forall data,
         JSON_parse rt (req_body request) = Some data ->
         topic <> "shop/redact" ->
         handleWebhook rt request env topic w = (Returned (TextResponse "" 200), w))
  /\ (forall data,
         JSON_parse rt (req_body request) = Some data ->
         topic = "shop/redact" ->
         data <> JNull ->
         truthy (member data "shop_domain") = false ->
         handleWebhook rt request env topic w = (Returned (TextResponse "" 200), w))
  /\ (JSON_parse rt (req_body request) = Some JNull ->
      topic = "shop/redact" ->
      handleWebhook rt request env topic w
      = (Threw (PlatformError "TypeError"
                  "Cannot read properties of null (reading 'shop_domain')"), w)).
Proof.
  intros Hv. unfold handleWebhook. rewrite Hv. cbn [negb].
  split; [intros ->; eexists; reflexivity|].
  split.
  { intros data -> Htopic. rewrite bind_ret_l.
    destruct (String.eqb_spec topic "shop/redact"); [contradiction|].
    unfold handleCustomerRedact, handleCustomerDataRequest.
    repeat (destruct (String.eqb _ _)); reflexivity. }
  split.
  { intros data -> -> Hnull Htruthy. rewrite bind_ret_l.
    change (String.eqb "shop/redact" "shop/redact") with true. cbv iota.
    unfold handleShopRedact. rewrite get_member_not_null by assumption.
    rewrite bind_ret_l, Htruthy. reflexivity. }
  intros -> ->. reflexivity.
Qed.

Lemma verified_webhook_outcomes_witness :
  handleWebhook Fixture.runtime
    (Fixture.post_request "/webhooks/customers/redact" None
       (Some (Fixture.webhook_signature Fixture.redact_body)) Fixture.redact_body)
    Fixture.env "customers/redact" Fixture.world_installed
  = (Returned (TextResponse "" 200), Fixture.world_installed)
  /\ exists message,
       handleWebhook Fixture.runtime
         (Fixture.post_request "/webhooks/shop/redact" None
            (Some (Fixture.webhook_signature "not json")) "not json")
         Fixture.env "shop/redact" Fixture.world_installed
       = (Threw (PlatformError "SyntaxError" message), Fixture.world_installed).
Proof.
  split.
  - refine (proj1 (proj2 (verified_webhook_outcomes Fixture.runtime
                            (Fixture.post_request "/webhooks/customers/redact" None
                               (Some (Fixture.webhook_signature Fixture.redact_body))
                               Fixture.redact_body)
                            Fixture.env "customers/redact" Fixture.world_installed _))
              (JObj [("shop_domain", JStr "shop-a.myshopify.com")]) _ _).
    + vm_compute. reflexivity.
    + vm_compute. reflexivity.
    + discriminate.
  - refine (proj1 (verified_webhook_outcomes Fixture.runtime
                     (Fixture.post_request "/webhooks/shop/redact" None
                        (Some (Fixture.webhook_signature "not json")) "not json")
                     Fixture.env "shop/redact" Fixture.world_installed _) _).
    + vm_compute. reflexivity.
    + vm_compute. reflexivity.
Defined.

(** ** The root path *)

Section RootPath.

Context (rt : Runtime).

Lemma handleRootPath_installed url env w shop :
  params_get (searchParams url) "shop" = Some shop ->
  isValidShopDomain rt (Some (JStr shop)) = true ->
  handleRootPath rt url env w
  = (match kv_get (now w) (SHOPS w) shop with
     | None => install_redirect rt shop env
     | Some _ =>
         Returned
           match params_get (searchParams url) "embedded" with
           | Some "1" =>
               match params_get (searchParams url) "host" with
               | None => AccessDeniedPage shop
               | Some host =>
                   if String.eqb host "" then AccessDeniedPage shop
                   else EmbeddedApp shop host
               end
           | _ =>
               RedirectResponse
                 ("https://" ++ shop ++ "/admin/apps/" ++ SHOPIFY_APP_HANDLE env) 302
           end
     end,
     record (EvGet NsSHOPS shop) w).
Proof.
  intros Hshop Hvalid. unfold handleRootPath. cbv zeta. rewrite Hshop.
  destruct (String.eqb_spec shop "") as [->|Hne].
  { unfold isValidShopDomain in Hvalid. simpl in Hvalid. discriminate. }
  rewrite Hvalid. cbn [negb]. unfold checkInstallation. run_handler.
  destruct (kv_get (now w) (SHOPS w) shop).
  2: { cbn [negb]. unfold createInstallRedirect, install_redirect.
       destruct (APP_URL env) as [base|]; [|reflexivity].
       destruct (URL_canParse rt _ base); reflexivity. }
  cbn [negb].
  destruct (params_get (searchParams url) "embedded") as [embedded|]; [|reflexivity].
  destruct (String.eqb_spec embedded "1") as [->|Hembedded].
  - destruct (params_get (searchParams url) "host") as [host|]; [|reflexivity].
    destruct (String.eqb host ""); reflexivity.
  - destruct embedded as [|[[] [] [] [] [] [] [] []] [|c' embedded]];
      try reflexivity; congruence.
Qed.

End RootPath.

Lemma handleRootPath_world (rt : Runtime) url env w :
  snd (handleRootPath rt url env w) = w
  \/ exists shop,
       params_get (searchParams url) "shop" = Some shop
       /\ isValidShopDomain rt (Some (JStr shop)) = true
       /\ snd (handleRootPath rt url env w) = record (EvGet NsSHOPS shop) w.
Proof.
  destruct (params_get (searchParams url) "shop") as [shop|] eqn:Hshop.
  2: { left. unfold handleRootPath. rewrite Hshop. reflexivity. }
  destruct (isValidShopDomain rt (Some (JStr shop))) eqn:Hvalid.
  + right. exists shop. split; [reflexivity|]. split; [exact Hvalid|].
    rewrite (handleRootPath_installed rt url env w shop Hshop Hvalid). reflexivity.
  + left. unfold handleRootPath. rewrite Hshop, Hvalid.
    destruct (String.eqb shop ""); reflexivity.
Qed.

Lemma handleRootPath_upstream_calls (rt : Runtime) url env w :
  upstream_calls (snd (handleRootPath rt url env w)) = upstream_calls w.
Proof.
  destruct (handleRootPath_world rt url env w) as [->|(shop & _ & _ & ->)];
    [reflexivity|].
  rewrite upstream_calls_record. simpl. apply app_nil_r.
Qed.

(** X16. The root path only ever reads: for every request the stores are
    as before and no upstream call is made; the world is either untouched
    or carries one more event, the lookup of the requested domain in the
    merchant store, which happens only for a well-formed domain.  Without
    a shop parameter (or with an empty one) the answer is the landing
    page. *)
Theorem root_path_is_read_only (rt : Runtime) url env w :
  (snd (handleRootPath rt url env w) = w
   \/ exists shop,
        params_get (searchParams url) "shop" = Some shop
        /\ isValidShopDomain rt (Some (JStr shop)) = true
        /\ snd (handleRootPath rt url env w) = record (EvGet NsSHOPS shop) w)
  /\ upstream_calls (snd (handleRootPath rt url env w)) = upstream_calls w
  /\ (params_get (searchParams url) "shop" = None
      \/ params_get (searchParams url) "shop" = Some "" ->
      handleRootPath rt url env w = (Returned LandingPage, w)).
Proof.
  split; [apply handleRootPath_world|].
  split; [apply handleRootPath_upstream_calls|].
  intros [Hshop|Hshop]; unfold handleRootPath; rewrite Hshop; reflexivity.
Qed.

Lemma root_path_is_read_only_witness :
  handleRootPath Fixture.runtime
    {| origin := "https://gateway.example.com"; pathname := "/"; searchParams := [] |}
    Fixture.env Fixture.world_installed
  = (Returned LandingPage, Fixture.world_installed).
Proof.
  apply (proj2 (proj2 (root_path_is_read_only Fixture.runtime
                         {| origin := "https://gateway.example.com";
                            pathname := "/"; searchParams := [] |}
                         Fixture.env Fixture.world_installed))).
  left. reflexivity.
Defined.

(** ** The router *)

Section Router.

Context (rt : Runtime).

Lemma handleOAuth_upstream_calls request env :
  preserves upstream_calls (handleOAuth rt request env).
Proof. unfold handleOAuth. frame. Qed.

Lemma handleExtensionAuth_upstream_calls request env corsHeaders :
  preserves upstream_calls (handleExtensionAuth rt request env corsHeaders).
Proof.
  unfold handleExtensionAuth.
  apply preserves_bind; [unfold destructure; frame|intros shop].
  destruct (negb _); [frame|].
  apply preserves_bind; [frame|intros shopData].
  destruct (negb _); [frame|].
  apply preserves_bind; [frame|intros apiKey].
  apply preserves_bind; [unfold get_member; frame|intros accessToken].
  frame.
Qed.

Lemma handleOAuth_SHOPS request env : preserves SHOPS (handleOAuth rt request env).
Proof. unfold handleOAuth. frame. Qed.

Lemma handleExtensionAuth_SHOPS request env corsHeaders :
  preserves SHOPS (handleExtensionAuth rt request env corsHeaders).
Proof.
  unfold handleExtensionAuth.
  apply preserves_bind; [unfold destructure; frame|intros shop].
  destruct (negb _); [frame|].
  apply preserves_bind; [frame|intros shopData].
  destruct (negb _); [frame|].
  apply preserves_bind; [frame|intros apiKey].
  apply preserves_bind; [unfold get_member; frame|intros accessToken].
  frame.
Qed.

(** The table of routes. *)
Lemma routeRequest_table request url env corsHeaders :
  (pathname url = "/"
   /\ routeRequest rt request url env corsHeaders = handleRootPath rt url env)
  \/ (pathname url = "/auth"
      /\ routeRequest rt request url env corsHeaders = handleOAuth rt request env)
  \/ (pathname url = "/auth/callback"
      /\ routeRequest rt request url env corsHeaders
         = handleOAuthCallback rt request env)
  \/ ((exists topic,
          In topic ["customers/redact"; "shop/redact"; "customers/data_request"]
          /\ pathname url = "/webhooks/" ++ topic
          /\ routeRequest rt request url env corsHeaders
             = handleWebhook rt request env topic))
  \/ (pathname url = "/api/auth"
      /\ routeRequest rt request url env corsHeaders
         = handleExtensionAuth rt request env corsHeaders)
  \/ (pathname url = "/api/proxy"
      /\ routeRequest rt request url env corsHeaders
         = handleAPIProxy rt request env corsHeaders)
  \/ (~ In (pathname url)
          [ "/"; "/auth"; "/auth/callback"; "/webhooks/customers/redact";
            "/webhooks/shop/redact"; "/webhooks/customers/data_request";
            "/api/auth"; "/api/proxy" ]
      /\ routeRequest rt request url env corsHeaders
         = ret (TextResponse "Not Found" 404)).
Proof.
  unfold routeRequest. cbv zeta.
  destruct (String.eqb_spec (pathname url) "/") as [H0|H0]; [left; auto|].
  destruct (String.eqb_spec (pathname url) "/auth") as [H1|H1];
    [right; left; auto|].
  destruct (String.eqb_spec (pathname url) "/auth/callback") as [H2|H2];
    [do 2 right; left; auto|].
  destruct (String.eqb_spec (pathname url) "/webhooks/customers/redact") as [H3|H3].
  { right. right. right. left. exists "customers/redact". simpl. auto. }
  destruct (String.eqb_spec (pathname url) "/webhooks/shop/redact") as [H4|H4].
  { right. right. right. left. exists "shop/redact". simpl. auto. }
  destruct (String.eqb_spec (pathname url) "/webhooks/customers/data_request")
    as [H5|H5].
  { right. right. right. left. exists "customers/data_request". simpl. auto 6. }
  destruct (String.eqb_spec (pathname url) "/api/auth") as [H6|H6];
    [do 4 right; left; auto|].
  destruct (String.eqb_spec (pathname url) "/api/proxy") as [H7|H7];
    [do 5 right; left; auto|].
  do 6 right. split; [|reflexivity].
  simpl. intros [H|[H|[H|[H|[H|[H|[H|[H|[]]]]]]]]]; congruence.
Qed.

End Router.

(** X17. Only two routes ever call the upstream: the OAuth callback and
    the proxy.  On every other path (the root path, the start of the
    OAuth flow, the three webhooks, credential issuance and unknown paths)
    no upstream call is made, whatever the request. *)
Theorem only_callback_and_proxy_call_upstream (rt : Runtime) request url env
    corsHeaders w :
  pathname url <> "/auth/callback" ->
  pathname url <> "/api/proxy" ->
  upstream_calls (snd (routeRequest rt request url env corsHeaders w))
  = upstream_calls w.
Proof.
  intros Hcallback Hproxy.
  destruct (routeRequest_table rt request url env corsHeaders)
    as [[_ ->]|[[_ ->]|[[H _]|[(topic & _ & _ & ->)|[[_ ->]|[[H _]|[_ ->]]]]]]].
  - apply handleRootPath_upstream_calls.
  - apply handleOAuth_upstream_calls.
  - contradiction.
  - apply handleWebhook_upstream_calls.
  - apply handleExtensionAuth_upstream_calls.
  - contradiction.
  - reflexivity.
Qed.

Lemma only_callback_and_proxy_call_upstream_witness :
  upstream_calls
    (snd (routeRequest Fixture.runtime (Fixture.issue_request "shop-a.myshopify.com")
            (req_url (Fixture.issue_request "shop-a.myshopify.com"))
            Fixture.env getCorsHeaders Fixture.world_installed))
  = [].
Proof.
  apply (only_callback_and_proxy_call_upstream Fixture.runtime
           (Fixture.issue_request "shop-a.myshopify.com")
           (req_url (Fixture.issue_request "shop-a.myshopify.com"))
           Fixture.env getCorsHeaders Fixture.world_installed);
    discriminate.
Defined.

(** X18. Whichever route a request takes, an entry of the merchant store
    that the request changed was either written by the OAuth callback,
    which then returned its redirect after the state token matched and the
    signature verified; the upstream call made once the state entry was
    consumed, the token exchange for the domain and the code of the
    request, answered 2xx with a JSON value other than null, and the entry
    is the record of that very answer, stored under the domain of the
    request without expiry; or the entry was deleted by the shop-redaction
    webhook after its signature verified.  No other route writes the
    merchant store. *)
Theorem merchant_store_written_only_by_callback_and_redaction (rt : Runtime)
    request url env corsHeaders w key :
  SHOPS (snd (routeRequest rt request url env corsHeaders w)) !! key
  <> SHOPS w !! key ->
  (pathname url = "/auth/callback"
   /\ verifyShopifyHmac rt (searchParams (req_url request)) (SHOPIFY_API_SECRET env)
      = true
   /\ fromEntries_get (searchParams (req_url request)) "shop" = Some key
   /\ (exists state,
          fromEntries_get (searchParams (req_url request)) "state" = Some state
          /\ kv_get (now w) (AUTH_STATES w) state = Some key)
   /\ fst (routeRequest rt request url env corsHeaders w)
      = Returned (RedirectResponse
                    ("https://" ++ key ++ "/admin/apps/" ++ SHOPIFY_APP_HANDLE env)
                    302)
   /\ exists code state answer tokenData,
        fromEntries_get (searchParams (req_url request)) "code" = Some code
        /\ fromEntries_get (searchParams (req_url request)) "state" = Some state
        /\ fetch rt (length (log (state_consumed state w)))
             (token_exchange_request key code env) = Returned answer
        /\ resp_ok answer = true
        /\ resp_json answer = Returned tokenData
        /\ tokenData <> JNull
        /\ SHOPS (snd (routeRequest rt request url env corsHeaders w)) !! key
           = Some {| kv_value :=
                       merchant_record_of tokenData (toISOString rt (now w));
                     kv_expiration := None |})
  \/ (pathname url = "/webhooks/shop/redact"
      /\ verifyWebhookHmac (req_body request) (req_X_Shopify_Hmac_Sha256 request)
           (SHOPIFY_API_SECRET env) = true
      /\ SHOPS (snd (routeRequest rt request url env corsHeaders w)) !! key = None).
Proof.
  intros Hchanged.
  destruct (routeRequest_table rt request url env corsHeaders)
    as [[_ Hr]|[[_ Hr]|[[Hpath Hr]|[(topic & _ & Hpath & Hr)|[[_ Hr]|[[_ Hr]|[_ Hr]]]]]]];
    rewrite Hr in *; clear Hr.
  - rewrite (handleRootPath_preserves rt SHOPS) in Hchanged by reflexivity.
    contradiction.
  - rewrite handleOAuth_SHOPS in Hchanged. contradiction.
  - left. split; [exact Hpath|].
    pose proof (handleOAuthCallback_outcome rt request env w _ _
                  (surjective_pairing _)) as Hrun.
    destruct (fst (handleOAuthCallback rt request env w)) as [response|e].
    + destruct Hrun as (code & shop & state & hmac & answer & tokenData & Hreq & Hstate
                        & Hsig & Hfetch & Hok & Hjson & Hnull & _ & Hshops & ->).
      rewrite Hshops in *. unfold kv_put in *.
      destruct (decide (key = shop)) as [->|Hne].
      2: { rewrite lookup_insert_ne in Hchanged by congruence. contradiction. }
      split; [exact Hsig|].
      destruct Hreq as (Hcode & Hshop & Hst & _).
      split; [exact Hshop|]. split; [eauto|]. split; [reflexivity|].
      exists code, state, answer, tokenData.
      split; [exact Hcode|]. split; [exact Hst|]. split; [exact Hfetch|].
      split; [exact Hok|]. split; [exact Hjson|]. split; [exact Hnull|].
      apply lookup_insert_eq.
    + destruct Hrun as (Hshops & _). rewrite Hshops in Hchanged. contradiction.
  - right.
    destruct (handleWebhook_world rt request env topic w)
      as [Hsame|(-> & Hv & data & _ & _ & Hrun)].
    { rewrite Hsame in Hchanged. contradiction. }
    split; [exact Hpath|]. split; [exact Hv|].
    rewrite Hrun in *. cbn [snd SHOPS record set_SHOPS] in *. unfold kv_delete in *.
    destruct (decide (key = template rt (member data "shop_domain"))) as [->|Hne].
    + apply lookup_delete_eq.
    + rewrite lookup_delete_ne in Hchanged by congruence. contradiction.
  - rewrite handleExtensionAuth_SHOPS in Hchanged. contradiction.
  - rewrite (handleAPIProxy_preserves rt SHOPS) in Hchanged by reflexivity.
    contradiction.
  - cbn [snd ret] in Hchanged. contradiction.
Qed.

Lemma merchant_store_written_only_by_callback_and_redaction_witness :
  SHOPS
    (snd (routeRequest Fixture.runtime Fixture.redact_request
            (req_url Fixture.redact_request) Fixture.env getCorsHeaders
            Fixture.world_installed)) !! "shop-a.myshopify.com" = None
  /\ SHOPS
       (snd (routeRequest Fixture.runtime
               (Fixture.callback_request "shop-a.myshopify.com")
               (req_url (Fixture.callback_request "shop-a.myshopify.com"))
               Fixture.env getCorsHeaders Fixture.world_with_state))
     !! "shop-a.myshopify.com"
     = Some (Fixture.kv_entry Fixture.merchant_record None).
Proof.
  split.
  - destruct (merchant_store_written_only_by_callback_and_redaction Fixture.runtime
                Fixture.redact_request (req_url Fixture.redact_request) Fixture.env
                getCorsHeaders Fixture.world_installed "shop-a.myshopify.com")
      as [(Hpath & _)|(_ & _ & Hgone)].
    + vm_compute. discriminate.
    + discriminate Hpath.
    + exact Hgone.
  - destruct (merchant_store_written_only_by_callback_and_redaction Fixture.runtime
                (Fixture.callback_request "shop-a.myshopify.com")
                (req_url (Fixture.callback_request "shop-a.myshopify.com"))
                Fixture.env getCorsHeaders Fixture.world_with_state
                "shop-a.myshopify.com")
      as [(_ & _ & _ & _ & _ & code & state & answer & tokenData & Hcode & Hstate
           & Hfetch & _ & Hjson & _ & Hentry)|(Hpath & _)].
    + vm_compute. discriminate.
    + rewrite Hentry.
      assert (code = "c0de") as -> by (vm_compute in Hcode; congruence).
      assert (state = "st-1") as -> by (vm_compute in Hstate; congruence).
      assert (answer
              = {| resp_status := 200;
                   resp_json := Returned (JObj [ ("access_token", JStr "shpat_1");
                                                 ("scope", JStr "read_orders") ]) |})
        as -> by (vm_compute in Hfetch; congruence).
      assert (tokenData = JObj [ ("access_token", JStr "shpat_1");
                                 ("scope", JStr "read_orders") ])
        as -> by (simpl in Hjson; congruence).
      reflexivity.
    + discriminate Hpath.
Defined.

(** X19. A path that is none of the eight routes is answered 404 "Not
    Found" and nothing happens; and the router never looks at the method
    of the request: the same path, parameters, headers and body get the
    same treatment under any method. *)
Theorem unknown_path_is_404_and_method_is_ignored (rt : Runtime) request url env
    corsHeaders w :
  (~ In (pathname url)
       [ "/"; "/auth"; "/auth/callback"; "/webhooks/customers/redact";
         "/webhooks/shop/redact"; "/webhooks/customers/data_request";
         "/api/auth"; "/api/proxy" ] ->
   routeRequest rt request url env corsHeaders w
   = (Returned (TextResponse "Not Found" 404), w))
  /\ (forall method,
         routeRequest rt
           {| req_method := method;
              req_url := req_url request;
              req_Authorization := req_Authorization request;
              req_X_Shopify_Hmac_Sha256 := req_X_Shopify_Hmac_Sha256 request;
              req_body := req_body request |}
           url env corsHeaders w
         = routeRequest rt request url env corsHeaders w).
Proof.
  split.
  - intros Hpath.
    destruct (routeRequest_table rt request url env corsHeaders)
      as [[H _]|[[H _]|[[H _]|[(topic & Htopic & H & _)|[[H _]|[[H _]|[_ ->]]]]]]];
      [..|reflexivity]; exfalso; apply Hpath; rewrite H; simpl; auto 10.
    simpl in Htopic. destruct Htopic as [<-|[<-|[<-|[]]]]; simpl; auto 10.
  - intros method. reflexivity.
Qed.

Lemma unknown_path_is_404_and_method_is_ignored_witness :
  routeRequest Fixture.runtime (Fixture.get_request "/admin" [])
    (req_url (Fixture.get_request "/admin" [])) Fixture.env getCorsHeaders
    Fixture.world_installed
  = (Returned (TextResponse "Not Found" 404), Fixture.world_installed).
Proof.
  apply (proj1 (unknown_path_is_404_and_method_is_ignored Fixture.runtime
                  (Fixture.get_request "/admin" [])
                  (req_url (Fixture.get_request "/admin" [])) Fixture.env getCorsHeaders
                  Fixture.world_installed)).
  simpl. intros [H|[H|[H|[H|[H|[H|[H|[H|[]]]]]]]]]; discriminate H.
Defined.

(** ** The worker *)

Section Worker.

Context (rt : Runtime).

Lemma validateEnvironment_configured env w :
  SHOPIFY_API_KEY env <> "" ->
  SHOPIFY_API_SECRET env <> "" ->
  validateEnvironment env w = (Returned tt, w).
Proof.
  intros Hkey Hsecret. unfold validateEnvironment.
  destruct (String.eqb_spec (SHOPIFY_API_KEY env) ""); [contradiction|].
  destruct (String.eqb_spec (SHOPIFY_API_SECRET env) ""); [contradiction|].
  reflexivity.
Qed.

Lemma worker_fetch_configured request env w :
  SHOPIFY_API_KEY env <> "" ->
  SHOPIFY_API_SECRET env <> "" ->
  worker_fetch rt request env w
  = if String.eqb (req_method request) "OPTIONS"
    then (Returned (PreflightResponse getCorsHeaders), w)
    else
      (match fst (routeRequest rt request (req_url request) env getCorsHeaders w) with
       | Returned response => Returned response
       | Threw e => Returned (handleError e)
       end,
       snd (routeRequest rt request (req_url request) env getCorsHeaders w)).
Proof.
  intros Hkey Hsecret. unfold worker_fetch, try_catch, bind.
  rewrite (validateEnvironment_configured env w Hkey Hsecret).
  destruct (String.eqb (req_method request) "OPTIONS"); [reflexivity|].
  destruct (routeRequest rt request (req_url request) env getCorsHeaders w)
    as [[response|e] w']; reflexivity.
Qed.

Lemma worker_fetch_misconfigured request env w :
  SHOPIFY_API_KEY env = "" \/ SHOPIFY_API_SECRET env = "" ->
  worker_fetch rt request env w
  = (Returned
       (HtmlErrorPage 500
          ("Missing required environment variables: "
           ++ join ", "
                ((if String.eqb (SHOPIFY_API_KEY env) "" then ["SHOPIFY_API_KEY"] else [])
                 ++ (if String.eqb (SHOPIFY_API_SECRET env) ""
                     then ["SHOPIFY_API_SECRET"] else []))%list)),
     w).
Proof.
  intros Hmissing. unfold worker_fetch, validateEnvironment, try_catch, bind.
  destruct (String.eqb_spec (SHOPIFY_API_KEY env) "") as [Hkey|Hkey];
    destruct (String.eqb_spec (SHOPIFY_API_SECRET env) "") as [Hsecret|Hsecret];
    try reflexivity.
  destruct Hmissing; contradiction.
Qed.

End Worker.

(** X20. The worker answers every request with a response: it never
    throws, whatever the request, the configuration, the stores and the
    behaviour of the upstream. *)
Theorem worker_always_answers (rt : Runtime) request env w :
  exists response, fst (worker_fetch rt request env w) = Returned response.
Proof.
  destruct (String.eqb_spec (SHOPIFY_API_KEY env) "") as [Hkey|Hkey].
  { rewrite worker_fetch_misconfigured by auto. eauto. }
  destruct (String.eqb_spec (SHOPIFY_API_SECRET env) "") as [Hsecret|Hsecret].
  { rewrite worker_fetch_misconfigured by auto. eauto. }
  rewrite worker_fetch_configured by assumption.
  destruct (String.eqb (req_method request) "OPTIONS"); [eauto|].
  cbn [fst]. destruct (fst (routeRequest _ _ _ _ _ _)); eauto.
Qed.

(** X21. With the client id and the client secret configured, a request
    that is not a preflight is answered by its route, and what a route
    throws becomes a response: an AuthenticationError becomes a JSON
    object with the message as error, under the status of the error (401
    for a webhook signature or a refused token exchange, 403 for the state
    and the signature of the callback); a ValidationError or a
    ConfigurationError becomes an HTML error page under its status; any
    other error (a TypeError, a SyntaxError, a failed fetch) becomes a
    JSON error under status 500 that carries the message of the error.
    The effects on the world are those of the route. *)
Theorem worker_reports_what_a_route_throws (rt : Runtime) request env w :
  SHOPIFY_API_KEY env <> "" ->
  SHOPIFY_API_SECRET env <> "" ->
  req_method request <> "OPTIONS" ->
  snd (worker_fetch rt request env w)
  = snd (routeRequest rt request (req_url request) env getCorsHeaders w)
  /\ (forall response,
         fst (routeRequest rt request (req_url request) env getCorsHeaders w)
         = Returned response ->
         fst (worker_fetch rt request env w) = Returned response)
  /\ (forall message status,
         fst (routeRequest rt request (req_url request) env getCorsHeaders w)
         = Threw (AuthenticationError message status) ->
         message <> "" -> status <> 0 ->
         fst (worker_fetch rt request env w)
         = Returned (JsonResponse (JObj [("error", JStr message)]) status
                       [("Content-Type", "application/json")]))
  /\ (forall message status,
         (fst (routeRequest rt request (req_url request) env getCorsHeaders w)
          = Threw (ValidationError message status)
          \/ fst (routeRequest rt request (req_url request) env getCorsHeaders w)
             = Threw (ConfigurationError message status)) ->
         message <> "" -> status <> 0 ->
         fst (worker_fetch rt request env w) = Returned (HtmlErrorPage status message))
  /\ (forall name message,
         fst (routeRequest rt request (req_url request) env getCorsHeaders w)
         = Threw (PlatformError name message) ->
         message <> "" ->
         fst (worker_fetch rt request env w)
         = Returned (JsonResponse (JObj [("error", JStr message)]) 500
                       [("Content-Type", "application/json")])).
Proof.
  intros Hkey Hsecret Hmethod.
  rewrite (worker_fetch_configured rt request env w Hkey Hsecret).
  destruct (String.eqb_spec (req_method request) "OPTIONS"); [contradiction|].
  cbn [fst snd]. split; [reflexivity|].
  split; [intros response ->; reflexivity|].
  split.
  { intros message status -> Hmessage Hstatus. unfold handleError.
    cbn [error_message].
    destruct (String.eqb_spec message ""); [contradiction|].
    destruct (Z.eqb_spec status 0); [contradiction|]. reflexivity. }
  split.
  { intros message status [-> | ->] Hmessage Hstatus; unfold handleError;
      cbn [error_message];
      (destruct (String.eqb_spec message ""); [contradiction|]);
      (destruct (Z.eqb_spec status 0); [contradiction|]); reflexivity. }
  intros name message -> Hmessage. unfold handleError. cbn [error_message].
  destruct (String.eqb_spec message ""); [contradiction|]. reflexivity.
Qed.

Lemma worker_reports_what_a_route_throws_witness :
  fst (worker_fetch Fixture.runtime
         (Fixture.post_request "/webhooks/shop/redact" None (Some "Zm9yZ2Vk")
            Fixture.redact_body)
         Fixture.env Fixture.world_installed)
  = Returned (JsonResponse (JObj [("error", JStr "Invalid webhook signature")]) 401
                [("Content-Type", "application/json")])
  /\ fst (worker_fetch Fixture.runtime
            (Fixture.get_request "/auth" [("shop", "evil.example.com")])
            Fixture.env Fixture.world_installed)
     = Returned (HtmlErrorPage 400 "Invalid shop domain").
Proof.
  split.
  - refine (proj1 (proj2 (proj2 (worker_reports_what_a_route_throws Fixture.runtime
                                   (Fixture.post_request "/webhooks/shop/redact" None
                                      (Some "Zm9yZ2Vk") Fixture.redact_body)
                                   Fixture.env Fixture.world_installed _ _ _)))
              "Invalid webhook signature" 401 _ _ _);
      try discriminate. vm_compute. reflexivity.
  - refine (proj1 (proj2 (proj2 (proj2 (worker_reports_what_a_route_throws
                                          Fixture.runtime
                                          (Fixture.get_request "/auth"
                                             [("shop", "evil.example.com")])
                                          Fixture.env Fixture.world_installed _ _ _))))
              "Invalid shop domain" 400 _ _ _);
      try discriminate. left. vm_compute. reflexivity.
Defined.

(** X22. Two kinds of requests never reach a route.  When the client id
    or the client secret is not configured, every request, a preflight
    included, is answered with the HTML error page 500 that names the
    missing variables.  With both configured, a request with the method
    OPTIONS is answered with the preflight response carrying the three
    CORS headers, on every path and whatever its signature or body.  In
    both cases the world is untouched. *)
Theorem worker_shortcuts_touch_nothing (rt : Runtime) request env w :
  (SHOPIFY_API_KEY env = "" \/ SHOPIFY_API_SECRET env = "" ->
   exists names,
     worker_fetch rt request env w
     = (Returned (HtmlErrorPage 500
                    ("Missing required environment variables: " ++ join ", " names)),
        w)
     /\ (In "SHOPIFY_API_KEY" names <-> SHOPIFY_API_KEY env = "")
     /\ (In "SHOPIFY_API_SECRET" names <-> SHOPIFY_API_SECRET env = ""))
  /\ (SHOPIFY_API_KEY env <> "" -> SHOPIFY_API_SECRET env <> "" ->
      req_method request = "OPTIONS" ->
      worker_fetch rt request env w
      = (Returned
           (PreflightResponse
              [ ("Access-Control-Allow-Origin", "*");
                ("Access-Control-Allow-Methods", "GET, POST, OPTIONS");
                ("Access-Control-Allow-Headers",
                 "Content-Type, Authorization, X-API-Key") ]),
         w)).
Proof.
  split.
  - intros Hmissing. eexists. split; [apply worker_fetch_misconfigured; exact Hmissing|].
    destruct (String.eqb_spec (SHOPIFY_API_KEY env) "") as [Hkey|Hkey];
      destruct (String.eqb_spec (SHOPIFY_API_SECRET env) "") as [Hsecret|Hsecret];
      simpl; split; split; intros H; auto;
      repeat (destruct H as [H|H]; try discriminate H); try contradiction.
  - intros Hkey Hsecret Hmethod.
    rewrite (worker_fetch_configured rt request env w Hkey Hsecret), Hmethod.
    reflexivity.
Qed.

Lemma worker_shortcuts_touch_nothing_witness :
  worker_fetch Fixture.runtime
    {| req_method := "OPTIONS";
       req_url := {| origin := "https://gateway.example.com";
                     pathname := "/webhooks/shop/redact"; searchParams := [] |};
       req_Authorization := None;
       req_X_Shopify_Hmac_Sha256 := None;
       req_body := "" |}
    Fixture.env Fixture.world_installed
  = (Returned (PreflightResponse getCorsHeaders), Fixture.world_installed).
Proof.
  apply (proj2 (worker_shortcuts_touch_nothing Fixture.runtime
                  {| req_method := "OPTIONS";
                     req_url := {| origin := "https://gateway.example.com";
                                   pathname := "/webhooks/shop/redact";
                                   searchParams := [] |};
                     req_Authorization := None;
                     req_X_Shopify_Hmac_Sha256 := None;
                     req_body := "" |}
                  Fixture.env Fixture.world_installed));
    [discriminate|discriminate|reflexivity].
Defined.

(** ** The verifiers and the helpers of lib/utils.js, as functions *)

Lemma btoa_bytes_nonempty l : l <> [] -> btoa_bytes l <> "".
Proof. destruct l as [|a [|b [|c rest]]]; [congruence|discriminate..]. Qed.

Lemma code_units_fromCharCodes_length l :
  length (code_units (fromCharCodes l)) = length l.
Proof.
  unfold code_units, fromCharCodes.
  rewrite list_ascii_of_string_of_list_ascii, !length_map. reflexivity.
Qed.

Lemma btoa_digest_nonempty key msg : btoa (fromCharCodes (Sha256.hmac key msg)) <> "".
Proof.
  unfold btoa. apply btoa_bytes_nonempty. intros Hnil.
  apply (f_equal (@length Z)) in Hnil.
  rewrite code_units_fromCharCodes_length, hmac_length in Hnil. discriminate.
Qed.

(** X23. The webhook verifier accepts exactly one signature for a body:
    it says yes if and only if the body and the secret are not empty and
    the header is the standard base64 text of the HMAC-SHA256 of the UTF-8
    body under the UTF-8 secret.  A missing header, an empty body and an
    empty secret are refused. *)
Theorem verifyWebhookHmac_accepts_exactly_the_signature body hmac secret :
  verifyWebhookHmac body hmac secret = true
  <-> body <> "" /\ secret <> ""
      /\ hmac = Some (btoa (fromCharCodes
                               (Sha256.hmac (TextEncoder_encode secret)
                                  (TextEncoder_encode body)))).
Proof.
  rewrite verifyWebhookHmac_true_iff. split.
  - intros (Hbody & Hsecret & Hhmac & _). auto.
  - intros (Hbody & Hsecret & Hhmac). repeat split; try assumption.
    rewrite Hhmac. intros [= Hempty]. exact (btoa_digest_nonempty _ _ Hempty).
Qed.

Lemma prefix_app p s : String.prefix p s = true <-> exists t, s = p ++ t.
Proof.
  revert s. induction p as [|c p IH]; intros s.
  - split; [intros _; exists s; rewrite append_Empty; reflexivity|].
    intros _. destruct s; reflexivity.
  - destruct s as [|d s]; simpl.
    + split; [discriminate|]. intros (t & Ht). rewrite append_String in Ht. discriminate.
    + destruct (Ascii.ascii_dec c d) as [->|Hne].
      * rewrite IH. split; intros (t & Ht); exists t.
        -- rewrite append_String. congruence.
        -- rewrite append_String in Ht. congruence.
      * split; [discriminate|]. intros (t & Ht). rewrite append_String in Ht.
        congruence.
Qed.

Lemma substring_all s : String.substring 0 (String.length s) s = s.
Proof. induction s as [|c s IH]; simpl; [reflexivity|]. rewrite IH. reflexivity. Qed.

Lemma substring_from_app p t : substring_from (String.length p) (p ++ t) = t.
Proof.
  unfold substring_from. induction p as [|c p IH].
  - rewrite append_Empty. simpl. rewrite Nat.sub_0_r. apply substring_all.
  - rewrite append_String. simpl. exact IH.
Qed.

(** X24. The client key is read from the Authorization header and from
    nowhere else: [extractApiKey] yields a key exactly when the header is
    the text "Bearer " followed by that key; a missing header and any
    other scheme or spelling yield nothing. *)
Theorem extractApiKey_reads_the_bearer_token request k :
  extractApiKey request = Some k
  <-> req_Authorization request = Some ("Bearer " ++ k).
Proof.
  unfold extractApiKey, startsWith.
  destruct (req_Authorization request) as [authHeader|]; [|split; discriminate].
  destruct (String.prefix "Bearer " authHeader) eqn:Hprefix.
  - apply prefix_app in Hprefix as (t & ->).
    assert (String.eqb ("Bearer " ++ t) "" = false) as -> by reflexivity.
    cbn [negb andb].
    change 7%nat with (String.length "Bearer ").
    rewrite substring_from_app. split.
    + intros [= ->]. reflexivity.
    + intros [= Heq]. f_equal. exact Heq.
  - rewrite andb_false_r. split; [discriminate|]. intros [= ->].
    assert (String.prefix "Bearer " ("Bearer " ++ k) = true) as Habs
      by (apply prefix_app; eauto).
    congruence.
Qed.

Lemma all_in_app p s t : all_in p (s ++ t) = all_in p s && all_in p t.
Proof.
  induction s as [|c s IH].
  - rewrite append_Empty. reflexivity.
  - rewrite append_String. simpl. rewrite IH, andb_assoc. reflexivity.
Qed.

Lemma all_in_impl (p q : ascii -> bool) s :
  (forall c, p c = true -> q c = true) -> all_in p s = true -> all_in q s = true.
Proof.
  intros Hpq. induction s as [|c s IH]; simpl; [reflexivity|].
  rewrite !andb_true_iff. intros [Hc Hs]. auto.
Qed.

(** X25. The domain rule, on text: a domain is accepted exactly when it is
    one alphanumeric character, then any number of alphanumeric characters
    and dashes, then ".myshopify.com", with nothing before and nothing
    after.  So an accepted domain holds letters, digits, dashes and dots
    only, no slash, colon, at-sign or space; a missing domain and the
    empty text are refused. *)
Theorem isValidShopDomain_accepts_exactly (rt : Runtime) s :
  (isValidShopDomain rt (Some (JStr s)) = true
   <-> exists c label,
         s = String c (label ++ ".myshopify.com")
         /\ is_alnum c = true /\ all_in is_alnum_dash label = true)
  /\ (isValidShopDomain rt (Some (JStr s)) = true ->
      all_in (fun ch => is_alnum_dash ch || Ascii.eqb ch ".") s = true)
  /\ isValidShopDomain rt None = false
  /\ isValidShopDomain rt (Some (JStr "")) = false
  /\ isValidShopDomain rt (Some JNull) = false.
Proof.
  assert (isValidShopDomain rt (Some (JStr s)) = true
          <-> exists c label,
                s = String c (label ++ ".myshopify.com")
                /\ is_alnum c = true /\ all_in is_alnum_dash label = true) as Hiff.
  { rewrite (isValidShopDomain_matches rt), <- regex_test_correct.
    apply shop_domain_regex_correct. }
  split; [exact Hiff|]. split; [|repeat split].
  intros Hvalid. apply Hiff in Hvalid as (c & label & -> & Hc & Hlabel).
  simpl. rewrite all_in_app. rewrite !andb_true_iff. split; [|split].
  - unfold is_alnum_dash. rewrite Hc. reflexivity.
  - apply (all_in_impl is_alnum_dash); [|exact Hlabel].
    intros ch ->. reflexivity.
  - vm_compute. reflexivity.
Qed.

Section SignatureParameters.

Context (rt : Runtime).

Lemma params_get_app (l1 l2 : URLSearchParams) name :
  params_get (l1 ++ l2)%list name
  = match params_get l1 name with
    | Some v => Some v
    | None => params_get l2 name
    end.
Proof.
  induction l1 as [|[k v] l1 IH]; simpl; [reflexivity|].
  destruct (String.eqb k name); [reflexivity|exact IH].
Qed.

Lemma params_delete_app (l1 l2 : URLSearchParams) name :
  params_delete (l1 ++ l2)%list name = (params_delete l1 name ++ params_delete l2 name)%list.
Proof. unfold params_delete. apply List.filter_app. Qed.

Lemma params_delete_comm l a b :
  params_delete (params_delete l a) b = params_delete (params_delete l b) a.
Proof.
  unfold params_delete. induction l as [|p l IH]; simpl; [reflexivity|].
  destruct (String.eqb (fst p) a) eqn:Ea; destruct (String.eqb (fst p) b) eqn:Eb;
    simpl; rewrite ?Ea, ?Eb; simpl; rewrite IH; reflexivity.
Qed.

End SignatureParameters.

(** X26. A parameter named signature never takes part in the verification
    of the authorization signature: adding one, changing its value or
    removing it, wherever it stands in the query, leaves the verdict as it
    is.  Likewise every hmac parameter after the first is dropped: the
    first one is the signature that is compared, the others change
    nothing. *)
Theorem verifyShopifyHmac_ignores_signature_parameter (rt : Runtime)
    (l1 l2 : URLSearchParams) v secret :
  verifyShopifyHmac rt (l1 ++ ("signature", v) :: l2)%list secret
  = verifyShopifyHmac rt (l1 ++ l2)%list secret
  /\ (forall first,
         params_get l1 "hmac" = Some first ->
         verifyShopifyHmac rt (l1 ++ ("hmac", v) :: l2)%list secret
         = verifyShopifyHmac rt (l1 ++ l2)%list secret).
Proof.
  split.
  - unfold verifyShopifyHmac.
    rewrite !params_get_app. cbn [params_get].
    change (String.eqb "signature" "hmac") with false. cbv iota.
    rewrite (params_delete_app l1 (("signature", v) :: l2) "hmac").
    rewrite (params_delete_app l1 l2 "hmac").
    rewrite !params_delete_app.
    replace (params_delete (params_delete (("signature", v) :: l2) "hmac") "signature")
      with (params_delete (params_delete l2 "hmac") "signature")
      by reflexivity.
    reflexivity.
  - intros first Hfirst. unfold verifyShopifyHmac.
    rewrite !params_get_app, Hfirst.
    rewrite (params_delete_app l1 (("hmac", v) :: l2) "hmac").
    rewrite (params_delete_app l1 l2 "hmac").
    replace (params_delete (("hmac", v) :: l2) "hmac") with (params_delete l2 "hmac")
      by reflexivity.
    reflexivity.
Qed.

Lemma verifyShopifyHmac_ignores_signature_parameter_witness :
  verifyShopifyHmac Fixture.runtime
    (("signature", "forged") :: Fixture.signed (Fixture.callback_params "shop-a.myshopify.com"))
    "s3cr3t"
  = true.
Proof.
  refine (eq_trans
            (proj1 (verifyShopifyHmac_ignores_signature_parameter Fixture.runtime
                      [] (Fixture.signed (Fixture.callback_params "shop-a.myshopify.com"))
                      "forged" "s3cr3t")) _).
  vm_compute. reflexivity.
Defined.

(** ** The order of the parameters does not matter *)

Section ParameterOrder.

Context (rt : Runtime).

Lemma In_same_key (l : URLSearchParams) p q :
  List.NoDup (map fst l) -> In p l -> In q l -> fst p = fst q -> p = q.
Proof.
  induction l as [|x l IH]; simpl; [contradiction|].
  intros Hnodup Hp Hq Hkey. apply NoDup_cons_iff in Hnodup as [Hx Hl].
  destruct Hp as [->|Hp], Hq as [->|Hq].
  - reflexivity.
  - exfalso. apply Hx. rewrite Hkey. apply in_map. exact Hq.
  - exfalso. apply Hx. rewrite <- Hkey. apply in_map. exact Hp.
  - apply IH; assumption.
Qed.

Lemma params_get_In (l : URLSearchParams) name v :
  List.NoDup (map fst l) -> params_get l name = Some v <-> In (name, v) l.
Proof.
  induction l as [|[k u] l IH]; simpl.
  - intros _. split; [discriminate|contradiction].
  - intros Hnodup. apply NoDup_cons_iff in Hnodup as [Hk Hl].
    destruct (String.eqb_spec k name) as [->|Hne].
    + split.
      * intros [= ->]. left. reflexivity.
      * intros [[= ->]|Hin]; [reflexivity|].
        exfalso. apply Hk. change name with (fst (name, v)). apply in_map. exact Hin.
    + rewrite (IH Hl). split; [auto|]. intros [[= Heq _]|Hin]; [contradiction|exact Hin].
Qed.

Lemma params_get_Permutation (l l' : URLSearchParams) name :
  List.NoDup (map fst l) -> Permutation l l' -> params_get l name = params_get l' name.
Proof.
  intros Hnodup Hperm.
  assert (List.NoDup (map fst l')) as Hnodup'
    by (eapply Permutation_NoDup; [apply Permutation_map; exact Hperm|exact Hnodup]).
  destruct (params_get l name) as [v|] eqn:Hl.
  - symmetry. apply (params_get_In l' name v Hnodup').
    eapply Permutation_in; [exact Hperm|]. apply (params_get_In l name v Hnodup).
    exact Hl.
  - destruct (params_get l' name) as [v|] eqn:Hl'; [|reflexivity].
    apply (params_get_In l' name v Hnodup') in Hl'.
    apply (Permutation_in _ (Permutation_sym Hperm)) in Hl'.
    apply (params_get_In l name v Hnodup) in Hl'. congruence.
Qed.

Lemma params_delete_Permutation (l l' : URLSearchParams) name :
  Permutation l l' -> Permutation (params_delete l name) (params_delete l' name).
Proof.
  unfold params_delete. induction 1 as [|x l l' _ IH|x y l|l l' l'' _ IH1 _ IH2]; simpl.
  - constructor.
  - destruct (negb _); [constructor|]; exact IH.
  - destruct (negb (String.eqb (fst x) name)), (negb (String.eqb (fst y) name));
      try apply Permutation_refl. apply perm_swap.
  - eapply perm_trans; eassumption.
Qed.

Lemma params_delete_NoDup (l : URLSearchParams) name :
  List.NoDup (map fst l) -> List.NoDup (map fst (params_delete l name)).
Proof.
  unfold params_delete. induction l as [|x l IH]; simpl; [auto|].
  intros Hnodup. apply NoDup_cons_iff in Hnodup as [Hx Hl].
  destruct (negb _); [|auto]. simpl. apply NoDup_cons_iff. split; [|auto].
  intros Hin. apply Hx. apply in_map_iff in Hin as (p & Hp & Hin).
  apply List.filter_In in Hin as [Hin _]. rewrite <- Hp. apply in_map. exact Hin.
Qed.

(** Two sorted lists with the same entries, under distinct keys that the
    collation tells apart, are the same list. *)
Lemma sorted_Permutation_eq (l1 : URLSearchParams) :
  forall l2,
    StronglySorted (key_le rt) l1 ->
    StronglySorted (key_le rt) l2 ->
    Permutation l1 l2 ->
    List.NoDup (map fst l1) ->
    (forall p q,
        In p l1 -> In q l1 ->
        localeCompare rt (fst p) (fst q) <= 0 ->
        localeCompare rt (fst q) (fst p) <= 0 -> fst p = fst q) ->
    l1 = l2.
Proof.
  induction l1 as [|x l1 IH]; intros l2 Hs1 Hs2 Hperm Hnodup Hanti.
  - apply Permutation_nil in Hperm. congruence.
  - destruct l2 as [|y l2].
    { apply Permutation_sym, Permutation_nil in Hperm. discriminate. }
    apply StronglySorted_inv in Hs1 as [Hs1 Hx].
    apply StronglySorted_inv in Hs2 as [Hs2 Hy].
    assert (x = y) as <-.
    { assert (In x (y :: l2)) as Hxin
        by (eapply Permutation_in; [exact Hperm|left; reflexivity]).
      assert (In y (x :: l1)) as Hyin
        by (eapply Permutation_in; [apply Permutation_sym; exact Hperm|left; reflexivity]).
      destruct Hxin as [->|Hxin]; [reflexivity|].
      destruct Hyin as [->|Hyin]; [reflexivity|].
      apply (In_same_key (x :: l1)); [exact Hnodup|left; reflexivity|right; exact Hyin|].
      apply Hanti; [left; reflexivity|right; exact Hyin| |].
      - rewrite List.Forall_forall in Hx. apply Hx. exact Hyin.
      - rewrite List.Forall_forall in Hy. apply Hy. exact Hxin. }
    f_equal. apply IH.
    + exact Hs1.
    + exact Hs2.
    + eapply Permutation_cons_inv. exact Hperm.
    + simpl in Hnodup. apply NoDup_cons_iff in Hnodup. apply Hnodup.
    + intros p q Hp Hq. apply Hanti; right; assumption.
Qed.

Lemma Array_sort_Permutation_eq (l l' : URLSearchParams) :
  collation_total rt ->
  collation_transitive rt ->
  Permutation l l' ->
  List.NoDup (map fst l) ->
  (forall p q,
      In p l -> In q l ->
      localeCompare rt (fst p) (fst q) <= 0 ->
      localeCompare rt (fst q) (fst p) <= 0 -> fst p = fst q) ->
  Array_sort (fun a b => localeCompare rt (fst a) (fst b)) l
  = Array_sort (fun a b => localeCompare rt (fst a) (fst b)) l'.
Proof.
  intros Htotal Htrans Hperm Hnodup Hanti.
  set (compare := fun a b : string * string => localeCompare rt (fst a) (fst b)).
  assert (forall x y, compare x y <= 0 \/ compare y x <= 0) as Ht
    by (intros x y; apply Htotal).
  assert (forall x y z, compare x y <= 0 -> compare y z <= 0 -> compare x z <= 0) as Htr
    by (intros x y z; apply Htrans).
  apply sorted_Permutation_eq.
  - apply (Array_sort_StronglySorted compare Ht Htr).
  - apply (Array_sort_StronglySorted compare Ht Htr).
  - eapply perm_trans; [apply Permutation_sym, Array_sort_Permutation|].
    eapply perm_trans; [exact Hperm|]. apply Array_sort_Permutation.
  - eapply Permutation_NoDup; [|exact Hnodup].
    apply Permutation_map. apply Array_sort_Permutation.
  - intros p q Hp Hq. apply Hanti.
    + eapply Permutation_in; [apply Permutation_sym, Array_sort_Permutation|exact Hp].
    + eapply Permutation_in; [apply Permutation_sym, Array_sort_Permutation|exact Hq].
Qed.

End ParameterOrder.

(** X27. The verdict on the authorization signature does not depend on
    the order in which the parameters arrive: for parameters with distinct
    names, and a collation that is a total preorder and tells the names of
    the request apart, every reordering of the query gets the same
    verdict. *)
Theorem verifyShopifyHmac_order_independent (rt : Runtime) params params' secret :
  collation_total rt ->
  collation_transitive rt ->
  (forall a b,
      In a (map fst params) -> In b (map fst params) ->
      localeCompare rt a b <= 0 -> localeCompare rt b a <= 0 -> a = b) ->
  List.NoDup (map fst params) ->
  Permutation params params' ->
  verifyShopifyHmac rt params' secret = verifyShopifyHmac rt params secret.
Proof.
  intros Htotal Htrans Hanti Hnodup Hperm. unfold verifyShopifyHmac.
  rewrite <- (params_get_Permutation params params' "hmac" Hnodup Hperm).
  destruct (params_get params "hmac") as [providedHmac|]; [|reflexivity].
  destruct (String.eqb providedHmac ""); [reflexivity|].
  cbv zeta.
  rewrite (Array_sort_Permutation_eq rt
             (params_delete (params_delete params "hmac") "signature")
             (params_delete (params_delete params' "hmac") "signature")
             Htotal Htrans).
  - reflexivity.
  - apply params_delete_Permutation, params_delete_Permutation. exact Hperm.
  - apply params_delete_NoDup, params_delete_NoDup. exact Hnodup.
  - intros p q Hp Hq. apply Hanti; apply in_map.
    + apply params_delete_In in Hp as [Hp _]. apply params_delete_In in Hp as [Hp _].
      exact Hp.
    + apply params_delete_In in Hq as [Hq _]. apply params_delete_In in Hq as [Hq _].
      exact Hq.
Qed.

Lemma verifyShopifyHmac_order_independent_witness :
  verifyShopifyHmac Fixture.runtime
    (rev (Fixture.signed (Fixture.callback_params "shop-a.myshopify.com"))) "s3cr3t"
  = verifyShopifyHmac Fixture.runtime
      (Fixture.signed (Fixture.callback_params "shop-a.myshopify.com")) "s3cr3t".
Proof.
  apply (verifyShopifyHmac_order_independent Fixture.runtime
           (Fixture.signed (Fixture.callback_params "shop-a.myshopify.com"))
           (rev (Fixture.signed (Fixture.callback_params "shop-a.myshopify.com")))
           "s3cr3t").
  - exact Fixture_collation_total.
  - exact Fixture_collation_transitive.
  - intros a b Ha Hb.
    cbn in Ha, Hb.
    repeat (destruct Ha as [<-|Ha]; [|]); try contradiction;
      repeat (destruct Hb as [<-|Hb]; [|]); try contradiction;
      try (intros _ _; reflexivity);
      intros H1 H2; vm_compute in H1, H2;
      solve [exfalso; apply H1; reflexivity | exfalso; apply H2; reflexivity].
  - cbn. repeat constructor; cbn; intuition discriminate.
  - apply Permutation_rev.
Defined.

(** ** The host parameter *)

Lemma below_64_cases (P : Z -> bool) :
  forallb P (map Z.of_nat (seq 0 64)) = true ->
  forall i, 0 <= i < 64 -> P i = true.
Proof.
  intros Hall i Hi. rewrite forallb_forall in Hall. apply Hall.
  replace i with (Z.of_nat (Z.to_nat i)) by lia.
  apply in_map. apply in_seq. lia.
Qed.

Lemma base64_char_facts i :
  0 <= i < 64 ->
  is_ascii_whitespace (base64_char i) = false
  /\ Ascii.eqb (base64_char i) "=" = false
  /\ Ascii.eqb (base64_char i) "-" = false
  /\ Ascii.eqb (base64_char i) "_" = false
  /\ base64_value (base64_char i) = Some i.
Proof.
  intros Hi.
  pose proof (below_64_cases
                (fun i => negb (is_ascii_whitespace (base64_char i))
                          && negb (Ascii.eqb (base64_char i) "=")
                          && negb (Ascii.eqb (base64_char i) "-")
                          && negb (Ascii.eqb (base64_char i) "_")
                          && match base64_value (base64_char i) with
                             | Some v => v =? i
                             | None => false
                             end)
                ltac:(vm_compute; reflexivity) i Hi) as H.
  cbv beta in H. rewrite !andb_true_iff, !negb_true_iff in H.
  destruct H as [[[[H1 H2] H3] H4] H5].
  repeat split; try assumption.
  destruct (base64_value (base64_char i)) as [v|]; [|discriminate].
  apply Z.eqb_eq in H5. congruence.
Qed.

Lemma list_ind3 {A : Type} (P : list A -> Prop) :
  P [] -> (forall a, P [a]) -> (forall a b, P [a; b]) ->
  (forall a b c rest, P rest -> P (a :: b :: c :: rest)) ->
  forall l, P l.
Proof.
  intros H0 H1 H2 H3 l.
  enough (P l /\ (forall a, P (a :: l)) /\ (forall a b, P (a :: b :: l))) by tauto.
  induction l as [|c l (IH0 & IH1 & IH2)].
  - auto.
  - split; [apply IH1|]. split; [intros a; apply IH2|].
    intros a b. apply H3. exact IH0.
Qed.

(** The shape of a base64 text: characters of the alphabet for values of
    six bits, then the padding; decoding the values gives the bytes
    back. *)
Lemma btoa_bytes_shape l :
  List.Forall (fun b => 0 <= b < 256) l ->
  exists values padding,
    btoa_bytes l = string_of_list_ascii (map base64_char values ++ padding)
    /\ List.Forall (fun v => 0 <= v < 64) values
    /\ (padding = [] \/ padding = ["="%char] \/ padding = ["="%char; "="%char])
    /\ (exists k, length (map base64_char values ++ padding) = 4 * k)%nat
    /\ (exists k r, length values = 4 * k + r /\ (r = 0 \/ r = 2 \/ r = 3))%nat
    /\ bytes_of_values values = l.
Proof.
  induction l as [|a|a b|a b c rest IH] using list_ind3; intros Hbytes.
  - exists [], []. repeat split; auto. exists 0%nat; reflexivity.
    exists 0%nat, 0%nat. auto.
  - apply List.Forall_cons_iff in Hbytes as [Ha _].
    exists [a / 4; (a mod 4) * 16], ["="%char; "="%char].
    split; [reflexivity|].
    split; [repeat (apply List.Forall_cons; [cbv beta; Z.div_mod_to_equations; lia|]); apply List.Forall_nil|].
    split; [auto|].
    split; [exists 1%nat; reflexivity|].
    split; [exists 0%nat, 2%nat; auto|].
    simpl. f_equal. Z.div_mod_to_equations; lia.
  - apply List.Forall_cons_iff in Hbytes as [Ha Hbytes].
    apply List.Forall_cons_iff in Hbytes as [Hb _].
    exists [a / 4; (a mod 4) * 16 + b / 16; (b mod 16) * 4], ["="%char].
    split; [reflexivity|].
    split; [repeat (apply List.Forall_cons; [cbv beta; Z.div_mod_to_equations; lia|]); apply List.Forall_nil|].
    split; [auto|].
    split; [exists 1%nat; reflexivity|].
    split; [exists 0%nat, 3%nat; auto|].
    simpl. f_equal; [Z.div_mod_to_equations; lia|]. f_equal. Z.div_mod_to_equations; lia.
  - apply List.Forall_cons_iff in Hbytes as [Ha Hbytes].
    apply List.Forall_cons_iff in Hbytes as [Hb Hbytes].
    apply List.Forall_cons_iff in Hbytes as [Hc Hbytes].
    destruct (IH Hbytes)
      as (values & padding & Henc & Hvalues & Hpadding & (k & Hk) & (k' & r & Hr & Hr')
          & Hdec).
    exists (a / 4 :: ((a mod 4) * 16 + b / 16) :: ((b mod 16) * 4 + c / 64) :: c mod 64
            :: values), padding.
    split.
    { change (btoa_bytes (a :: b :: c :: rest))
        with (String (base64_char (a / 4))
                (String (base64_char ((a mod 4) * 16 + b / 16))
                   (String (base64_char ((b mod 16) * 4 + c / 64))
                      (String (base64_char (c mod 64)) (btoa_bytes rest))))).
      rewrite Henc. reflexivity. }
    split; [repeat (apply List.Forall_cons; [cbv beta; Z.div_mod_to_equations; lia|]); exact Hvalues|].
    split; [exact Hpadding|].
    split; [exists (S k); simpl in *; lia|].
    split; [exists (S k'), r; simpl; split; [lia|exact Hr']|].
    change (bytes_of_values
              (a / 4 :: ((a mod 4) * 16 + b / 16) :: ((b mod 16) * 4 + c / 64)
               :: c mod 64 :: values))
      with (((a / 4) * 4 + ((a mod 4) * 16 + b / 16) / 16)
            :: ((((a mod 4) * 16 + b / 16) mod 16) * 16 + ((b mod 16) * 4 + c / 64) / 4)
            :: ((((b mod 16) * 4 + c / 64) mod 4) * 64 + c mod 64)
            :: bytes_of_values values).
    rewrite Hdec. f_equal; [Z.div_mod_to_equations; lia|].
    f_equal; [Z.div_mod_to_equations; lia|]. f_equal. Z.div_mod_to_equations; lia.
Qed.

Lemma strip_padding_shape text padding :
  List.Forall (fun c => Ascii.eqb c "=" = false) text ->
  padding = [] \/ padding = ["="%char] \/ padding = ["="%char; "="%char] ->
  strip_padding (text ++ padding) = text.
Proof.
  intros Htext Hpadding.
  induction text as [|c text IH]; [destruct Hpadding as [->|[->| ->]]; reflexivity|].
  apply List.Forall_cons_iff in Htext as [Hc Htext]. specialize (IH Htext).
  destruct text as [|d text].
  - destruct Hpadding as [->|[->| ->]]; simpl; rewrite ?Hc; reflexivity.
  - apply List.Forall_cons_iff in Htext as [Hd Htext].
    destruct (text ++ padding)%list as [|e tail] eqn:Htail.
    + apply app_eq_nil in Htail as [-> ->]. simpl. rewrite Hd. reflexivity.
    + change ((c :: d :: text) ++ padding)%list with (c :: d :: (text ++ padding))%list.
      change ((d :: text) ++ padding)%list with (d :: (text ++ padding))%list in IH.
      rewrite Htail in *.
      change (strip_padding (c :: d :: e :: tail))
        with (c :: strip_padding (d :: e :: tail)).
      rewrite IH. reflexivity.
Qed.

Lemma filter_whitespace_id text :
  List.Forall (fun c => is_ascii_whitespace c = false) text ->
  List.filter (fun c => negb (is_ascii_whitespace c)) text = text.
Proof.
  induction 1 as [|c text Hc _ IH]; simpl; [reflexivity|]. rewrite Hc, IH. reflexivity.
Qed.

Lemma base64_values_map values :
  List.Forall (fun v => 0 <= v < 64) values ->
  base64_values (map base64_char values) = Some values.
Proof.
  induction 1 as [|v values Hv _ IH]; simpl; [reflexivity|].
  destruct (base64_char_facts v Hv) as (_ & _ & _ & _ & ->). rewrite IH. reflexivity.
Qed.

Lemma fromCharCodes_code_units t : fromCharCodes (code_units t) = t.
Proof.
  unfold fromCharCodes, code_units. rewrite map_map.
  rewrite <- (string_of_list_ascii_of_string t) at 2. f_equal.
  induction (list_ascii_of_string t) as [|c l IH]; simpl; [reflexivity|].
  rewrite N2Z.id, ascii_N_embedding, IH. reflexivity.
Qed.

Lemma code_units_bytes t : List.Forall (fun b => 0 <= b < 256) (code_units t).
Proof.
  unfold code_units. apply List.Forall_forall. intros b Hb.
  apply in_map_iff in Hb as (c & <- & _).
  pose proof (N_ascii_bounded c). lia.
Qed.

Lemma replace_all_char_id c d text :
  List.Forall (fun x => Ascii.eqb x c = false) text ->
  replace_all_char c d (string_of_list_ascii text) = string_of_list_ascii text.
Proof.
  induction 1 as [|x text Hx _ IH]; simpl; [reflexivity|]. rewrite Hx, IH. reflexivity.
Qed.

Lemma Forall_alphabet_padding (P : ascii -> Prop) values padding :
  (forall v, 0 <= v < 64 -> P (base64_char v)) ->
  P "="%char ->
  List.Forall (fun v => 0 <= v < 64) values ->
  padding = [] \/ padding = ["="%char] \/ padding = ["="%char; "="%char] ->
  List.Forall P (map base64_char values ++ padding).
Proof.
  intros Halphabet Hpad Hvalues Hpadding. apply List.Forall_app. split.
  - apply List.Forall_map. eapply List.Forall_impl; [|exact Hvalues]. exact Halphabet.
  - destruct Hpadding as [->|[->| ->]]; repeat constructor; exact Hpad.
Qed.

(** [atob] undoes [btoa], also after the replacements of [isValidHost]. *)
Lemma atob_btoa_replaced t :
  atob (replace_all_char "_" "/" (replace_all_char "-" "+" (btoa t))) = Some t.
Proof.
  unfold btoa.
  destruct (btoa_bytes_shape (code_units t) (code_units_bytes t))
    as (values & padding & -> & Hvalues & Hpadding & (k & Hk) & (k' & r & Hr & Hr')
        & Hdec).
  rewrite (replace_all_char_id "-" "+").
  2: { apply Forall_alphabet_padding; auto. intros v Hv.
       apply (base64_char_facts v Hv). }
  rewrite (replace_all_char_id "_" "/").
  2: { apply Forall_alphabet_padding; auto. intros v Hv.
       apply (base64_char_facts v Hv). }
  unfold atob. rewrite list_ascii_of_string_of_list_ascii.
  rewrite filter_whitespace_id.
  2: { apply Forall_alphabet_padding; auto. intros v Hv.
       apply (base64_char_facts v Hv). }
  cbv zeta.
  assert ((length (map base64_char values ++ padding) mod 4 =? 0)%nat = true) as ->.
  { apply Nat.eqb_eq. rewrite Hk. rewrite Nat.mul_comm. apply Nat.Div0.mod_mul. }
  rewrite strip_padding_shape; [|
    apply List.Forall_map; eapply List.Forall_impl; [|exact Hvalues];
    intros v Hv; apply (base64_char_facts v Hv) | exact Hpadding].
  rewrite length_map.
  assert ((length values mod 4 =? 1)%nat = false) as ->.
  { apply Nat.eqb_neq. rewrite Hr.
    rewrite Nat.add_comm, Nat.mul_comm, Nat.Div0.mod_add.
    destruct Hr' as [->|[->| ->]]; discriminate. }
  rewrite base64_values_map by exact Hvalues.
  rewrite Hdec, fromCharCodes_code_units. reflexivity.
Qed.

Lemma before_char_id c s :
  all_in (fun x => negb (Ascii.eqb x c)) s = true -> before_char c s = s.
Proof.
  induction s as [|x s IH]; simpl; [reflexivity|].
  rewrite andb_true_iff, negb_true_iff. intros [-> Hs]. rewrite IH by exact Hs.
  reflexivity.
Qed.

Lemma remove_first_id (q : ascii -> bool) p s :
  all_in q p = false -> all_in q s = true -> remove_first p s = s.
Proof.
  intros Hp. induction s as [|x s IH]; intros Hs.
  - cbn [remove_first]. destruct (String.prefix p "") eqn:Hprefix; [|reflexivity].
    apply prefix_app in Hprefix as (t & Ht). symmetry in Ht.
    destruct p; [discriminate Hp|]. rewrite append_String in Ht. discriminate.
  - cbn [remove_first].
    destruct (String.prefix p (String x s)) eqn:Hprefix.
    + apply prefix_app in Hprefix as (t & Ht). rewrite Ht, all_in_app, Hp in Hs.
      discriminate.
    + simpl in Hs. apply andb_true_iff in Hs as [_ Hs]. rewrite IH by exact Hs.
      reflexivity.
Qed.

Lemma includes_nonempty s p : includes s p = true -> p <> "" -> s <> "".
Proof.
  intros Hincl Hp ->. simpl in Hincl. rewrite orb_false_r in Hincl.
  destruct p; [contradiction|discriminate].
Qed.

(** X28. The host check decodes its argument as base64, standard or
    URL-safe, and looks for the domain in the decoded text.  Decoding
    undoes encoding: [atob] returns every text that [btoa] encoded.  So
    for a well-formed domain the check accepts the base64 text of every
    text that contains the domain; a missing or empty host is refused. *)
Theorem isValidHost_accepts_encoded_domain (rt : Runtime) shop t :
  atob (btoa t) = Some t
  /\ (isValidShopDomain rt (Some (JStr shop)) = true ->
      includes t shop = true ->
      isValidHost (Some (btoa t)) shop = true)
  /\ isValidHost None shop = false
  /\ isValidHost (Some "") shop = false.
Proof.
  split; [|split; [|split; reflexivity]].
  - pose proof (atob_btoa_replaced t) as Hround.
    destruct (btoa_bytes_shape (code_units t) (code_units_bytes t))
      as (values & padding & Henc & Hvalues & Hpadding & _).
    unfold btoa in *. rewrite Henc in *.
    rewrite (replace_all_char_id "-" "+") in Hround.
    2: { apply Forall_alphabet_padding; auto. intros v Hv.
         apply (base64_char_facts v Hv). }
    rewrite (replace_all_char_id "_" "/") in Hround.
    2: { apply Forall_alphabet_padding; auto. intros v Hv.
         apply (base64_char_facts v Hv). }
    exact Hround.
  - intros Hvalid Hincl. unfold isValidHost.
    assert (shop <> "") as Hshop.
    { intros ->. unfold isValidShopDomain in Hvalid. simpl in Hvalid. discriminate. }
    assert (String.eqb (btoa t) "" = false) as ->.
    { apply String.eqb_neq. unfold btoa. apply btoa_bytes_nonempty.
      pose proof (includes_nonempty t shop Hincl Hshop) as Ht.
      destruct t; [contradiction|discriminate]. }
    rewrite atob_btoa_replaced. cbv zeta.
    assert (all_in (fun ch => is_alnum_dash ch || Ascii.eqb ch ".") shop = true)
      as Hchars.
    { apply (isValidShopDomain_matches rt) in Hvalid.
      apply regex_test_correct, shop_domain_regex_correct in Hvalid
        as (c & label & -> & Hc & Hlabel).
      simpl. rewrite all_in_app. rewrite !andb_true_iff. split; [|split].
      - unfold is_alnum_dash. rewrite Hc. reflexivity.
      - apply (all_in_impl is_alnum_dash); [|exact Hlabel]. intros ch ->. reflexivity.
      - vm_compute. reflexivity. }
    rewrite (remove_first_id (fun ch => is_alnum_dash ch || Ascii.eqb ch ".")
               "https://" shop eq_refl Hchars).
    rewrite (remove_first_id (fun ch => is_alnum_dash ch || Ascii.eqb ch ".")
               "http://" shop eq_refl Hchars).
    rewrite before_char_id; [exact Hincl|].
    apply (all_in_impl (fun ch => is_alnum_dash ch || Ascii.eqb ch ".")); [|exact Hchars].
    intros ch Hch. destruct (Ascii.eqb_spec ch "/") as [->|]; [|reflexivity].
    vm_compute in Hch. discriminate.
Qed.

Lemma isValidHost_accepts_encoded_domain_witness :
  isValidHost (Some "c2hvcC1hLm15c2hvcGlmeS5jb20vYWRtaW4=") "shop-a.myshopify.com" = true.
Proof.
  refine (proj1 (proj2 (isValidHost_accepts_encoded_domain Fixture.runtime
                          "shop-a.myshopify.com" "shop-a.myshopify.com/admin")) _ _);
    vm_compute; reflexivity.
Defined.



(** ** The authorization URL *)

Lemma below_256_cases (P : Z -> bool) :
  forallb P (map Z.of_nat (seq 0 256)) = true ->
  forall b, 0 <= b < 256 -> P b = true.
Proof.
  intros Hall b Hb. rewrite forallb_forall in Hall. apply Hall.
  replace b with (Z.of_nat (Z.to_nat b)) by lia.
  apply in_map. apply in_seq. lia.
Qed.

Lemma urlencode_byte_chars b :
  0 <= b < 256 -> all_in is_urlencoded_char (urlencode_byte b) = true.
Proof.
  apply (below_256_cases (fun b => all_in is_urlencoded_char (urlencode_byte b))).
  vm_compute. reflexivity.
Qed.

Lemma TextEncoder_encode_bytes s :
  List.Forall (fun b => 0 <= b < 256) (TextEncoder_encode s).
Proof.
  unfold TextEncoder_encode. apply List.Forall_flat_map.
  eapply List.Forall_impl; [|apply code_units_bytes].
  intros c Hc. cbv beta.
  assert (forallb (fun c => forallb (fun b => (0 <=? b) && (b <? 256)) (utf8_of_code c))
            (map Z.of_nat (seq 0 256)) = true) as Hall by (vm_compute; reflexivity).
  pose proof (below_256_cases _ Hall c Hc) as Hbytes. cbv beta in Hbytes.
  rewrite forallb_forall in Hbytes. apply List.Forall_forall. intros b Hb.
  specialize (Hbytes b Hb). lia.
Qed.

Lemma all_in_join_empty (p : ascii -> bool) parts :
  List.Forall (fun s => all_in p s = true) parts -> all_in p (join "" parts) = true.
Proof.
  induction 1 as [|s parts Hs Hparts IH]; [reflexivity|].
  destruct parts as [|s' parts]; [exact Hs|].
  change (join "" (s :: s' :: parts)) with (s ++ "" ++ join "" (s' :: parts)).
  rewrite append_Empty, all_in_app, Hs, IH. reflexivity.
Qed.

Lemma urlencode_chars s : all_in is_urlencoded_char (urlencode s) = true.
Proof.
  unfold urlencode. apply all_in_join_empty. apply List.Forall_map.
  eapply List.Forall_impl; [|apply TextEncoder_encode_bytes].
  intros b Hb. apply urlencode_byte_chars. exact Hb.
Qed.

Lemma append_assoc_string (a b c : string) : (a ++ b) ++ c = a ++ b ++ c.
Proof.
  induction a as [|x a IH].
  - rewrite !append_Empty. reflexivity.
  - rewrite !append_String, IH. reflexivity.
Qed.

(** X30. The authorization URL is the authorize page of the given domain
    followed by exactly four query parameters, client_id, scope,
    redirect_uri and state in this order, each value form-urlencoded.  An
    encoded value holds letters, digits and the characters * - . _ + %
    only, so no value, whatever its text, can end its parameter, add
    another one or start a fragment. *)
Theorem buildShopifyAuthUrl_encodes_its_parameters shop clientId scope redirectUri state :
  buildShopifyAuthUrl shop clientId scope redirectUri state
  = "https://" ++ shop ++ "/admin/oauth/authorize?"
    ++ "client_id=" ++ urlencode clientId
    ++ "&scope=" ++ urlencode scope
    ++ "&redirect_uri=" ++ urlencode redirectUri
    ++ "&state=" ++ urlencode state
  /\ (forall value, all_in is_urlencoded_char (urlencode value) = true)
  /\ (forall c, In c ["&"; "="; "#"; "?"; "/"; ":"; " "]%char ->
                is_urlencoded_char c = false).
Proof.
  split; [|split].
  - unfold buildShopifyAuthUrl, URLSearchParams_toString.
    cbn [map fst snd join].
    change (urlencode "client_id") with "client_id".
    change (urlencode "scope") with "scope".
    change (urlencode "redirect_uri") with "redirect_uri".
    change (urlencode "state") with "state".
    rewrite !append_assoc_string. reflexivity.
  - apply urlencode_chars.
  - intros c Hc. simpl in Hc.
    repeat (destruct Hc as [<-|Hc]; [reflexivity|]). contradiction.
Qed.
